(** * Record store and authentication service of the clinic backend

    A shallow embedding of [src/services/database.service.js] and
    [src/services/auth.service.js], and the properties of the
    natural-language specification checked against it.  The first part
    holds the definitions: the JavaScript values, the two services, the
    contract of the token package, the vocabulary of the statements and
    the sample documents.  The second part holds the lemmas and the
    theorems, one section of the file per group of claims.

    Conventions of the embedding.
    - JavaScript values are the trees of type [value].  Numbers are
      integer-valued ([Int]) or [NaN]; the embedding is exact as long as
      every number stays an integer in the safe range of a double.
      Fractions, infinities and [-0] are outside it.
    - A plain object is a finite map from property names to values
      ([gmap string value]); property order, which only shows in the
      JSON text, is not tracked, and the properties inherited from
      [Object.prototype] are not modelled.  Reading a missing property
      gives [VUndef], as in JavaScript.
    - Objects and arrays are compared by reference in JavaScript.  The
      values here carry no identity, and [===] between two objects or two
      arrays is modelled as [false] (distinct references).
    - The [bcrypt] and [jsonwebtoken] packages are not part of the
      repository; they enter as Section variables.
    - The clock and the random salt are explicit arguments; one clock
      reading stands for all the readings made within one call. *)

From Stdlib Require Import ZArith String Ascii List Lia.
From stdpp Require Import base option gmap strings list pretty.

Set Warnings "-register-all".
Open Scope Z_scope.

(** ** JavaScript values *)

Inductive num : Type :=
| Int (z : Z)
| NaN.

Inductive value : Type :=
| VUndef
| VNull
| VBool (b : bool)
| VNum (n : num)
| VStr (s : string)
| VArr (l : list value)
| VObj (o : gmap string value).

Abbreviation obj := (gmap string value).

(** [o.k] and [o?.k] on an object. *)
Definition obj_get (k : string) (o : obj) : value :=
  default VUndef (o !! k).

(** [v.k] where [v] is any value that is not [null] or [undefined]
    ([v?.k] in the source when [v] can be). *)
Definition prop (k : string) (v : value) : value :=
  match v with
  | VObj o => obj_get k o
  | _ => VUndef
  end.

(** ToBoolean. *)
Definition truthy (v : value) : bool :=
  match v with
  | VUndef | VNull => false
  | VBool b => b
  | VNum (Int z) => negb (z =? 0)
  | VNum NaN => false
  | VStr s => negb (String.eqb s "")
  | VArr _ | VObj _ => true
  end.

(** [a || b]. *)
Definition js_or (a b : value) : value := if truthy a then a else b.

(** Strict equality [===]. *)
Definition strict_eq (a b : value) : bool :=
  match a, b with
  | VUndef, VUndef => true
  | VNull, VNull => true
  | VBool x, VBool y => Bool.eqb x y
  | VNum (Int x), VNum (Int y) => x =? y
  | VStr x, VStr y => String.eqb x y
  | _, _ => false
  end.

(** ToString; array elements that are [null] or [undefined] print as the
    empty string ([Array.prototype.join]). *)
Fixpoint to_string (v : value) : string :=
  match v with
  | VUndef => "undefined"
  | VNull => "null"
  | VBool b => if b then "true" else "false"
  | VNum (Int z) => pretty z
  | VNum NaN => "NaN"
  | VStr s => s
  | VArr l =>
      String.concat ","
        (map (fun x => match x with
                       | VUndef | VNull => ""
                       | _ => to_string x
                       end) l)
  | VObj _ => "[object Object]"
  end%string.

(** *** Numerals *)

(** Strings hold the UTF-8 encoding of the text.  The white space that
    [parseInt] and [Number] skip is the white space and the line
    terminators of the language: the characters U+0009 to U+000D and
    U+0020, of one byte, [is_ws]; U+00A0, of two bytes, [is_ws2];
    U+1680, U+2000 to U+200A, U+2028, U+2029, U+202F, U+205F, U+3000 and
    U+FEFF, of three bytes, [is_ws3]. *)
Definition is_ws (a : ascii) : bool :=
  let n := nat_of_ascii a in
  ((9 <=? n) && (n <=? 13) || (n =? 32))%nat.

Definition is_ws2 (a b : ascii) : bool :=
  ((nat_of_ascii a =? 194) && (nat_of_ascii b =? 160))%nat.

Definition is_ws3 (a b c : ascii) : bool :=
  let x := nat_of_ascii a in
  let y := nat_of_ascii b in
  let z := nat_of_ascii c in
  ((x =? 225) && (y =? 154) && (z =? 128)
   || (x =? 226) && (y =? 128)
      && ((128 <=? z) && (z <=? 138) || (z =? 168) || (z =? 169) || (z =? 175))
   || (x =? 226) && (y =? 129) && (z =? 159)
   || (x =? 227) && (y =? 128) && (z =? 128)
   || (x =? 239) && (y =? 187) && (z =? 191))%nat.

(** The string without the white space it starts with. *)
Fixpoint skip_ws (s : list ascii) : list ascii :=
  match s with
  | [] => []
  | a :: r =>
      if is_ws a then skip_ws r
      else
        match r with
        | [] => s
        | b :: r' =>
            if is_ws2 a b then skip_ws r'
            else
              match r' with
              | [] => s
              | c :: r'' => if is_ws3 a b c then skip_ws r'' else s
              end
        end
  end.

(** The same on the reversed string, where the bytes of a character come
    last first. *)
Fixpoint skip_ws_rev (s : list ascii) : list ascii :=
  match s with
  | [] => []
  | a :: r =>
      if is_ws a then skip_ws_rev r
      else
        match r with
        | [] => s
        | b :: r' =>
            if is_ws2 b a then skip_ws_rev r'
            else
              match r' with
              | [] => s
              | c :: r'' => if is_ws3 c b a then skip_ws_rev r'' else s
              end
        end
  end.

Definition trim_ws (s : list ascii) : list ascii :=
  rev (skip_ws_rev (rev (skip_ws s))).

Definition digit_val (radix : Z) (a : ascii) : option Z :=
  let n := Z.of_nat (nat_of_ascii a) in
  let d := if (48 <=? n) && (n <=? 57) then Some (n - 48)
           else if (97 <=? n) && (n <=? 122) then Some (n - 87)
           else if (65 <=? n) && (n <=? 90) then Some (n - 55)
           else None in
  match d with
  | Some d => if d <? radix then Some d else None
  | None => None
  end.

(** The longest prefix of digits, read in the radix; [None] when the
    prefix is empty. *)
Fixpoint read_digits (radix : Z) (s : list ascii) (acc : option Z)
  : option Z * list ascii :=
  match s with
  | a :: r =>
      match digit_val radix a with
      | Some d => read_digits radix r (Some (default 0 acc * radix + d))
      | None => (acc, s)
      end
  | [] => (acc, [])
  end.

Definition of_digits (o : option Z) : num :=
  match o with
  | Some z => Int z
  | None => NaN
  end.

Definition num_neg (n : num) : num :=
  match n with
  | Int z => Int (- z)
  | NaN => NaN
  end.

Definition is_x (a : ascii) : bool :=
  let n := nat_of_ascii a in ((n =? 120) || (n =? 88))%nat.

(** [parseInt(s)] on a string, with no radix argument: leading white
    space, a sign, a [0x] prefix, then the longest run of digits; what
    follows the digits is ignored. *)
Definition parse_int_string (s : string) : num :=
  let s1 := skip_ws (list_ascii_of_string s) in
  let '(neg, s2) :=
    match s1 with
    | "-"%char :: r => (true, r)
    | "+"%char :: r => (false, r)
    | _ => (false, s1)
    end in
  let '(radix, s3) :=
    match s2 with
    | "0"%char :: x :: r => if is_x x then (16, r) else (10, s2)
    | _ => (10, s2)
    end in
  let n := of_digits (fst (read_digits radix s3 None)) in
  if neg then num_neg n else n.

(** [parseInt(v)]: the argument goes through ToString first.  The
    decimal numeral of an integer reads back as that integer; that is
    how ToString writes the integers below [10^21] in magnitude, the
    ones for which the case of the numbers below stands. *)
Definition parseInt (v : value) : num :=
  match v with
  | VNum n => n
  | _ => parse_int_string (to_string v)
  end.

(** The whole of [s] as a numeral in the radix. *)
Definition whole_numeral (radix : Z) (s : list ascii) : num :=
  match read_digits radix s None with
  | (Some z, []) => Int z
  | _ => NaN
  end.

Definition radix_of_prefix (a : ascii) : option Z :=
  let n := nat_of_ascii a in
  if ((n =? 120) || (n =? 88))%nat then Some 16
  else if ((n =? 111) || (n =? 79))%nat then Some 8
  else if ((n =? 98) || (n =? 66))%nat then Some 2
  else None.

(** StringToNumber, for the numerals that denote integers: white space
    is trimmed at both ends, the empty string is [0], and the whole of
    what is left must be a signed decimal numeral or an unsigned
    hexadecimal, octal or binary one.  Numerals with a fraction or an
    exponent, and [Infinity], denote numbers outside the integer model
    and are not distinguished from [NaN] here. *)
Definition string_to_number (s : string) : num :=
  let t := trim_ws (list_ascii_of_string s) in
  match t with
  | [] => Int 0
  | "-"%char :: r => num_neg (whole_numeral 10 r)
  | "+"%char :: r => whole_numeral 10 r
  | "0"%char :: x :: r =>
      match radix_of_prefix x with
      | Some radix => whole_numeral radix r
      | None => whole_numeral 10 t
      end
  | _ => whole_numeral 10 t
  end.

(** ToNumber. *)
Definition to_number (v : value) : num :=
  match v with
  | VUndef => NaN
  | VNull => Int 0
  | VBool b => Int (if b then 1 else 0)
  | VNum n => n
  | VStr s => string_to_number s
  | VArr _ => string_to_number (to_string v)
  | VObj _ => NaN
  end.

(** The integer that a sum of two integer-valued doubles is rounded to:
    below [2^53] in magnitude every integer is a double; from there on
    the doubles are the multiples of a power of two, and the sum goes to
    the nearest, to the one with the even mantissa when it is half-way.
    (Sums that overflow the doubles are outside the model.) *)
Definition round_double (z : Z) : Z :=
  let a := Z.abs z in
  if a <? 2 ^ 53 then z
  else
    let e := Z.log2 a - 52 in
    let q := a / 2 ^ e in
    let r := a mod 2 ^ e in
    let half := 2 ^ (e - 1) in
    let q' := if (half <? r) || ((r =? half) && Z.odd q) then q + 1 else q in
    Z.sgn z * (q' * 2 ^ e).

Definition num_add (a b : num) : num :=
  match a, b with
  | Int x, Int y => Int (round_double (x + y))
  | _, _ => NaN
  end.

Definition num_mul (a b : num) : num :=
  match a, b with
  | Int x, Int y => Int (x * y)
  | _, _ => NaN
  end.

Definition num_max (a b : num) : num :=
  match a, b with
  | Int x, Int y => Int (Z.max x y)
  | _, _ => NaN
  end.

(** [Math.max(x, ...r)] with at least one argument: every argument goes
    through ToNumber, and one [NaN] makes the result [NaN]. *)
Definition math_max (x : value) (r : list value) : num :=
  fold_left (fun acc v => num_max acc (to_number v)) r (to_number x).

(** *** JSON *)

(** [JSON.parse(JSON.stringify(v))]: a property whose value is
    [undefined] is dropped, [undefined] in an array and [NaN] become
    [null]. *)
Fixpoint json_clean (v : value) : value :=
  match v with
  | VNum NaN => VNull
  | VArr l =>
      VArr (map (fun x => match x with
                          | VUndef => VNull
                          | _ => json_clean x
                          end) l)
  | VObj o =>
      VObj (omap (fun x => match x with
                           | VUndef => None
                           | _ => Some (json_clean x)
                           end) o)
  | _ => v
  end.

Definition json_clean_obj (o : gmap string value) : gmap string value :=
  omap (fun x => match x with
                 | VUndef => None
                 | _ => Some (json_clean x)
                 end) o.

(** What [JSON.stringify] keeps of a document. *)
Definition json_clean_db (d : gmap string (list (gmap string value)))
  : gmap string (list (gmap string value)) :=
  (fun tbl => map json_clean_obj tbl) <$> d.

(** ** The store service *)

(** The parsed document: a table name gives an array of records. *)
Abbreviation table := (list (gmap string value)).
Abbreviation database := (gmap string (list (gmap string value))).

(** The errors the services throw, one constructor per message. *)
Inductive error : Type :=
| ErrorCargar                                  (* Error al cargar la base de datos *)
| ErrorGuardar                                 (* Error al guardar la base de datos *)
| TablaNoExiste (tableName : string)           (* La tabla '...' no existe *)
| RegistroNoEncontrado (id : value) (tableName : string)
| UsuarioNoEncontrado (usuario : value)
| PacienteNoEncontrado (dni : value)
| CamposRequeridos (mensaje : string)
| BcryptError                                  (* rejection of bcrypt.hash / bcrypt.compare *)
| JwtSignError                                 (* what jwt.sign throws *)
| TypeError.

Inductive result (A : Type) : Type :=
| Ok (a : A)
| Throw (e : error).
Arguments Ok {A} a.
Arguments Throw {A} e.

(** What [db.json] holds: nothing that [fs.readFile] and [JSON.parse]
    read, the text [null] (what [JSON.stringify] writes of a [this.data]
    that is [null]), or a document.  A file that holds another JSON
    value is outside the model. *)
Inductive file : Type :=
| Unreadable
| HoldsNull
| Holds (d : database).

(** The state of the [DatabaseService] singleton and of its file.
    [data] is [this.data] ([None] for [null]); [db_file] is what
    [db.json] holds; [disk_writable] tells whether [fs.writeFile]
    succeeds. *)
Record db_state : Type := MkDbState {
  data : option database;
  db_file : file;
  disk_writable : bool
}.

(** The document in the file, if it holds one. *)
Definition disk (st : db_state) : option database :=
  match db_file st with
  | Holds d => Some d
  | Unreadable | HoldsNull => None
  end.

(** The state with [this.data], the document in the file ([None] for a
    file that cannot be read) and whether the file can be written. *)
Definition DbState (data : option database) (disk : option database)
    (disk_writable : bool) : db_state :=
  MkDbState data
    (match disk with
     | Some d => Holds d
     | None => Unreadable
     end)
    disk_writable.

(** An [async] method: it runs on the state and returns or throws. *)
Definition M (A : Type) : Type := db_state -> result A * db_state.

Definition ret {A} (a : A) : M A := fun st => (Ok a, st).
Definition throw {A} (e : error) : M A := fun st => (Throw e, st).
Definition bind {A B} (m : M A) (f : A -> M B) : M B :=
  fun st =>
    match m st with
    | (Ok a, st') => f a st'
    | (Throw e, st') => (Throw e, st')
    end.

Notation "'let*' x ':=' m 'in' k" := (bind m (fun x => k))
  (at level 10, x name, m at level 100, k at level 200).
Notation "'do' m 'then' k" := (bind m (fun _ => k))
  (at level 10, m at level 100, k at level 200).

Module Store.

(** [loadData()]: [None] is the [null] that a file holding [null] is
    parsed to. *)
Definition loadData : M (option database) :=
  fun st =>
    match db_file st with
    | Holds d => (Ok (Some d), MkDbState (Some d) (db_file st) (disk_writable st))
    | HoldsNull => (Ok None, MkDbState None (db_file st) (disk_writable st))
    | Unreadable => (Throw ErrorCargar, st)
    end.

Definition saveData : M bool :=
  fun st =>
    match data st with
    | Some d =>
        if disk_writable st
        then (Ok true, DbState (data st) (Some (json_clean_db d)) true)
        else (Throw ErrorGuardar, st)
    | None =>
        (* JSON.stringify(null) is the text null *)
        if disk_writable st
        then (Ok true, MkDbState None HoldsNull true)
        else (Throw ErrorGuardar, st)
    end.

(** [ensureDataLoaded], with the read of [this.data] that every caller
    makes right after the call: the document is returned for the code
    that follows, and with [null] loaded the access to a property of
    [this.data] throws. *)
Definition ensureDataLoaded : M database :=
  fun st =>
    match data st with
    | Some d => (Ok d, st)
    | None =>
        match loadData st with
        | (Ok (Some d), st') => (Ok d, st')
        | (Ok None, st') => (Throw TypeError, st')
        | (Throw e, st') => (Throw e, st')
        end
    end.

(** [this.data[tableName] = tbl], in memory. *)
Definition set_table (tableName : string) (tbl : table) : M unit :=
  fun st =>
    match data st with
    | Some d =>
        (Ok tt, MkDbState (Some (<[tableName := tbl]> d)) (db_file st)
                  (disk_writable st))
    | None => (Throw TypeError, st)
    end.

(** The names that every object has from [Object.prototype]: for a
    document without a key of that name, [this.data[name]] is a function
    (the prototype itself for [__proto__]), so it is truthy and is not
    an array. *)
Definition inherited (name : string) : bool :=
  existsb (String.eqb name)
    [ "constructor"; "__defineGetter__"; "__defineSetter__"; "hasOwnProperty";
      "__lookupGetter__"; "__lookupSetter__"; "isPrototypeOf";
      "propertyIsEnumerable"; "toString"; "valueOf"; "__proto__";
      "toLocaleString" ]%string.

(** [this.data[tableName]] past the guard [if (!this.data[tableName])]
    of the generic operations, for the four of them that go on to call a
    method of arrays on it: on an inherited name the guard passes and
    that call throws. *)
Definition the_table (tableName : string) : M table :=
  let* d := ensureDataLoaded in
  match d !! tableName with
  | Some tbl => ret tbl
  | None =>
      if inherited tableName then throw TypeError
      else throw (TablaNoExiste tableName)
  end.

(** What [getAll] returns: the table, or what the name inherits. *)
Inductive fetched : Type :=
| Table (tbl : table)
| Inherited (name : string).

(** [item => item.id === parseInt(id)] *)
Definition has_id (n : num) (item : gmap string value) : bool :=
  strict_eq (obj_get "id" item) (VNum n).

Definition getAll (tableName : string) : M fetched :=
  let* d := ensureDataLoaded in
  match d !! tableName with
  | Some tbl => ret (Table tbl)
  | None =>
      if inherited tableName then ret (Inherited tableName)
      else throw (TablaNoExiste tableName)
  end.

Definition getById (tableName : string) (id : value) : M (gmap string value) :=
  let* tbl := the_table tableName in
  match list_find (has_id (parseInt id)) tbl with
  | Some (_, record) => ret record
  | None => throw (RegistroNoEncontrado id tableName)
  end.

(** [Math.max(...tbl.map(item => item.id))], or [0] for an empty table. *)
Definition maxId (tbl : table) : num :=
  match map (obj_get "id") tbl with
  | [] => Int 0
  | x :: r => math_max x r
  end.

Definition create (tableName : string) (newRecord : gmap string value)
  : M (gmap string value) :=
  let* tbl := the_table tableName in
  let recordWithId : gmap string value :=
    newRecord ∪ {[ "id" := VNum (num_add (maxId tbl) (Int 1)) ]} in
  do set_table tableName (tbl ++ [recordWithId]) then
  do saveData then
  ret recordWithId.

Definition update (tableName : string) (id : value) (updatedData : gmap string value)
  : M (gmap string value) :=
  let* tbl := the_table tableName in
  match list_find (has_id (parseInt id)) tbl with
  | None => throw (RegistroNoEncontrado id tableName)
  | Some (index, old) =>
      let updated : gmap string value :=
        <[ "id" := VNum (parseInt id) ]> (updatedData ∪ old) in
      do set_table tableName (<[ index := updated ]> tbl) then
      do saveData then
      ret updated
  end.

Definition delete (tableName : string) (id : value) : M (gmap string value) :=
  let* tbl := the_table tableName in
  match list_find (has_id (parseInt id)) tbl with
  | None => throw (RegistroNoEncontrado id tableName)
  | Some (index, deletedRecord) =>
      do set_table tableName (base.delete index tbl) then
      do saveData then
      ret deletedRecord
  end.

(** *** Methods per entity *)

Definition getRoleById (id : value) := getById "roles" id.
Definition getUsuarioById (id : value) := getById "usuarios" id.
Definition getPerfilById (id : value) := getById "perfiles" id.
Definition getEmpleadoById (id : value) := getById "empleados" id.
Definition getPacienteById (id : value) := getById "pacientes" id.
Definition getAllTareas := getAll "tareas".

(** [this.data.<name>] read without the guard of the generic
    operations: a missing table makes the method call on it fail. *)
Definition raw_table (tableName : string) : M table :=
  let* d := ensureDataLoaded in
  match d !! tableName with
  | Some tbl => ret tbl
  | None => throw TypeError
  end.

Definition createRole (roleData : gmap string value) : M (gmap string value) :=
  let nombre := obj_get "nombre" roleData in
  let permisos := obj_get "permisos" roleData in
  if negb (truthy nombre) || negb (truthy permisos)
  then throw (CamposRequeridos "Nombre y permisos son requeridos para crear un rol")
  else create "roles" {[ "nombre" := nombre; "permisos" := permisos ]}.

Definition getUsuarioByUsername (usuario : value) : M (gmap string value) :=
  let* usuarios := raw_table "usuarios" in
  match find (fun u => strict_eq (obj_get "usuario" u) usuario) usuarios with
  | Some user => ret user
  | None => throw (UsuarioNoEncontrado usuario)
  end.

Definition createPerfil (perfilData : gmap string value) : M (gmap string value) :=
  let tipo := obj_get "tipo" perfilData in
  if negb (truthy tipo)
  then throw (CamposRequeridos "Tipo es requerido para crear un perfil")
  else create "perfiles"
         {[ "tipo" := tipo;
            "empleadoId" := obj_get "empleadoId" perfilData;
            "pacienteId" := obj_get "pacienteId" perfilData ]}.

Definition createEmpleado (empleadoData : gmap string value) : M (gmap string value) :=
  let nombre := obj_get "nombre" empleadoData in
  let puesto := obj_get "puesto" empleadoData in
  if negb (truthy nombre) || negb (truthy puesto)
  then throw (CamposRequeridos "Nombre y puesto son requeridos para crear un empleado")
  else create "empleados" {[ "nombre" := nombre; "puesto" := puesto ]}.

Definition getPacienteByDni (dni : value) : M (gmap string value) :=
  let* pacientes := raw_table "pacientes" in
  match find (fun p => strict_eq (obj_get "dni" p) dni) pacientes with
  | Some paciente => ret paciente
  | None => throw (PacienteNoEncontrado dni)
  end.

Definition createPaciente (pacienteData : gmap string value) : M (gmap string value) :=
  let nombre := obj_get "nombre" pacienteData in
  let dni := obj_get "dni" pacienteData in
  if negb (truthy nombre) || negb (truthy dni)
  then throw (CamposRequeridos "Nombre y DNI son requeridos para crear un paciente")
  else create "pacientes"
         {[ "nombre" := nombre; "dni" := dni;
            "historiaClinica" := obj_get "historiaClinica" pacienteData ]}.

Definition createInsumo (insumoData : gmap string value) : M (gmap string value) :=
  let nombre := obj_get "nombre" insumoData in
  let stock := obj_get "stock" insumoData in
  let unidad := obj_get "unidad" insumoData in
  if negb (truthy nombre) || strict_eq stock VUndef || negb (truthy unidad)
  then throw (CamposRequeridos "Nombre, stock y unidad son requeridos para crear un insumo")
  else create "insumos" {[ "nombre" := nombre; "stock" := stock; "unidad" := unidad ]}.

Definition getTareasByEmpleado (empleadoId : value) : M table :=
  let* tareas := raw_table "tareas" in
  ret (filter (fun t => strict_eq (obj_get "empleadoId" t) (VNum (parseInt empleadoId))) tareas).

Definition getTareasByPaciente (pacienteId : value) : M table :=
  let* tareas := raw_table "tareas" in
  ret (filter (fun t => strict_eq (obj_get "pacienteId" t) (VNum (parseInt pacienteId))) tareas).

Definition getTareasByEstado (estado : value) : M table :=
  let* tareas := raw_table "tareas" in
  ret (filter (fun t => strict_eq (obj_get "estado" t) estado) tareas).

Definition createTarea (tareaData : gmap string value) : M (gmap string value) :=
  if negb (truthy (obj_get "descripcion" tareaData))
     || negb (truthy (obj_get "empleadoId" tareaData))
     || negb (truthy (obj_get "estado" tareaData))
     || negb (truthy (obj_get "fecha" tareaData))
  then throw (CamposRequeridos
                "Descripción, empleadoId, estado y fecha son requeridos para crear una tarea")
  else create "tareas" tareaData.

Section Bcrypt.

(** [bcrypt.hash(data, rounds)] on a string; the salt it draws is the
    third argument. *)
Variable bcrypt_hash : string -> Z -> string -> string.

(** [await bcrypt.hash(password, saltRounds)]: the promise is rejected
    when the data is not a string. *)
Definition hash_password (password : value) (saltRounds : Z) (salt : string)
  : M value :=
  match password with
  | VStr s => ret (VStr (bcrypt_hash s saltRounds salt))
  | _ => throw BcryptError
  end.

Definition createUsuario (salt : string) (userData : gmap string value)
  : M (gmap string value) :=
  let usuario := obj_get "usuario" userData in
  let password := obj_get "password" userData in
  let rolId := obj_get "rolId" userData in
  let perfilId := obj_get "perfilId" userData in
  let tipoPerfilId := obj_get "tipoPerfilId" userData in
  if negb (truthy usuario) || negb (truthy password)
     || negb (truthy rolId) || negb (truthy perfilId)
  then throw (CamposRequeridos "Usuario, password, rolId y perfilId son requeridos")
  else
    let saltRounds := 10 in
    let* hashedPassword := hash_password password saltRounds salt in
    let usuarioData : gmap string value :=
      {[ "usuario" := usuario; "password" := hashedPassword;
         "rolId" := rolId; "perfilId" := perfilId ]} in
    let usuarioData :=
      if truthy tipoPerfilId
      then <[ "tipoPerfilId" := tipoPerfilId ]> usuarioData
      else usuarioData in
    create "usuarios" usuarioData.

(** [updateUsuario] writes the hash into the object it was given; the
    caller's view of that object is not part of the model. *)
Definition updateUsuario (salt : string) (id : value) (userData : gmap string value)
  : M (gmap string value) :=
  let* userData :=
    if truthy (obj_get "password" userData)
    then
      let saltRounds := 10 in
      let* hashed := hash_password (obj_get "password" userData) saltRounds salt in
      ret (<[ "password" := hashed ]> userData)
    else ret userData in
  update "usuarios" id userData.

End Bcrypt.

(** *** Composed reads *)

Definition getUsuarioCompleto (id : value) : M (gmap string value) :=
  let* usuario := getUsuarioById id in
  let* rol := getRoleById (obj_get "rolId" usuario) in
  let* perfil := getPerfilById (obj_get "perfilId" usuario) in
  let* detallesPerfil :=
    if strict_eq (obj_get "tipo" perfil) (VStr "empleado")
       && truthy (obj_get "empleadoId" perfil)
    then
      let* empleado := getEmpleadoById (obj_get "empleadoId" perfil) in
      ret ({[ "empleado" := VObj empleado ]} : gmap string value)
    else if strict_eq (obj_get "tipo" perfil) (VStr "paciente")
            && truthy (obj_get "pacienteId" perfil)
    then
      let* paciente := getPacienteById (obj_get "pacienteId" perfil) in
      ret ({[ "paciente" := VObj paciente ]} : gmap string value)
    else ret (∅ : gmap string value) in
  ret (<[ "perfil" := VObj (detallesPerfil ∪ perfil) ]>
         (<[ "rol" := VObj rol ]> usuario)).

(** The body of the loop of [getTareasCompletas]. *)
Definition tareaCompleta (tarea : gmap string value) : M (gmap string value) :=
  let* empleado := getEmpleadoById (obj_get "empleadoId" tarea) in
  let* paciente :=
    if truthy (obj_get "pacienteId" tarea)
    then
      let* p := getPacienteById (obj_get "pacienteId" tarea) in
      ret (VObj p)
    else ret VNull in
  ret (<[ "paciente" := paciente ]> (<[ "empleado" := VObj empleado ]> tarea)).

Fixpoint for_each {A B} (f : A -> M B) (l : list A) : M (list B) :=
  match l with
  | [] => ret []
  | x :: r =>
      let* y := f x in
      let* ys := for_each f r in
      ret (y :: ys)
  end.

Definition getTareasCompletas : M table :=
  let* tareas := getAllTareas in
  match tareas with
  | Table tareas => for_each tareaCompleta tareas
  | Inherited _ => throw TypeError          (* not iterable *)
  end.

(** *** The remaining methods *)

Definition getAllRoles := getAll "roles".
Definition getAllUsuarios := getAll "usuarios".
Definition getAllPerfiles := getAll "perfiles".
Definition getAllEmpleados := getAll "empleados".
Definition getAllPacientes := getAll "pacientes".
Definition getAllInsumos := getAll "insumos".
Definition getInsumoById (id : value) := getById "insumos" id.
Definition getTareaById (id : value) := getById "tareas" id.

Definition updateRole (id : value) (roleData : gmap string value) :=
  update "roles" id roleData.
Definition updatePerfil (id : value) (perfilData : gmap string value) :=
  update "perfiles" id perfilData.
Definition updateEmpleado (id : value) (empleadoData : gmap string value) :=
  update "empleados" id empleadoData.
Definition updatePaciente (id : value) (pacienteData : gmap string value) :=
  update "pacientes" id pacienteData.
Definition updateInsumo (id : value) (insumoData : gmap string value) :=
  update "insumos" id insumoData.
Definition updateTarea (id : value) (tareaData : gmap string value) :=
  update "tareas" id tareaData.

Definition deleteRole (id : value) := delete "roles" id.
Definition deleteUsuario (id : value) := delete "usuarios" id.
Definition deletePerfil (id : value) := delete "perfiles" id.
Definition deleteEmpleado (id : value) := delete "empleados" id.
Definition deletePaciente (id : value) := delete "pacientes" id.
Definition deleteInsumo (id : value) := delete "insumos" id.
Definition deleteTarea (id : value) := delete "tareas" id.

Definition updateStockInsumo (id nuevoStock : value) :=
  update "insumos" id {[ "stock" := nuevoStock ]}.

Definition updateEstadoTarea (id nuevoEstado : value) :=
  update "tareas" id {[ "estado" := nuevoEstado ]}.

(** [v < n] for a number literal [n]: the left operand goes through
    ToNumber, and a comparison with [NaN] is false. *)
Definition lt_number (v : value) (n : Z) : bool :=
  match to_number v with
  | Int z => z <? n
  | NaN => false
  end.

(** The object [getEstadisticas] returns. *)
Record estadisticas : Type := Estadisticas {
  totalUsuarios : nat;
  totalEmpleados : nat;
  totalPacientes : nat;
  totalInsumos : nat;
  totalTareas : nat;
  tareasPendientes : nat;
  tareasCompletadas : nat;
  insumosConBajoStock : nat
}.

Definition getEstadisticas : M estadisticas :=
  let* tareas := raw_table "tareas" in
  let pendientes :=
    length (filter (fun t => strict_eq (obj_get "estado" t) (VStr "pendiente")) tareas) in
  let completadas :=
    length (filter (fun t => strict_eq (obj_get "estado" t) (VStr "completada")) tareas) in
  let* insumos := raw_table "insumos" in
  let bajoStock :=
    length (filter (fun i => lt_number (obj_get "stock" i) 50) insumos) in
  let* usuarios := raw_table "usuarios" in
  let* empleados := raw_table "empleados" in
  let* pacientes := raw_table "pacientes" in
  ret (Estadisticas (length usuarios) (length empleados) (length pacientes)
         (length insumos) (length tareas) pendientes completadas bajoStock).

End Store.

(** ** The authentication service *)

(** A session kept in [sesionesActivas].  The two dates are time values
    in milliseconds; [NaN] is the invalid date. *)
Record sesion : Type := Sesion {
  s_id : string;
  s_usuarioId : value;
  s_usuario : value;
  s_rol : value;
  s_permisos : value;
  s_fechaCreacion : num;
  s_ultimaActividad : num;
  s_activa : bool
}.

(** The options [crearSesion] passes to [jwt.sign]. *)
Record sign_options : Type := SignOptions {
  expiresIn : string;
  issuer : string;
  subject : string
}.

(** The object [crearSesion] returns. *)
Record sesion_creada : Type := SesionCreada {
  sc_token : string;
  sc_sessionId : string;
  sc_usuario : gmap string value;
  sc_permisos : value;
  sc_fechaCreacion : num;
  sc_expiresIn : string
}.

Inductive auth_code : Type :=
| USER_NOT_FOUND
| INVALID_PASSWORD
| INTERNAL_ERROR
| INSUFFICIENT_PERMISSIONS.

Record auth_data : Type := AuthData {
  ad_usuario : gmap string value;
  ad_sesion : sesion_creada;
  ad_permisos : value
}.

(** [{ success: true, message, data }] or [{ success: false, message, code }] *)
Inductive auth_result : Type :=
| Success (message : string) (datos : auth_data)
| Failure (message : string) (code : auth_code).

(** What [jwt.verify] throws. *)
Inductive jwt_error : Type :=
| TokenExpiredError
| JsonWebTokenError (message : string)
| NotBeforeError.

Inductive jwt_verified : Type :=
| Decoded (payload : value)
| JwtThrow (e : jwt_error).

(** The state of the [AuthService] singleton: the store it holds and the
    map of sessions. *)
Record auth_state : Type := AuthState {
  store : db_state;
  sesionesActivas : gmap string sesion
}.

(** [new Date(t)]: the time value is clipped to the range of dates. *)
Definition new_Date (t : num) : num :=
  match t with
  | Int z => if Z.abs z <=? 8640000000000000 then Int z else NaN
  | NaN => NaN
  end.

Module Auth.

Section Service.

(** [bcrypt.compare(data, hash)] on two strings. *)
Variable bcrypt_compare : string -> string -> bool.
(** [jwt.sign(payload, secret, options)]; [None] when it throws. *)
Variable jwt_sign : gmap string value -> string -> sign_options -> option string.
(** [jwt.verify(token, secret)] at a clock reading in seconds. *)
Variable jwt_verify : string -> string -> Z -> jwt_verified.
(** [process.env.JWT_SECRET || '...'] and [process.env.JWT_EXPIRES_IN || '24h'] *)
Variables (jwtSecret jwtExpiresIn : string).

Definition esAdministrador (usuario : gmap string value) : value :=
  let rol := obj_get "rol" usuario in
  if truthy rol then VBool (strict_eq (prop "nombre" rol) (VStr "admin")) else rol.

(** The payload of the token. *)
Definition payload_of (usuario : gmap string value) (now : Z) : gmap string value :=
  {[ "id" := obj_get "id" usuario;
     "usuario" := obj_get "usuario" usuario;
     "rol" := prop "nombre" (obj_get "rol" usuario);
     "permisos" := js_or (prop "permisos" (obj_get "rol" usuario)) (VArr []);
     "iat" := VNum (Int (now / 1000)) ]}.

(** [crearSesion(usuario)] at the clock reading [now] (milliseconds). *)
Definition crearSesion (usuario : gmap string value) (now : Z)
    (sesiones : gmap string sesion)
  : result sesion_creada * gmap string sesion :=
  let payload := payload_of usuario now in
  match obj_get "id" usuario with
  | VUndef | VNull => (Throw TypeError, sesiones)
  | id =>
      match jwt_sign payload jwtSecret
              (SignOptions jwtExpiresIn "backend-ifts" (to_string id)) with
      | None => (Throw JwtSignError, sesiones)
      | Some token =>
          let sesion :=
            Sesion token (obj_get "id" usuario) (obj_get "usuario" usuario)
              (prop "nombre" (obj_get "rol" usuario))
              (js_or (prop "permisos" (obj_get "rol" usuario)) (VArr []))
              (Int now) (Int now) true in
          (Ok (SesionCreada token token
                 {[ "id" := obj_get "id" usuario;
                    "usuario" := obj_get "usuario" usuario;
                    "rol" := prop "nombre" (obj_get "rol" usuario);
                    "perfil" := obj_get "perfil" usuario ]}
                 (js_or (prop "permisos" (obj_get "rol" usuario)) (VArr []))
                 (s_fechaCreacion sesion) jwtExpiresIn),
           <[ token := sesion ]> sesiones)
      end
  end.

(** [validarToken(token)]: the decoded payload, or [null] for whatever
    [jwt.verify] throws. *)
Definition validarToken (token : string) (now : Z) : value :=
  match jwt_verify token jwtSecret (now / 1000) with
  | Decoded decoded => decoded
  | JwtThrow _ => VNull
  end.

(** [obtenerSesion(sessionId)]: [None] is [null]. *)
Definition obtenerSesion (sessionId : string) (now : Z)
    (sesiones : gmap string sesion)
  : option sesion * gmap string sesion :=
  let payload := validarToken sessionId now in
  if negb (truthy payload) then (None, sesiones)
  else
    match sesiones !! sessionId with
    | Some s =>
        if s_activa s
        then
          let s' := Sesion (s_id s) (s_usuarioId s) (s_usuario s) (s_rol s)
                      (s_permisos s) (s_fechaCreacion s) (Int now) (s_activa s) in
          (Some s', <[ sessionId := s' ]> sesiones)
        else
          let sesionRecreada :=
            Sesion sessionId (prop "id" payload) (prop "usuario" payload)
              (prop "rol" payload) (js_or (prop "permisos" payload) (VArr []))
              (new_Date (num_mul (to_number (prop "iat" payload)) (Int 1000)))
              (Int now) true in
          (Some sesionRecreada, <[ sessionId := sesionRecreada ]> sesiones)
    | None =>
        let sesionRecreada :=
          Sesion sessionId (prop "id" payload) (prop "usuario" payload)
            (prop "rol" payload) (js_or (prop "permisos" payload) (VArr []))
            (new_Date (num_mul (to_number (prop "iat" payload)) (Int 1000)))
            (Int now) true in
        (Some sesionRecreada, <[ sessionId := sesionRecreada ]> sesiones)
    end.

Definition cerrarSesion (sessionId : string) (now : Z)
    (sesiones : gmap string sesion)
  : bool * gmap string sesion :=
  let payload := validarToken sessionId now in
  if negb (truthy payload) then (false, sesiones)
  else (true, base.delete sessionId sesiones).

(** [await bcrypt.compare(password, hash)]: the promise is rejected
    unless both are strings. *)
Definition compare_password (password hash : value) : result bool :=
  match password, hash with
  | VStr p, VStr h => Ok (bcrypt_compare p h)
  | _, _ => Throw BcryptError
  end.

Definition autenticarUsuario (usuario password : value) (now : Z)
  : auth_state -> auth_result * auth_state :=
  fun st =>
    let internal st' :=
      (Failure "Error interno del servidor" INTERNAL_ERROR, st') in
    match Store.getUsuarioByUsername usuario (store st) with
    | (Throw _, db1) => internal (AuthState db1 (sesionesActivas st))
    | (Ok usuarioEncontrado, db1) =>
        if negb (truthy (VObj usuarioEncontrado))
        then (Failure "Credenciales inválidas" USER_NOT_FOUND,
              AuthState db1 (sesionesActivas st))
        else
          match compare_password password (obj_get "password" usuarioEncontrado) with
          | Throw _ => internal (AuthState db1 (sesionesActivas st))
          | Ok false =>
              (Failure "Contraseña incorrecta" INVALID_PASSWORD,
               AuthState db1 (sesionesActivas st))
          | Ok true =>
              match Store.getUsuarioCompleto (obj_get "id" usuarioEncontrado) db1 with
              | (Throw _, db2) => internal (AuthState db2 (sesionesActivas st))
              | (Ok usuarioCompleto, db2) =>
                  match crearSesion usuarioCompleto now (sesionesActivas st) with
                  | (Throw _, sesiones) => internal (AuthState db2 sesiones)
                  | (Ok sesion, sesiones) =>
                      (Success "Autenticación exitosa"
                         (AuthData usuarioCompleto sesion
                            (js_or (prop "permisos" (obj_get "rol" usuarioCompleto))
                               (VArr []))),
                       AuthState db2 sesiones)
                  end
              end
          end
    end.

Definition autenticarAdmin (usuario password : value) (now : Z)
  : auth_state -> auth_result * auth_state :=
  fun st =>
    match autenticarUsuario usuario password now st with
    | (Failure message code, st') => (Failure message code, st')
    | (Success message datos, st') =>
        if negb (truthy (esAdministrador (ad_usuario datos)))
        then (Failure "Acceso denegado: Se requieren permisos de administrador"
                INSUFFICIENT_PERMISSIONS, st')
        else (Success message datos, st')
    end.

(** [obtenerUsuarioActual(sessionId)]: [None] is [null]. *)
Definition obtenerUsuarioActual (sessionId : string) (now : Z)
  : auth_state -> option (gmap string value) * auth_state :=
  fun st =>
    let payload := validarToken sessionId now in
    if negb (truthy payload) then (None, st)
    else
      match Store.getUsuarioCompleto (prop "id" payload) (store st) with
      | (Ok usuario, db1) => (Some usuario, AuthState db1 (sesionesActivas st))
      | (Throw _, db1) => (None, AuthState db1 (sesionesActivas st))
      end.

(** SameValueZero, the comparison of [Array.prototype.includes]. *)
Definition same_value_zero (a b : value) : bool :=
  match a, b with
  | VNum NaN, VNum NaN => true
  | _, _ => strict_eq a b
  end.

Fixpoint starts_with (pat s : list ascii) : bool :=
  match pat, s with
  | [], _ => true
  | _ :: _, [] => false
  | a :: pat', b :: s' => Ascii.eqb a b && starts_with pat' s'
  end.

(** [s.includes(pat)] on strings. *)
Fixpoint occurs_in (pat s : list ascii) : bool :=
  starts_with pat s ||
  match s with
  | [] => false
  | _ :: s' => occurs_in pat s'
  end.

(** [tienePermiso(usuario, permiso)]: [includes] is the method of the
    array or of the string that [permisos] is; on another truthy value
    there is no such method and the call throws. *)
Definition tienePermiso (usuario : gmap string value) (permiso : value)
  : result bool :=
  let rol := obj_get "rol" usuario in
  if negb (truthy rol) || negb (truthy (prop "permisos" rol))
  then Ok false
  else
    match prop "permisos" rol with
    | VArr l => Ok (existsb (fun x => same_value_zero x permiso) l)
    | VStr s =>
        Ok (occurs_in (list_ascii_of_string (to_string permiso))
              (list_ascii_of_string s))
    | _ => Throw TypeError
    end.

Definition num_sub (a b : num) : num :=
  match a, b with
  | Int x, Int y => Int (x - y)
  | _, _ => NaN
  end.

(** [n > v] for a number [n]: the right operand goes through ToNumber,
    and a comparison with [NaN] is false. *)
Definition number_gt (n : num) (v : value) : bool :=
  match n, to_number v with
  | Int x, Int y => y <? x
  | _, _ => false
  end.

(** [limpiarSesionesExpiradas(tiempoExpiracion)] at the clock reading
    [now]; [undefined] stands for the default of 24 hours.  Every entry
    of the map is visited once, and deleted when it has been idle for
    more than the threshold. *)
Definition limpiarSesionesExpiradas (tiempoExpiracion : value) (now : Z)
    (sesiones : gmap string sesion) : gmap string sesion :=
  let tiempoExpiracion :=
    match tiempoExpiracion with
    | VUndef => VNum (Int (24 * 60 * 60 * 1000))
    | v => v
    end in
  filter (fun '(_, s) =>
            number_gt (num_sub (Int now) (s_ultimaActividad s)) tiempoExpiracion
            = false) sesiones.

End Service.

End Auth.

(** ** The bootstrap of [helper.js] *)

Module Helper.

Section Bcrypt.

Variable bcrypt_hash : string -> Z -> string -> string.

(** [crearUsuarioAdmin()]: the inner [try] returns the user called
    ['admin'] when the lookup finds one; whatever the lookup throws is
    swallowed and the creation follows. *)
Definition crearUsuarioAdmin (salt : string) : M (gmap string value) :=
  fun st =>
    match Store.getUsuarioByUsername (VStr "admin") st with
    | (Ok usuarioExistente, st1) => (Ok usuarioExistente, st1)
    | (Throw _, st1) =>
        (let* empleadoAdmin :=
           Store.createEmpleado
             {[ "nombre" := VStr "Administrador del Sistema";
                "puesto" := VStr "Administrador" ]} in
         let* perfilAdmin :=
           Store.createPerfil
             {[ "tipo" := VStr "empleado";
                "empleadoId" := obj_get "id" empleadoAdmin;
                "pacienteId" := VNull ]} in
         let* usuarioAdmin :=
           Store.createUsuario bcrypt_hash salt
             {[ "usuario" := VStr "admin";
                "password" := VStr "admin123";
                "rolId" := VNum (Int 1);
                "perfilId" := obj_get "id" perfilAdmin ]} in
         ret usuarioAdmin) st1
    end.

Definition inicializarSistema (salt : string) : M bool :=
  do crearUsuarioAdmin salt then
  ret true.

End Bcrypt.

End Helper.

(** ** The controller of the authentication routes *)

(** What the handlers read of the request.  Header names are lower
    case and header values are strings, as Node gives them; [cookies]
    is [None] when no middleware has parsed them, and holds plain
    string cookies otherwise. *)
Record request : Type := Request {
  req_body : value;
  req_headers : gmap string string;
  req_cookies : option (gmap string string)
}.

(** [res.status(s).json(o)], with the cookie that [res.clearCookie]
    names, if any. *)
Record response : Type := Response {
  res_status : Z;
  res_json : gmap string value;
  res_clearCookie : option string
}.

(** A middleware answers, or sets fields on the request and calls
    [next()]. *)
Inductive outcome : Type :=
| Responds (r : response)
| Next (campos : gmap string value).

Module Controller.

(** [s.replace(pat, '')] for a string pattern: the first occurrence
    is removed. *)
Fixpoint remove_first (pat s : list ascii) : list ascii :=
  if Auth.starts_with pat s then drop (length pat) s
  else
    match s with
    | [] => []
    | a :: r => a :: remove_first pat r
    end.

(** [a || b] where both are a string or [undefined]. *)
Definition or_string (a b : option string) : option string :=
  match a with
  | Some s => if String.eqb s "" then b else Some s
  | None => b
  end.

(** [req.headers['authorization']?.replace('Bearer ', '') ||
    req.headers['x-session-id'] || req.cookies?.sessionId] *)
Definition token_of (req : request) : option string :=
  or_string
    (or_string
       ((fun h => string_of_list_ascii
                    (remove_first (list_ascii_of_string "Bearer ")
                       (list_ascii_of_string h)))
          <$> req_headers req !! "authorization")
       (req_headers req !! "x-session-id"))
    (match req_cookies req with
     | Some c => c !! "sessionId"
     | None => None
     end).

(** [!token] *)
Definition no_token (token : option string) : bool :=
  match token with
  | Some s => String.eqb s ""
  | None => true
  end.

Definition fail (status : Z) (message : string) : response :=
  Response status {[ "success" := VBool false; "message" := VStr message ]} None.

Section Handlers.

Variable bcrypt_compare : string -> string -> bool.
Variable jwt_sign : gmap string value -> string -> sign_options -> option string.
Variable jwt_verify : string -> string -> Z -> jwt_verified.
Variables (jwtSecret jwtExpiresIn : string).

(** The body of the answer to a successful login. *)
Definition login_ok (message : string) (datos : auth_data) : response :=
  Response 200
    {[ "success" := VBool true;
       "message" := VStr message;
       "data" := VObj
         {[ "usuario" := VObj (ad_usuario datos);
            "token" := VStr (sc_token (ad_sesion datos));
            "sessionId" := VStr (sc_sessionId (ad_sesion datos));
            "permisos" := ad_permisos datos;
            "expiresIn" := VStr (sc_expiresIn (ad_sesion datos)) ]} ]}
    None.

(** [loginAdmin(req, res)] at the clock reading [now].  Destructuring a
    body that is [undefined] or [null] throws, which the [catch] answers
    with 500. *)
Definition loginAdmin (req : request) (now : Z) (st : auth_state)
  : response * auth_state :=
  match req_body req with
  | VUndef | VNull => (fail 500 "Error interno del servidor", st)
  | b =>
      let usuario := prop "usuario" b in
      let password := prop "password" b in
      if negb (truthy usuario) || negb (truthy password)
      then (fail 400 "Usuario y contraseña son requeridos", st)
      else
        match Auth.autenticarAdmin bcrypt_compare jwt_sign jwtSecret jwtExpiresIn
                usuario password now st with
        | (Failure message code, st') =>
            let statusCode :=
              match code with
              | INSUFFICIENT_PERMISSIONS => 403
              | _ => 401
              end in
            (fail statusCode message, st')
        | (Success message datos, st') => (login_ok message datos, st')
        end
  end.

Definition login (req : request) (now : Z) (st : auth_state)
  : response * auth_state :=
  match req_body req with
  | VUndef | VNull => (fail 500 "Error interno del servidor", st)
  | b =>
      let usuario := prop "usuario" b in
      let password := prop "password" b in
      if negb (truthy usuario) || negb (truthy password)
      then (fail 400 "Usuario y contraseña son requeridos", st)
      else
        match Auth.autenticarUsuario bcrypt_compare jwt_sign jwtSecret jwtExpiresIn
                usuario password now st with
        | (Failure message code, st') => (fail 401 message, st')
        | (Success message datos, st') => (login_ok message datos, st')
        end
  end.

(** The common start of the middlewares: the token, then its payload
    at the clock reading [now]; [inl] is the answer when one of the two
    is missing. *)
Definition token_and_payload (req : request) (now : Z)
  : response + string * value :=
  let token := token_of req in
  if no_token token
  then inl (fail 401 "No autenticado: Token JWT requerido")
  else
    let token := default ""%string token in
    let payload := Auth.validarToken jwt_verify jwtSecret token now in
    if negb (truthy payload)
    then inl (fail 401 "Token JWT inválido o expirado")
    else inr (token, payload).

(** [requireAdmin(req, res, next)]: the token is validated at [now],
    and again inside [obtenerUsuarioActual] at [now']. *)
Definition requireAdmin (req : request) (now now' : Z) (st : auth_state)
  : outcome * auth_state :=
  match token_and_payload req now with
  | inl r => (Responds r, st)
  | inr (token, payload) =>
      match Auth.obtenerUsuarioActual jwt_verify jwtSecret token now' st with
      | (Some usuario, st') =>
          if negb (truthy (Auth.esAdministrador usuario))
          then (Responds
                  (fail 403 "Acceso denegado: Se requieren permisos de administrador"),
                st')
          else (Next {[ "user" := VObj usuario; "sessionId" := VStr token;
                        "jwtPayload" := payload ]}, st')
      | (None, st') =>
          (Responds
             (fail 403 "Acceso denegado: Se requieren permisos de administrador"),
           st')
      end
  end.

(** [requirePermission(permiso)(req, res, next)] *)
Definition requirePermission (permiso : value) (req : request) (now now' : Z)
    (st : auth_state) : outcome * auth_state :=
  match token_and_payload req now with
  | inl r => (Responds r, st)
  | inr (token, payload) =>
      let denied :=
        fail 403 ("Acceso denegado: Se requiere el permiso '"
                  +:+ to_string permiso +:+ "'") in
      match Auth.obtenerUsuarioActual jwt_verify jwtSecret token now' st with
      | (Some usuario, st') =>
          match Auth.tienePermiso usuario permiso with
          | Throw _ => (Responds (fail 500 "Error interno del servidor"), st')
          | Ok false => (Responds denied, st')
          | Ok true =>
              (Next {[ "user" := VObj usuario; "sessionId" := VStr token;
                       "jwtPayload" := payload ]}, st')
          end
      | (None, st') => (Responds denied, st')
      end
  end.

(** [requirePaciente(req, res, next)] *)
Definition requirePaciente (req : request) (now now' : Z) (st : auth_state)
  : outcome * auth_state :=
  match token_and_payload req now with
  | inl r => (Responds r, st)
  | inr (token, payload) =>
      match Auth.obtenerUsuarioActual jwt_verify jwtSecret token now' st with
      | (None, st') => (Responds (fail 401 "Usuario no encontrado"), st')
      | (Some usuario, st') =>
          if negb (strict_eq (prop "nombre" (obj_get "rol" usuario)) (VStr "paciente"))
          then (Responds
                  (fail 403
                     "Acceso denegado: Solo pacientes pueden acceder a esta página"),
                st')
          else (Next {[ "user" := VObj usuario; "token" := VStr token;
                        "sessionId" := VStr token; "payload" := payload ]}, st')
      end
  end.

(** [rolesPermitidos.join(', ')] *)
Definition join_roles (roles : list value) : string :=
  String.concat ", "
    (map (fun x => match x with
                   | VUndef | VNull => ""
                   | _ => to_string x
                   end) roles).

(** [requireMultipleRoles(rolesPermitidos)(req, res, next)], for an
    array of roles. *)
Definition requireMultipleRoles (rolesPermitidos : list value) (req : request)
    (now now' : Z) (st : auth_state) : outcome * auth_state :=
  match token_and_payload req now with
  | inl r => (Responds r, st)
  | inr (token, payload) =>
      match Auth.obtenerUsuarioActual jwt_verify jwtSecret token now' st with
      | (None, st') => (Responds (fail 401 "Usuario no encontrado"), st')
      | (Some usuario, st') =>
          if negb (existsb
                     (fun x => Auth.same_value_zero x
                                 (prop "nombre" (obj_get "rol" usuario)))
                     rolesPermitidos)
          then (Responds
                  (fail 403 ("Acceso denegado: Solo " +:+ join_roles rolesPermitidos
                             +:+ " pueden acceder a esta página")),
                st')
          else (Next {[ "user" := VObj usuario; "token" := VStr token;
                        "sessionId" := VStr token; "payload" := payload ]}, st')
      end
  end.

(** [getCurrentUser(req, res)]; the two dates of [tokenInfo] are given
    by their time values. *)
Definition getCurrentUser (req : request) (now now' : Z) (st : auth_state)
  : response * auth_state :=
  match token_and_payload req now with
  | inl r => (r, st)
  | inr (token, payload) =>
      match Auth.obtenerUsuarioActual jwt_verify jwtSecret token now' st with
      | (None, st') => (fail 401 "Usuario no encontrado", st')
      | (Some usuario, st') =>
          (Response 200
             {[ "success" := VBool true;
                "data" := VObj
                  {[ "usuario" := VObj
                       {[ "id" := obj_get "id" usuario;
                          "usuario" := obj_get "usuario" usuario;
                          "rol" := prop "nombre" (obj_get "rol" usuario);
                          "perfil" := obj_get "perfil" usuario ]};
                     "permisos" :=
                       js_or (prop "permisos" (obj_get "rol" usuario)) (VArr []);
                     "tokenInfo" := VObj
                       {[ "issuedAt" :=
                            VNum (new_Date (num_mul (to_number (prop "iat" payload))
                                              (Int 1000)));
                          "expiresAt" :=
                            VNum (new_Date (num_mul (to_number (prop "exp" payload))
                                              (Int 1000)));
                          "issuer" := prop "iss" payload ]} ]} ]}
             None, st')
      end
  end.

(** [logout(req, res)] *)
Definition logout (req : request) (now : Z) (st : auth_state)
  : response * auth_state :=
  let token := token_of req in
  if no_token token
  then (fail 400 "No hay token JWT activo", st)
  else
    let token := default ""%string token in
    match Auth.cerrarSesion jwt_verify jwtSecret token now (sesionesActivas st) with
    | (false, sesiones) =>
        (fail 400 "Token no encontrado o inválido", AuthState (store st) sesiones)
    | (true, sesiones) =>
        (Response 200
           {[ "success" := VBool true;
              "message" := VStr "Logout exitoso";
              "note" := VStr "El token JWT seguirá siendo válido hasta su expiración natural. Para invalidación inmediata, considere implementar una blacklist." ]}
           (Some "sessionId"%string),
         AuthState (store st) sesiones)
    end.

End Handlers.

End Controller.

(** ** The contract of the token package *)

(** The claims in a token signed from [payload] with the options [o],
    as [jwt.verify] gives them back: the payload as JSON carries it,
    with the expiry, the issuer and the subject. *)
Definition jwt_claims (payload : gmap string value) (o : sign_options) (exp : Z)
  : gmap string value :=
  <[ "exp" := VNum (Int exp) ]>
    (<[ "iss" := VStr (issuer o) ]>
       (<[ "sub" := VStr (subject o) ]> (json_clean_obj payload))).

(** What the [jsonwebtoken] package documents of a token it signed,
    when verified with the same secret: before the expiry the claims
    come back, from the expiry on [TokenExpiredError] is thrown.
    [timespan] gives the number of seconds an [expiresIn] string stands
    for. *)
Definition jwt_contract
    (jwt_sign : gmap string value -> string -> sign_options -> option string)
    (jwt_verify : string -> string -> Z -> jwt_verified)
    (timespan : string -> option Z) (jwtSecret : string) : Prop :=
  forall payload o token iat,
    jwt_sign payload jwtSecret o = Some token ->
    payload !! "iat" = Some (VNum (Int iat)) ->
    exists ttl,
      timespan (expiresIn o) = Some ttl
      /\ forall clock,
          jwt_verify token jwtSecret clock
          = if clock <? iat + ttl
            then Decoded (VObj (jwt_claims payload o (iat + ttl)))
            else JwtThrow TokenExpiredError.

(** The signature as an ideal one: only what was signed with the secret
    verifies with it. *)
Definition jwt_unforgeable
    (jwt_sign : gmap string value -> string -> sign_options -> option string)
    (jwt_verify : string -> string -> Z -> jwt_verified)
    (jwtSecret : string) : Prop :=
  forall token clock decoded,
    jwt_verify token jwtSecret clock = Decoded decoded ->
    exists payload o, jwt_sign payload jwtSecret o = Some token.

(** ** Reading the runs *)

(** The document an operation works on: the one in memory, or the one
    read from the file by the first operation. *)
Definition resident (st : db_state) : option database :=
  match data st with
  | Some d => Some d
  | None => disk st
  end.

(** The state once the document is in memory. *)
Definition in_memory (d : database) (st : db_state) : db_state :=
  MkDbState (Some d) (db_file st) (disk_writable st).

(** The state after a mutation that was written back: the document in
    memory, and in the file what JSON keeps of it. *)
Definition saved (d : database) : db_state :=
  DbState (Some d) (Some (json_clean_db d)) true.

Definition ids (tbl : table) : list value := map (obj_get "id") tbl.

(** What a run returned, what it threw, and the state it left. *)
Definition returned {A} (x : result A * db_state) : option A :=
  match fst x with
  | Ok a => Some a
  | Throw _ => None
  end.

Definition thrown {A} (x : result A * db_state) : option error :=
  match fst x with
  | Ok _ => None
  | Throw e => Some e
  end.

Definition state_after {A} (x : result A * db_state) : db_state := snd x.

(** The field [k] of the [i]-th record of a table of a document. *)
Definition stored_field (od : option database) (tableName : string)
    (i : nat) (k : string) : option value :=
  match od with
  | Some d =>
      match d !! tableName with
      | Some tbl =>
          match tbl !! i with
          | Some r => r !! k
          | None => None
          end
      | None => None
      end
  | None => None
  end.

(** [max_of z r] is the largest of [z :: r]. *)
Definition max_of (z : Z) (r : list Z) : Z := fold_left Z.max r z.

(** The identifier the specification gives to the next record of a
    table whose identifiers are [zs]. *)
Definition next_id (zs : list Z) : Z :=
  match zs with
  | [] => 1
  | z :: r => max_of z r + 1
  end.

(** Identifiers in the range where every integer is a double
    ([Number.isSafeInteger]), so that the [maxId + 1] of [create] is
    exact. *)
Definition safe_ids (zs : list Z) : Prop :=
  Forall (fun z => Z.abs z < 2 ^ 53) zs.

(** The numbers in [v] that ToString reaches, through the elements of
    arrays, are below [10^21] in magnitude: they are written as plain
    decimal numerals, without an exponent. *)
Fixpoint plain_numbers (v : value) : bool :=
  match v with
  | VNum (Int z) => Z.abs z <? 10 ^ 21
  | VArr l => forallb plain_numbers l
  | _ => true
  end.

(** An identifier that the model reads as the code does: its numbers
    are written plainly, and the integer that [parseInt] reads from it,
    if any, is in the range where every integer is a double. *)
Definition legible (id : value) : Prop :=
  plain_numbers id = true
  /\ forall z, parseInt id = Int z -> Z.abs z < 2 ^ 53.

(** [getById] as a function of the table it reads. *)
Definition find_by_id (tableName : string) (tbl : table) (id : value)
  : result (gmap string value) :=
  match list_find (Store.has_id (parseInt id)) tbl with
  | Some (_, record) => Ok record
  | None => Throw (RegistroNoEncontrado id tableName)
  end.

Definition and_then {A B} (x : result A) (f : A -> result B) : result B :=
  match x with
  | Ok a => f a
  | Throw e => Throw e
  end.

(** What the loop body of [getTareasCompletas] gives for one task, as a
    function of the tables it reads. *)
Definition completa (empleados pacientes : table) (tarea : gmap string value)
  : result (gmap string value) :=
  match list_find (Store.has_id (parseInt (obj_get "empleadoId" tarea))) empleados with
  | None => Throw (RegistroNoEncontrado (obj_get "empleadoId" tarea) "empleados")
  | Some (_, empleado) =>
      if truthy (obj_get "pacienteId" tarea)
      then
        match list_find (Store.has_id (parseInt (obj_get "pacienteId" tarea))) pacientes with
        | None => Throw (RegistroNoEncontrado (obj_get "pacienteId" tarea) "pacientes")
        | Some (_, paciente) =>
            Ok (<[ "paciente" := VObj paciente ]>
                  (<[ "empleado" := VObj empleado ]> tarea))
        end
      else Ok (<[ "paciente" := VNull ]> (<[ "empleado" := VObj empleado ]> tarea))
  end.

(** The first throw of a sequence of results, or all the values. *)
Fixpoint all_ok {A} (l : list (result A)) : result (list A) :=
  match l with
  | [] => Ok []
  | Throw e :: _ => Throw e
  | Ok a :: r =>
      match all_ok r with
      | Ok l' => Ok (a :: l')
      | Throw e => Throw e
      end
  end.

(** [getUsuarioCompleto] as a function of the document it reads. *)
Definition completo (d : database) (id : value) : result (gmap string value) :=
  let tabla name := default [] (d !! name) in
  and_then (find_by_id "usuarios" (tabla "usuarios") id) (fun usuario =>
  and_then (find_by_id "roles" (tabla "roles") (obj_get "rolId" usuario)) (fun rol =>
  and_then (find_by_id "perfiles" (tabla "perfiles") (obj_get "perfilId" usuario))
    (fun perfil =>
  and_then
    (if strict_eq (obj_get "tipo" perfil) (VStr "empleado")
        && truthy (obj_get "empleadoId" perfil)
     then and_then (find_by_id "empleados" (tabla "empleados")
                      (obj_get "empleadoId" perfil))
            (fun empleado => Ok ({[ "empleado" := VObj empleado ]} : gmap string value))
     else if strict_eq (obj_get "tipo" perfil) (VStr "paciente")
             && truthy (obj_get "pacienteId" perfil)
     then and_then (find_by_id "pacientes" (tabla "pacientes")
                      (obj_get "pacienteId" perfil))
            (fun paciente => Ok ({[ "paciente" := VObj paciente ]} : gmap string value))
     else Ok (∅ : gmap string value))
    (fun detallesPerfil =>
       Ok (<[ "perfil" := VObj (detallesPerfil ∪ perfil) ]>
             (<[ "rol" := VObj rol ]> usuario)))))).

(** The five tables [getUsuarioCompleto] may read are in the document. *)
Definition has_user_tables (d : database) : Prop :=
  is_Some (d !! "usuarios") /\ is_Some (d !! "roles") /\ is_Some (d !! "perfiles")
  /\ is_Some (d !! "empleados") /\ is_Some (d !! "pacientes").

Definition code_of (r : auth_result) : option auth_code :=
  match r with
  | Success _ _ => None
  | Failure _ code => Some code
  end.

(** The caller's name and password are those of a stored user. *)
Definition credenciales_validas (bcrypt_compare : string -> string -> bool)
    (d : database) (usuario password : value) (u : gmap string value) : Prop :=
  exists usuarios pw hash,
    d !! "usuarios" = Some usuarios
    /\ find (fun x => strict_eq (obj_get "usuario" x) usuario) usuarios = Some u
    /\ password = VStr pw
    /\ obj_get "password" u = VStr hash
    /\ bcrypt_compare pw hash = true.

(** The session [crearSesion] records for a complete user, and the
    object it returns. *)
Definition sesion_de (now : Z) (uc : gmap string value) (token : string) : sesion :=
  Sesion token (obj_get "id" uc) (obj_get "usuario" uc)
    (prop "nombre" (obj_get "rol" uc))
    (js_or (prop "permisos" (obj_get "rol" uc)) (VArr []))
    (Int now) (Int now) true.

Definition sesion_creada_de (jwtExpiresIn : string) (now : Z)
    (uc : gmap string value) (token : string) : sesion_creada :=
  SesionCreada token token
    {[ "id" := obj_get "id" uc;
       "usuario" := obj_get "usuario" uc;
       "rol" := prop "nombre" (obj_get "rol" uc);
       "perfil" := obj_get "perfil" uc ]}
    (js_or (prop "permisos" (obj_get "rol" uc)) (VArr []))
    (Int now) jwtExpiresIn.

(** [x] is the first element of [l] that [f] accepts. *)
Definition first_where {A} (f : A -> bool) (l : list A) (x : A) : Prop :=
  exists i, l !! i = Some x /\ f x = true
    /\ forall j y, (j < i)%nat -> l !! j = Some y -> f y = false.

(** An operation that only reads: it leaves the file and its
    permissions as they are, and the document it works on is the same
    afterwards. *)
Definition read_only {A} (m : M A) : Prop :=
  forall st,
    db_file (snd (m st)) = db_file st
    /\ disk_writable (snd (m st)) = disk_writable st
    /\ resident (snd (m st)) = resident st.

(** The store after an operation that only read it. *)
Definition read_only_step (before after : db_state) : Prop :=
  db_file after = db_file before
  /\ disk_writable after = disk_writable before
  /\ resident after = resident before.

(** The creators that build the record from chosen fields of the
    caller's object: the table, the method, the fields it keeps and the
    test it makes first. *)
Record creador : Type := Creador {
  cr_tabla : string;
  cr_metodo : gmap string value -> M (gmap string value);
  cr_campos : gmap string value -> gmap string value;
  cr_valido : gmap string value -> bool
}.

Definition creadores : list creador :=
  [ Creador "roles" Store.createRole
      (fun x => {[ "nombre" := obj_get "nombre" x; "permisos" := obj_get "permisos" x ]})
      (fun x => truthy (obj_get "nombre" x) && truthy (obj_get "permisos" x));
    Creador "perfiles" Store.createPerfil
      (fun x => {[ "tipo" := obj_get "tipo" x;
                   "empleadoId" := obj_get "empleadoId" x;
                   "pacienteId" := obj_get "pacienteId" x ]})
      (fun x => truthy (obj_get "tipo" x));
    Creador "empleados" Store.createEmpleado
      (fun x => {[ "nombre" := obj_get "nombre" x; "puesto" := obj_get "puesto" x ]})
      (fun x => truthy (obj_get "nombre" x) && truthy (obj_get "puesto" x));
    Creador "pacientes" Store.createPaciente
      (fun x => {[ "nombre" := obj_get "nombre" x; "dni" := obj_get "dni" x;
                   "historiaClinica" := obj_get "historiaClinica" x ]})
      (fun x => truthy (obj_get "nombre" x) && truthy (obj_get "dni" x));
    Creador "insumos" Store.createInsumo
      (fun x => {[ "nombre" := obj_get "nombre" x; "stock" := obj_get "stock" x;
                   "unidad" := obj_get "unidad" x ]})
      (fun x => truthy (obj_get "nombre" x)
                && negb (strict_eq (obj_get "stock" x) VUndef)
                && truthy (obj_get "unidad" x)) ].

(** ** Sample documents, and a model of the packages to run the services on *)

Module Sample.

Definition tarea1 : gmap string value :=
  {[ "id" := VNum (Int 1); "descripcion" := VStr "control";
     "empleadoId" := VNum (Int 1); "estado" := VStr "pendiente";
     "fecha" := VStr "2025-01-10" ]}.

Definition tarea2 : gmap string value :=
  {[ "id" := VNum (Int 2); "descripcion" := VStr "vacunacion";
     "empleadoId" := VNum (Int 1); "estado" := VStr "completada";
     "fecha" := VStr "2025-01-11" ]}.

(** A task object as a caller may post it, with an [id] of its own. *)
Definition tarea_con_id : gmap string value :=
  {[ "id" := VNum (Int 1); "descripcion" := VStr "curacion";
     "empleadoId" := VNum (Int 1); "estado" := VStr "pendiente";
     "fecha" := VStr "2025-02-01" ]}.

Definition doc_tareas : database := {[ "tareas" := [tarea1] ]}.

(** A fresh process: nothing in memory, the document on disk. *)
Definition st_tareas : db_state := DbState None (Some doc_tareas) true.

Definition doc_dos_tareas : database := {[ "tareas" := [tarea1; tarea2] ]}.
Definition st_dos_tareas : db_state := DbState None (Some doc_dos_tareas) true.

End Sample.

Module SampleUsers.

Definition rol_admin : gmap string value :=
  {[ "id" := VNum (Int 1); "nombre" := VStr "admin";
     "permisos" := VArr [VStr "gestionar_usuarios"] ]}.

Definition rol_medico : gmap string value :=
  {[ "id" := VNum (Int 2); "nombre" := VStr "medico";
     "permisos" := VArr [VStr "acceso_medico"] ]}.

Definition empleado1 : gmap string value :=
  {[ "id" := VNum (Int 1); "nombre" := VStr "Carla Perez";
     "puesto" := VStr "Administrador" ]}.

Definition perfil1 : gmap string value :=
  {[ "id" := VNum (Int 1); "tipo" := VStr "empleado";
     "empleadoId" := VNum (Int 1); "pacienteId" := VNull ]}.

Definition usuario_admin : gmap string value :=
  {[ "id" := VNum (Int 1); "usuario" := VStr "admin";
     "password" := VStr "$2b$10$sal.admin123";
     "rolId" := VNum (Int 1); "perfilId" := VNum (Int 1) ]}.

Definition usuario_medico : gmap string value :=
  {[ "id" := VNum (Int 2); "usuario" := VStr "dlopez";
     "password" := VStr "$2b$10$sal.medico123";
     "rolId" := VNum (Int 2); "perfilId" := VNum (Int 1) ]}.

Definition doc : database :=
  {[ "roles" := [rol_admin; rol_medico];
     "usuarios" := [usuario_admin; usuario_medico];
     "perfiles" := [perfil1];
     "empleados" := [empleado1];
     "pacientes" := [];
     "tareas" := [];
     "insumos" := [] ]}.

Definition st : db_state := DbState None (Some doc) true.

(** A stand-in for [bcrypt.hash] and [bcrypt.compare], to run the model
    on: the "hash" is the salt followed by the data. *)
Definition toy_hash (data : string) (rounds : Z) (salt : string) : string :=
  ("$2b$" +:+ pretty rounds +:+ "$" +:+ salt +:+ data)%string.

Definition toy_compare (data hash : string) : bool :=
  String.eqb hash (toy_hash data 10 "sal.").

End SampleUsers.

Module SampleTasks.

(** A task whose patient id refers to no patient. *)
Definition tarea_huerfana : gmap string value :=
  {[ "id" := VNum (Int 1); "descripcion" := VStr "control";
     "empleadoId" := VNum (Int 1); "pacienteId" := VNum (Int 99);
     "estado" := VStr "pendiente"; "fecha" := VStr "2025-01-10" ]}.

(** A task without a patient. *)
Definition tarea_sin_paciente : gmap string value :=
  {[ "id" := VNum (Int 2); "descripcion" := VStr "inventario";
     "empleadoId" := VNum (Int 1); "pacienteId" := VNull;
     "estado" := VStr "pendiente"; "fecha" := VStr "2025-01-11" ]}.

Definition doc_huerfana : database :=
  {[ "tareas" := [tarea_sin_paciente; tarea_huerfana];
     "empleados" := [SampleUsers.empleado1];
     "pacientes" := [] ]}.

Definition st_huerfana : db_state := DbState None (Some doc_huerfana) true.

Definition doc_sin_paciente : database :=
  {[ "tareas" := [tarea_sin_paciente];
     "empleados" := [SampleUsers.empleado1];
     "pacientes" := [] ]}.

Definition st_sin_paciente : db_state := DbState None (Some doc_sin_paciente) true.

End SampleTasks.

Module ToyJwt.

(** The complete user of the administrator of [SampleUsers.doc]. *)
Definition admin_completo : gmap string value :=
  <[ "perfil" := VObj ({[ "empleado" := VObj SampleUsers.empleado1 ]} ∪ SampleUsers.perfil1) ]>
    (<[ "rol" := VObj SampleUsers.rol_admin ]> SampleUsers.usuario_admin).

Definition secret : string := "clave-de-prueba".
Definition now0 : Z := 1700000000000.
Definition token0 : string := "toy.admin.token".
Definition opts0 : sign_options := SignOptions "24h" "backend-ifts" "1".

Definition payload0 : gmap string value :=
  {[ "id" := VNum (Int 1); "usuario" := VStr "admin"; "rol" := VStr "admin";
     "permisos" := VArr [VStr "gestionar_usuarios"];
     "iat" := VNum (Int 1700000000) ]}.

Definition is_payload0 (p : gmap string value) : bool :=
  match p !! "id", p !! "usuario", p !! "rol", p !! "permisos", p !! "iat" with
  | Some (VNum (Int i)), Some (VStr u), Some (VStr r),
    Some (VArr [VStr q]), Some (VNum (Int t)) =>
      (i =? 1) && String.eqb u "admin" && String.eqb r "admin"
      && String.eqb q "gestionar_usuarios" && (t =? 1700000000)
      && (size (base.delete "id" (base.delete "usuario" (base.delete "rol"
            (base.delete "permisos" (base.delete "iat" p))))) =? 0)%nat
  | _, _, _, _, _ => false
  end.

Definition is_opts0 (o : sign_options) : bool :=
  String.eqb (expiresIn o) "24h" && String.eqb (issuer o) "backend-ifts"
  && String.eqb (subject o) "1".

(** The one token this model signs is that of the administrator at
    [now0]; it verifies for a day. *)
Definition sign (p : gmap string value) (k : string) (o : sign_options)
  : option string :=
  if is_payload0 p && String.eqb k secret && is_opts0 o then Some token0 else None.

Definition timespan (s : string) : option Z :=
  if String.eqb s "24h" then Some 86400 else None.

Definition verify (t k : string) (clock : Z) : jwt_verified :=
  if String.eqb t token0 && String.eqb k secret
  then if clock <? 1700000000 + 86400
       then Decoded (VObj (jwt_claims payload0 opts0 (1700000000 + 86400)))
       else JwtThrow TokenExpiredError
  else JwtThrow (JsonWebTokenError "invalid signature").

End ToyJwt.

(** A signer that signs whatever it is given, to run a login of any user
    on: the token names the subject. *)
Definition toy_sign_all (p : gmap string value) (k : string) (o : sign_options)
  : option string :=
  Some ("toy." +:+ subject o)%string.

(** * Properties *)

(** Closed equations between runs of the model are settled by
    evaluation. *)
Ltac vm_refl :=
  lazymatch goal with
  | |- ?a = ?b => vm_cast_no_check (@eq_refl _ b)
  end.

(** ** Running the store *)

Section StoreRuns.

Variables (st : db_state) (d : database) (tableName : string) (tbl : table).
Hypothesis Hres : resident st = Some d.
Hypothesis Htbl : d !! tableName = Some tbl.

Lemma ensureDataLoaded_run :
  Store.ensureDataLoaded st = (Ok d, in_memory d st).
Proof.
  unfold Store.ensureDataLoaded, Store.loadData, in_memory.
  unfold resident, disk in Hres.
  destruct st as [[dm|] [| |dk] w]; simpl in *; try discriminate.
  - by inversion Hres.
  - by inversion Hres.
  - by inversion Hres.
  - by inversion Hres.
Qed.

Lemma the_table_run :
  Store.the_table tableName st = (Ok tbl, in_memory d st).
Proof.
  unfold Store.the_table, bind.
  by rewrite ensureDataLoaded_run, Htbl.
Qed.

Lemma getById_run (id : value) :
  Store.getById tableName id st =
    (match list_find (Store.has_id (parseInt id)) tbl with
     | Some (_, record) => Ok record
     | None => Throw (RegistroNoEncontrado id tableName)
     end, in_memory d st).
Proof.
  unfold Store.getById, bind. rewrite the_table_run.
  by destruct (list_find _ tbl) as [[i r]|].
Qed.

Hypothesis Hw : disk_writable st = true.

Lemma mutate_run (tbl' : table) :
  bind (Store.set_table tableName tbl') (fun _ => Store.saveData) (in_memory d st)
  = (Ok true, saved (<[tableName := tbl']> d)).
Proof.
  unfold bind, Store.set_table, Store.saveData, in_memory, saved; simpl.
  by rewrite Hw.
Qed.

Lemma create_run (newRecord : gmap string value) :
  let r : gmap string value :=
    newRecord ∪ {[ "id" := VNum (num_add (Store.maxId tbl) (Int 1)) ]} in
  Store.create tableName newRecord st
  = (Ok r, saved (<[tableName := tbl ++ [r]]> d)).
Proof.
  intros r. unfold Store.create, bind. rewrite the_table_run.
  unfold Store.set_table, Store.saveData, in_memory, saved, ret; simpl.
  by rewrite Hw.
Qed.

Lemma update_run (id : value) (updatedData : gmap string value) index old :
  list_find (Store.has_id (parseInt id)) tbl = Some (index, old) ->
  let r : gmap string value :=
    <[ "id" := VNum (parseInt id) ]> (updatedData ∪ old) in
  Store.update tableName id updatedData st
  = (Ok r, saved (<[tableName := <[index := r]> tbl]> d)).
Proof.
  intros Hf r. unfold Store.update, bind. rewrite the_table_run, Hf.
  unfold Store.set_table, Store.saveData, in_memory, saved, ret; simpl.
  by rewrite Hw.
Qed.

Lemma delete_run (id : value) index old :
  list_find (Store.has_id (parseInt id)) tbl = Some (index, old) ->
  Store.delete tableName id st
  = (Ok old, saved (<[tableName := base.delete index tbl]> d)).
Proof.
  intros Hf. unfold Store.delete, bind. rewrite the_table_run, Hf.
  unfold Store.set_table, Store.saveData, in_memory, saved, ret; simpl.
  by rewrite Hw.
Qed.

End StoreRuns.

Lemma resident_saved d : resident (saved d) = Some d.
Proof. reflexivity. Qed.

Lemma resident_in_memory d st : resident (in_memory d st) = Some d.
Proof. reflexivity. Qed.

(** ** Facts about identifiers *)

Lemma has_id_Int n item :
  Store.has_id n item = true ->
  exists z, n = Int z /\ obj_get "id" item = VNum (Int z).
Proof.
  unfold Store.has_id, strict_eq.
  destruct (obj_get "id" item) as [| |b|[x|]|s|l|o]; try discriminate;
    destruct n as [y|]; try discriminate.
  intros H%Z.eqb_eq. subst. eauto.
Qed.

Lemma has_id_refl z item :
  obj_get "id" item = VNum (Int z) -> Store.has_id (Int z) item = true.
Proof.
  unfold Store.has_id. intros ->. simpl. apply Z.eqb_refl.
Qed.

Lemma max_of_ub z r x : x ∈ z :: r -> x <= max_of z r.
Proof.
  unfold max_of. revert z x. induction r as [|y r IH]; intros z x Hx; simpl.
  - apply list_elem_of_singleton in Hx. lia.
  - apply elem_of_cons in Hx as [->|Hx].
    + transitivity (Z.max z y); [lia|]. apply IH. left.
    + apply elem_of_cons in Hx as [->|Hx].
      * transitivity (Z.max z y); [lia|]. apply IH. left.
      * apply IH. by right.
Qed.

Lemma max_of_in z r : max_of z r ∈ z :: r.
Proof.
  unfold max_of. revert z. induction r as [|y r IH]; intros z; simpl.
  - left.
  - specialize (IH (Z.max z y)).
    apply elem_of_cons in IH as [Heq|Hin].
    + rewrite Heq. destruct (Z.max_spec z y) as [[_ ->]|[_ ->]].
      * right; left.
      * left.
    + right; by right.
Qed.

Lemma math_max_Int z r :
  math_max (VNum (Int z)) (map (fun x => VNum (Int x)) r) = Int (max_of z r).
Proof.
  unfold math_max, max_of. simpl. revert z.
  induction r as [|y r IH]; intros z; simpl; [done|apply IH].
Qed.

Lemma round_double_exact z : Z.abs z <= 2 ^ 53 -> round_double z = z.
Proof.
  unfold round_double. change (2 ^ 53) with 9007199254740992.
  intros Hz. destruct (Z.ltb_spec (Z.abs z) 9007199254740992) as [Hlt|Hge]; [done|].
  assert (z = 9007199254740992 \/ z = - 9007199254740992) as [-> | ->] by lia;
    by vm_compute.
Qed.

Lemma safe_next_id zs : safe_ids zs -> Z.abs (next_id zs) <= 2 ^ 53.
Proof.
  unfold safe_ids. change (2 ^ 53) with 9007199254740992.
  destruct zs as [|z r]; simpl; [lia|]. intros Hs.
  pose proof (max_of_in z r) as Hin.
  rewrite Forall_forall in Hs. specialize (Hs _ Hin). simpl in Hs. lia.
Qed.

Lemma maxId_Int tbl zs :
  ids tbl = map (fun z => VNum (Int z)) zs ->
  safe_ids zs ->
  num_add (Store.maxId tbl) (Int 1) = Int (next_id zs).
Proof.
  unfold Store.maxId, ids. intros -> Hs.
  pose proof (safe_next_id zs Hs) as Hn.
  destruct zs as [|z r]; [done|].
  cbn [map]. rewrite math_max_Int. unfold num_add.
  change (max_of z r + 1) with (next_id (z :: r)).
  by rewrite round_double_exact.
Qed.

Lemma next_id_fresh zs x : x ∈ zs -> x < next_id zs.
Proof.
  destruct zs as [|z r]; simpl; intros Hx.
  - by apply elem_of_nil in Hx.
  - apply max_of_ub in Hx. lia.
Qed.

Lemma ids_Int_elem tbl zs item z :
  ids tbl = map (fun z => VNum (Int z)) zs ->
  item ∈ tbl -> obj_get "id" item = VNum (Int z) -> z ∈ zs.
Proof.
  intros Hids Hin Hid.
  assert (Hm : VNum (Int z) ∈ ids tbl).
  { rewrite <- Hid. unfold ids. apply list_elem_of_fmap. eauto. }
  rewrite Hids in Hm. apply list_elem_of_fmap in Hm as (y & Hy & Hyin).
  by inversion Hy.
Qed.

Lemma no_record_with_next_id tbl zs :
  ids tbl = map (fun z => VNum (Int z)) zs ->
  list_find (Store.has_id (Int (next_id zs))) tbl = None.
Proof.
  intros Hids. apply list_find_None, Forall_forall.
  intros item Hin HP. apply Is_true_true in HP.
  apply has_id_Int in HP as (z & Hz & Hid). inversion Hz; subst z.
  pose proof (ids_Int_elem _ _ _ _ Hids Hin Hid) as Hz'.
  apply next_id_fresh in Hz'. lia.
Qed.

(** Without an [id] among the fields, and on a table whose identifiers
    are integers, [create] gives the next identifier, keeps the fields,
    and [getById] on the new identifier returns the new record. *)
Lemma create_then_getById st d tableName tbl zs (fields : gmap string value) :
  resident st = Some d ->
  d !! tableName = Some tbl ->
  disk_writable st = true ->
  ids tbl = map (fun z => VNum (Int z)) zs ->
  safe_ids zs ->
  fields !! "id" = None ->
  exists r st',
    Store.create tableName fields st = (Ok r, st')
    /\ obj_get "id" r = VNum (Int (next_id zs))
    /\ (forall k, k <> "id" -> r !! k = fields !! k)
    /\ resident st' = Some (<[tableName := tbl ++ [r]]> d)
    /\ Store.getById tableName (obj_get "id" r) st' = (Ok r, st').
Proof.
  intros Hres Htbl Hw Hids Hsafe Hnone.
  pose proof (create_run st d tableName tbl Hres Htbl Hw fields) as Hc.
  simpl in Hc. rewrite (maxId_Int _ _ Hids Hsafe) in Hc.
  set (r := fields ∪ {[ "id" := VNum (Int (next_id zs)) ]}) in *.
  assert (Hid : obj_get "id" r = VNum (Int (next_id zs))).
  { unfold obj_get, r. rewrite lookup_union_r by done.
    by rewrite lookup_singleton_eq. }
  exists r, (saved (<[tableName := tbl ++ [r]]> d)).
  split_and!; [done|done| | done|].
  - intros k Hk. unfold r.
    destruct (fields !! k) as [v|] eqn:Hfk.
    + by erewrite lookup_union_Some_l.
    + rewrite lookup_union_r by done. by rewrite lookup_singleton_ne.
  - rewrite (getById_run _ (<[tableName := tbl ++ [r]]> d) tableName (tbl ++ [r]));
      [|done|by rewrite lookup_insert_eq].
    rewrite Hid. simpl.
    rewrite list_find_app_r by (by apply no_record_with_next_id).
    simpl. rewrite decide_True; [done|].
    apply Is_true_true. by apply has_id_refl.
Qed.

(** ** The generic operations *)

(** C3, at the input where the code departs from it: the table holds one
    task with id 1 and the fields carry [id: 1].  The specification asks
    for the identifier 2; [create] returns and stores a record with
    identifier 1, and [getById] on the returned identifier gives the old
    task, not the new record. *)
Theorem create_with_id_field_misses_next_id :
  let run := Store.create "tareas" Sample.tarea_con_id Sample.st_tareas in
  resident Sample.st_tareas = Some {[ "tareas" := [Sample.tarea1] ]}
  /\ ids [Sample.tarea1] = [VNum (Int 1)]
  /\ next_id [1] = 2
  /\ returned run = Some Sample.tarea_con_id
  /\ obj_get "id" <$> returned run = Some (VNum (Int 1))
  /\ resident (state_after run)
     = Some {[ "tareas" := [Sample.tarea1; Sample.tarea_con_id] ]}
  /\ returned (Store.getById "tareas" (VNum (Int 1)) (state_after run))
     = Some Sample.tarea1
  /\ Sample.tarea1 <> Sample.tarea_con_id.
Proof.
  intros run. split_and!; try vm_refl.
  intros H. apply (f_equal (fun m : gmap string value => m !! "descripcion")) in H.
  vm_compute in H. discriminate.
Qed.

(** C10: when the fields passed to [create] have an [id] key, the record
    returned and stored is the fields object itself, so its id is the
    caller's value and not the generated one; a record of the table with
    the same id stays next to it; and [createTarea], once its required
    fields are there, hands the caller's whole object to [create]. *)
Theorem create_keeps_caller_id
    st d tableName tbl (fields : gmap string value) v :
  resident st = Some d ->
  d !! tableName = Some tbl ->
  disk_writable st = true ->
  fields !! "id" = Some v ->
  Store.create tableName fields st
    = (Ok fields, saved (<[tableName := tbl ++ [fields]]> d))
  /\ obj_get "id" fields = v
  /\ (forall i r0, tbl !! i = Some r0 -> obj_get "id" r0 = v ->
        (tbl ++ [fields]) !! i = Some r0
        /\ (tbl ++ [fields]) !! length tbl = Some fields
        /\ i <> length tbl
        /\ obj_get "id" r0 = obj_get "id" fields)
  /\ (forall (tareaData : gmap string value) st1,
        truthy (obj_get "descripcion" tareaData) = true ->
        truthy (obj_get "empleadoId" tareaData) = true ->
        truthy (obj_get "estado" tareaData) = true ->
        truthy (obj_get "fecha" tareaData) = true ->
        Store.createTarea tareaData st1 = Store.create "tareas" tareaData st1).
Proof.
  intros Hres Htbl Hw Hid.
  assert (Hsame : fields ∪ {[ "id" := VNum (num_add (Store.maxId tbl) (Int 1)) ]}
                  = fields).
  { apply map_eq. intros k. destruct (fields !! k) as [x|] eqn:Hk.
    - by erewrite lookup_union_Some_l.
    - rewrite lookup_union_r by done.
      rewrite lookup_singleton_ne; [done|]. intros <-. congruence. }
  assert (Hget : obj_get "id" fields = v) by (unfold obj_get; by rewrite Hid).
  split_and!.
  - pose proof (create_run st d tableName tbl Hres Htbl Hw fields) as Hc.
    simpl in Hc. by rewrite Hsame in Hc.
  - done.
  - intros i r0 Hi Hr0. split_and!.
    + by apply lookup_app_l_Some.
    + rewrite lookup_app_r by lia. by rewrite Nat.sub_diag.
    + apply lookup_lt_Some in Hi. lia.
    + congruence.
  - intros tareaData st1 H1 H2 H3 H4. unfold Store.createTarea.
    by rewrite H1, H2, H3, H4.
Qed.

Lemma create_keeps_caller_id_witness :
  Store.create "tareas" Sample.tarea_con_id Sample.st_tareas
  = (Ok Sample.tarea_con_id,
     saved (<["tareas" := [Sample.tarea1; Sample.tarea_con_id]]> Sample.doc_tareas)).
Proof.
  apply (create_keeps_caller_id Sample.st_tareas Sample.doc_tareas "tareas"
           [Sample.tarea1] Sample.tarea_con_id (VNum (Int 1)));
    vm_refl.
Defined.

Lemma find_existing n (tbl : table) :
  Exists (fun item => Store.has_id n item = true) tbl ->
  exists index old z,
    list_find (Store.has_id n) tbl = Some (index, old)
    /\ tbl !! index = Some old
    /\ n = Int z
    /\ obj_get "id" old = VNum (Int z).
Proof.
  intros (item & Hin & HP)%Exists_exists.
  destruct (list_find_elem_of (Store.has_id n) tbl item Hin) as [[index old] Hf].
  { by apply Is_true_true. }
  pose proof Hf as Hf'. apply list_find_Some in Hf' as (Hl & Hold & _).
  apply Is_true_true, has_id_Int in Hold as (z & -> & Hid).
  by exists index, old, z.
Qed.



Lemma not_in_after_delete {A} (l : list A) i x :
  NoDup l -> l !! i = Some x -> x ∉ base.delete i l.
Proof.
  intros Hnd Hl.
  assert (Hnd' : NoDup (x :: base.delete i l)).
  { eapply NoDup_Permutation_proper; [|exact Hnd].
    symmetry. by apply delete_Permutation. }
  by apply NoDup_cons in Hnd' as [? _].
Qed.

Lemma ids_delete tbl zs i :
  ids tbl = map (fun z => VNum (Int z)) zs ->
  ids (base.delete i tbl) = map (fun z => VNum (Int z)) (base.delete i zs).
Proof.
  unfold ids. intros H.
  change (map (obj_get "id") (base.delete i tbl))
    with (obj_get "id" <$> base.delete i tbl).
  rewrite list_fmap_delete.
  change (obj_get "id" <$> tbl) with (map (obj_get "id") tbl). rewrite H.
  change (map (fun z => VNum (Int z)) zs) with ((fun z => VNum (Int z)) <$> zs).
  by rewrite <- list_fmap_delete.
Qed.

Lemma ids_lookup tbl zs i item :
  ids tbl = map (fun z => VNum (Int z)) zs ->
  tbl !! i = Some item ->
  exists z, zs !! i = Some z /\ obj_get "id" item = VNum (Int z).
Proof.
  unfold ids. intros H Hi.
  assert (Hm : map (obj_get "id") tbl !! i = Some (obj_get "id" item)).
  { change (map (obj_get "id") tbl) with (obj_get "id" <$> tbl).
    by rewrite list_lookup_fmap, Hi. }
  rewrite H in Hm.
  change (map (fun z => VNum (Int z)) zs) with ((fun z => VNum (Int z)) <$> zs) in Hm.
  rewrite list_lookup_fmap in Hm.
  destruct (zs !! i) as [z|]; simpl in Hm; [|discriminate].
  exists z. split; [done|]. by inversion Hm.
Qed.

(** C5, against the claim as stated: the table holds the ids 1 and 2;
    the record 2 is deleted; the next [create] is given the id 2 again. *)
Lemma deleted_id_is_reused :
  let nueva : gmap string value :=
    {[ "descripcion" := VStr "curacion"; "empleadoId" := VNum (Int 1);
       "estado" := VStr "pendiente"; "fecha" := VStr "2025-02-01" ]} in
  let borrado := Store.delete "tareas" (VNum (Int 2)) Sample.st_dos_tareas in
  let creado := Store.create "tareas" nueva (state_after borrado) in
  resident Sample.st_dos_tareas = Some {[ "tareas" := [Sample.tarea1; Sample.tarea2] ]}
  /\ returned borrado = Some Sample.tarea2
  /\ obj_get "id" Sample.tarea2 = VNum (Int 2)
  /\ thrown (Store.getById "tareas" (VNum (Int 2)) (state_after borrado))
     = Some (RegistroNoEncontrado (VNum (Int 2)) "tareas")
  /\ nueva !! "id" = None
  /\ obj_get "id" <$> returned creado = Some (VNum (Int 2)).
Proof.
  intros nueva borrado creado. split_and!; vm_refl.
Qed.

(** Why the ids must not repeat: with two records under the id 1 (the
    second one put there by a [create] whose fields carried [id: 1]),
    [delete] removes the first and [getById] still finds the second. *)
Lemma delete_leaves_the_duplicate :
  let st : db_state :=
    DbState (Some {[ "tareas" := [Sample.tarea1; Sample.tarea_con_id] ]}) None true in
  let borrado := Store.delete "tareas" (VNum (Int 1)) st in
  returned borrado = Some Sample.tarea1
  /\ returned (Store.getById "tareas" (VNum (Int 1)) (state_after borrado))
     = Some Sample.tarea_con_id.
Proof.
  intros st borrado. split; vm_refl.
Qed.

(** C5, amended: in a table whose ids are distinct integers in the safe
    range (below [2^53] in magnitude), [delete] of an existing id
    succeeds, [getById] on that id then fails with the not-found error,
    and the next [create] (fields without [id]) is given the largest
    remaining id plus one, or 1 when no record remains.  That id is the
    deleted id again exactly when the deleted id is the largest
    remaining id plus one (1 when no record remains), as when the last
    of consecutively numbered records is deleted; whenever a remaining
    record has a larger id it differs from the deleted id. *)
Theorem delete_then_getById_then_create
    st d tableName tbl zs (id : value) (fields : gmap string value) :
  resident st = Some d ->
  d !! tableName = Some tbl ->
  disk_writable st = true ->
  ids tbl = map (fun z => VNum (Int z)) zs ->
  NoDup zs ->
  safe_ids zs ->
  Exists (fun item => Store.has_id (parseInt id) item = true) tbl ->
  fields !! "id" = None ->
  exists index old z st1 r st2,
    parseInt id = Int z
    /\ tbl !! index = Some old
    /\ obj_get "id" old = VNum (Int z)
    /\ Store.delete tableName id st = (Ok old, st1)
    /\ resident st1 = Some (<[tableName := base.delete index tbl]> d)
    /\ Store.getById tableName id st1
       = (Throw (RegistroNoEncontrado id tableName), st1)
    /\ Store.create tableName fields st1 = (Ok r, st2)
    /\ obj_get "id" r = VNum (Int (next_id (base.delete index zs)))
    /\ (base.delete index zs = [] -> obj_get "id" r = VNum (Int 1))
    /\ (obj_get "id" r = VNum (Int z) <-> z = next_id (base.delete index zs))
    /\ ((exists y, y ∈ base.delete index zs /\ z < y) ->
        obj_get "id" r <> VNum (Int z)).
Proof.
  intros Hres Htbl Hw Hids Hnd Hsafe Hex Hnone.
  assert (Hsafe1 : forall i, safe_ids (base.delete i zs)).
  { intros i. unfold safe_ids in *. rewrite Forall_forall in Hsafe.
    apply Forall_forall. intros x Hx. apply Hsafe.
    eapply elem_of_sublist; [exact Hx|apply sublist_delete]. }
  destruct (find_existing _ _ Hex) as (index & old & z & Hf & Hl & Hn & Hid).
  set (d1 := <[tableName := base.delete index tbl]> d).
  assert (Hzs : zs !! index = Some z).
  { destruct (ids_lookup _ _ _ _ Hids Hl) as (z' & Hz' & Hid').
    rewrite Hid in Hid'. by inversion Hid'. }
  assert (Hids1 : ids (base.delete index tbl)
                  = map (fun z => VNum (Int z)) (base.delete index zs))
    by by apply ids_delete.
  assert (Hd1 : d1 !! tableName = Some (base.delete index tbl))
    by (unfold d1; by rewrite lookup_insert_eq).
  destruct (create_then_getById (saved d1) d1 tableName _ _ fields
              (resident_saved d1) Hd1 eq_refl Hids1 (Hsafe1 index) Hnone)
    as (r & st2 & Hc & Hrid & _).
  exists index, old, z, (saved d1), r, st2. split_and!; try done.
  - exact (delete_run st d tableName tbl Hres Htbl Hw id index old Hf).
  - rewrite (getById_run _ d1 tableName (base.delete index tbl)); [|done|done].
    assert (Hnone' : list_find (Store.has_id (parseInt id)) (base.delete index tbl)
                     = None).
    { apply list_find_None, Forall_forall. intros item Hin HP.
      apply Is_true_true in HP. rewrite Hn in HP.
      apply has_id_Int in HP as (z' & Hz' & Hid'). inversion Hz'; subst z'.
      pose proof (ids_Int_elem _ _ _ _ Hids1 Hin Hid') as Hzin.
      by apply (not_in_after_delete zs index z). }
    by rewrite Hnone'.
  - intros Hempty. by rewrite Hrid, Hempty.
  - rewrite Hrid. split; [by intros [= <-]|by intros <-].
  - intros (y & Hy & Hlt). rewrite Hrid. intros Heq. inversion Heq as [Hz].
    apply next_id_fresh in Hy. lia.
Qed.

Lemma delete_then_getById_then_create_witness :
  exists index old z st1 r st2,
    parseInt (VNum (Int 1)) = Int z
    /\ [Sample.tarea1; Sample.tarea2] !! index = Some old
    /\ Store.delete "tareas" (VNum (Int 1)) Sample.st_dos_tareas = (Ok old, st1)
    /\ Store.getById "tareas" (VNum (Int 1)) st1
       = (Throw (RegistroNoEncontrado (VNum (Int 1)) "tareas"), st1)
    /\ Store.create "tareas" {[ "descripcion" := VStr "curacion" ]} st1 = (Ok r, st2)
    /\ obj_get "id" r = VNum (Int (next_id (base.delete index [1; 2]))).
Proof.
  destruct (delete_then_getById_then_create Sample.st_dos_tareas
              Sample.doc_dos_tareas "tareas" [Sample.tarea1; Sample.tarea2]
              [1; 2] (VNum (Int 1)) {[ "descripcion" := VStr "curacion" ]})
    as (index & old & z & st1 & r & st2 & H1 & H2 & _ & H4 & _ & H6 & H7 & H8 & _).
  - vm_refl.
  - vm_refl.
  - vm_refl.
  - vm_refl.
  - apply NoDup_cons. split; [|apply NoDup_singleton].
    intros H. apply list_elem_of_singleton in H. discriminate.
  - by repeat constructor.
  - apply Exists_cons_hd. vm_refl.
  - vm_refl.
  - exists index, old, z, st1, r, st2. auto 10.
Defined.

(** ** Passwords *)


Lemma truthy_VStr s : truthy (VStr s) = true <-> s <> ""%string.
Proof.
  simpl. destruct (String.eqb_spec s ""); simpl; split; congruence.
Qed.

Section PasswordHashing.

Variable bcrypt_hash : string -> Z -> string -> string.
Variables (st : db_state) (d : database) (usuarios : table) (salt : string).
Hypothesis Hres : resident st = Some d.
Hypothesis Htbl : d !! "usuarios" = Some usuarios.
Hypothesis Hw : disk_writable st = true.

Lemma createUsuario_run (userData : gmap string value) secret :
  truthy (obj_get "usuario" userData) = true ->
  obj_get "password" userData = VStr secret ->
  secret <> ""%string ->
  truthy (obj_get "rolId" userData) = true ->
  truthy (obj_get "perfilId" userData) = true ->
  exists r,
    Store.createUsuario bcrypt_hash salt userData st
    = (Ok r, saved (<["usuarios" := usuarios ++ [r]]> d))
    /\ obj_get "password" r = VStr (bcrypt_hash secret 10 salt)
    /\ obj_get "usuario" r = obj_get "usuario" userData.
Proof.
  intros Hu Hp Hs Hr Hpf. unfold Store.createUsuario.
  rewrite Hu, Hr, Hpf, Hp. rewrite (proj2 (truthy_VStr secret) Hs). simpl.
  unfold bind at 1. unfold Store.hash_password, ret at 1.
  match goal with
  | |- context [Store.create "usuarios" ?u st] =>
      pose proof (create_run st d "usuarios" usuarios Hres Htbl Hw u) as Hc;
      simpl in Hc;
      assert (Hpw : u !! "password" = Some (VStr (bcrypt_hash secret 10 salt)));
      [|assert (Hus : u !! "usuario" = Some (obj_get "usuario" userData))]
  end.
  - destruct (truthy (obj_get "tipoPerfilId" userData));
      repeat (rewrite lookup_insert_ne by done); by rewrite ?lookup_insert_eq.
  - destruct (truthy (obj_get "tipoPerfilId" userData));
      repeat (rewrite lookup_insert_ne by done); by rewrite ?lookup_insert_eq.
  - eexists. split; [exact Hc|]. unfold obj_get.
    split.
    + by erewrite lookup_union_Some_l.
    + by erewrite lookup_union_Some_l.
Qed.

Lemma updateUsuario_run (id : value) (userData : gmap string value) secret :
  Exists (fun item => Store.has_id (parseInt id) item = true) usuarios ->
  obj_get "password" userData = VStr secret ->
  secret <> ""%string ->
  exists index old r,
    list_find (Store.has_id (parseInt id)) usuarios = Some (index, old)
    /\ Store.updateUsuario bcrypt_hash salt id userData st
       = (Ok r, saved (<["usuarios" := <[index := r]> usuarios]> d))
    /\ obj_get "password" r = VStr (bcrypt_hash secret 10 salt).
Proof.
  intros Hex Hp Hs.
  destruct (find_existing _ _ Hex) as (index & old & z & Hf & Hl & Hn & Hid).
  unfold Store.updateUsuario. rewrite Hp.
  rewrite (proj2 (truthy_VStr secret) Hs).
  unfold bind at 1. unfold Store.hash_password, bind at 1, ret at 1 2.
  eexists index, old, _. split; [done|]. split.
  - exact (update_run st d "usuarios" usuarios Hres Htbl Hw id _ index old Hf).
  - unfold obj_get. rewrite lookup_insert_ne by done.
    erewrite lookup_union_Some_l; [done|]. by rewrite lookup_insert_eq.
Qed.

End PasswordHashing.

(** Whenever [createUsuario] returns a record, the password it was given
    is a string and the record holds its hash. *)
Lemma createUsuario_returns_hash bcrypt_hash salt (userData : gmap string value) st r st' :
  Store.createUsuario bcrypt_hash salt userData st = (Ok r, st') ->
  exists secret,
    obj_get "password" userData = VStr secret
    /\ obj_get "password" r = VStr (bcrypt_hash secret 10 salt).
Proof.
  unfold Store.createUsuario.
  destruct (negb _ || negb _ || negb _ || negb _); [discriminate|].
  unfold bind at 1, Store.hash_password.
  destruct (obj_get "password" userData) as [| | | |secret| |]; try discriminate.
  unfold ret at 1. intros Hc. exists secret. split; [done|].
  unfold Store.create, bind in Hc. revert Hc.
  destruct (Store.the_table "usuarios" st) as [[tbl|e] st1]; [|discriminate].
  destruct (Store.set_table _ _ st1) as [[[]|e] st2]; [|discriminate].
  destruct (Store.saveData st2) as [[b|e] st3]; [|discriminate].
  unfold ret. intros Hc. inversion Hc as [[Hr Hst]]. unfold obj_get.
  erewrite lookup_union_Some_l; [done|].
  destruct (truthy _);
    repeat (rewrite lookup_insert_ne by done); by rewrite ?lookup_insert_eq.
Qed.



(** Outside the amended claim: [updateUsuario] hashes under the guard
    [if (userData.password)], and an empty password does not pass it. *)
Lemma updateUsuario_empty_password bcrypt_hash salt :
  let run :=
    Store.updateUsuario bcrypt_hash salt (VNum (Int 1))
      {[ "password" := VStr "" ]} SampleUsers.st in
  obj_get "password" <$> returned run = Some (VStr "").
Proof.
  intros run. subst run. unfold Store.updateUsuario.
  change (truthy (obj_get "password" ({[ "password" := VStr "" ]} : gmap string value)))
    with false.
  cbv iota. unfold bind at 1, ret at 1. vm_refl.
Qed.

(** ** Composed reads *)

Lemma all_ok_throws {A} (l : list (result A)) e :
  Throw e ∈ l -> exists e', all_ok l = Throw e'.
Proof.
  induction l as [|[a|e0] r IH]; intros Hin.
  - by apply elem_of_nil in Hin.
  - apply elem_of_cons in Hin as [Heq|Hin]; [discriminate|].
    destruct (IH Hin) as (e' & He'). exists e'. simpl. by rewrite He'.
  - by exists e0.
Qed.

Lemma all_ok_Ok {A} (l : list (result A)) (vs : list A) :
  l = map Ok vs -> all_ok l = Ok vs.
Proof.
  intros ->. induction vs as [|v vs IH]; simpl; [done|]. by rewrite IH.
Qed.

Section ComposedReads.

Variables (st : db_state) (d : database).
Hypothesis Hres : resident st = Some d.

Lemma getById_in_memory tableName tbl (id : value) :
  d !! tableName = Some tbl ->
  Store.getById tableName id (in_memory d st) =
    (match list_find (Store.has_id (parseInt id)) tbl with
     | Some (_, record) => Ok record
     | None => Throw (RegistroNoEncontrado id tableName)
     end, in_memory d st).
Proof.
  intros Htbl.
  exact (getById_run (in_memory d st) d tableName tbl
           (resident_in_memory d st) Htbl id).
Qed.

Variables (empleados pacientes : table).
Hypothesis Hemp : d !! "empleados" = Some empleados.
Hypothesis Hpac : d !! "pacientes" = Some pacientes.

Lemma tareaCompleta_run (tarea : gmap string value) :
  Store.tareaCompleta tarea (in_memory d st)
  = (completa empleados pacientes tarea, in_memory d st).
Proof.
  unfold Store.tareaCompleta, completa, Store.getEmpleadoById,
    Store.getPacienteById.
  unfold bind at 1. rewrite (getById_in_memory "empleados" empleados) by done.
  destruct (list_find _ empleados) as [[i e]|]; [|done].
  destruct (truthy (obj_get "pacienteId" tarea)); [|done].
  unfold bind at 1 2.
  rewrite (getById_in_memory "pacientes" pacientes) by done.
  by destruct (list_find _ pacientes) as [[j p]|].
Qed.

Lemma for_each_tareaCompleta (tareas : table) :
  Store.for_each Store.tareaCompleta tareas (in_memory d st)
  = (all_ok (map (completa empleados pacientes) tareas), in_memory d st).
Proof.
  induction tareas as [|t r IH]; simpl; [done|].
  unfold bind at 1. rewrite tareaCompleta_run.
  destruct (completa empleados pacientes t) as [c|e]; [|done].
  unfold bind at 1. rewrite IH.
  by destruct (all_ok _).
Qed.

Variable tareas : table.
Hypothesis Htar : d !! "tareas" = Some tareas.

Lemma getTareasCompletas_run :
  Store.getTareasCompletas st
  = (all_ok (map (completa empleados pacientes) tareas), in_memory d st).
Proof.
  unfold Store.getTareasCompletas, Store.getAllTareas, Store.getAll, bind.
  rewrite (ensureDataLoaded_run st d Hres), Htar. unfold ret at 1.
  apply for_each_tareaCompleta.
Qed.

End ComposedReads.

Lemma bind_same_start {A B} (m : M A) (k : A -> M B) st st' :
  m st = m st' -> bind m k st = bind m k st'.
Proof. unfold bind. by intros ->. Qed.

Section CompleteUser.

Variables (st : db_state) (d : database).
Hypothesis Hres : resident st = Some d.
Hypothesis Htables : has_user_tables d.

Lemma getById_find tableName (id : value) :
  is_Some (d !! tableName) ->
  Store.getById tableName id (in_memory d st)
  = (find_by_id tableName (default [] (d !! tableName)) id, in_memory d st).
Proof.
  intros [tbl Htbl]. rewrite Htbl. simpl.
  rewrite (getById_in_memory st d tableName tbl) by done.
  unfold find_by_id. by destruct (list_find _ tbl) as [[i r]|].
Qed.

Lemma getUsuarioCompleto_in_memory (id : value) :
  Store.getUsuarioCompleto id (in_memory d st) = (completo d id, in_memory d st).
Proof.
  destruct Htables as (Hu & Hr & Hp & He & Hpa).
  unfold Store.getUsuarioCompleto, completo, Store.getUsuarioById,
    Store.getRoleById, Store.getPerfilById, Store.getEmpleadoById,
    Store.getPacienteById.
  unfold bind at 1. rewrite getById_find by done.
  destruct (find_by_id "usuarios" _ id) as [usuario|e]; [simpl|done].
  unfold bind at 1. rewrite getById_find by done.
  destruct (find_by_id "roles" _ _) as [rol|e]; [simpl|done].
  unfold bind at 1. rewrite getById_find by done.
  destruct (find_by_id "perfiles" _ _) as [perfil|e]; [simpl|done].
  unfold bind at 1.
  destruct (strict_eq (obj_get "tipo" perfil) (VStr "empleado")
            && truthy (obj_get "empleadoId" perfil)).
  { unfold bind at 1. rewrite getById_find by done.
    by destruct (find_by_id "empleados" _ _) as [empleado|e]. }
  destruct (strict_eq (obj_get "tipo" perfil) (VStr "paciente")
            && truthy (obj_get "pacienteId" perfil)).
  { unfold bind at 1. rewrite getById_find by done.
    by destruct (find_by_id "pacientes" _ _) as [paciente|e]. }
  done.
Qed.

Lemma getUsuarioCompleto_run (id : value) :
  Store.getUsuarioCompleto id st = (completo d id, in_memory d st).
Proof.
  rewrite <- getUsuarioCompleto_in_memory.
  unfold Store.getUsuarioCompleto. apply bind_same_start.
  destruct Htables as ([tbl Htbl] & _). unfold Store.getUsuarioById.
  rewrite (getById_run st d "usuarios" tbl Hres Htbl).
  by rewrite (getById_in_memory st d "usuarios" tbl).
Qed.

End CompleteUser.


Lemma Forall2_all_ok {A B} (f : A -> result B) (l : list A) (vs : list B) :
  Forall2 (fun a v => f a = Ok v) l vs -> all_ok (map f l) = Ok vs.
Proof.
  induction 1 as [|a v l vs Hav _ IH]; simpl; [done|].
  by rewrite Hav, IH.
Qed.



(** ** Authentication outcomes *)

Section AuthenticationFlow.

Variable bcrypt_compare : string -> string -> bool.
Variable jwt_sign : gmap string value -> string -> sign_options -> option string.
Variables (jwtSecret jwtExpiresIn : string).

Abbreviation autenticarUsuario :=
  (Auth.autenticarUsuario bcrypt_compare jwt_sign jwtSecret jwtExpiresIn).
Abbreviation autenticarAdmin :=
  (Auth.autenticarAdmin bcrypt_compare jwt_sign jwtSecret jwtExpiresIn).

(** No run of [autenticarUsuario] ends with the code [USER_NOT_FOUND]:
    the lookup throws when the name is unknown, and what it returns
    otherwise is an object. *)
Lemma autenticarUsuario_never_USER_NOT_FOUND usuario password now st :
  code_of (fst (autenticarUsuario usuario password now st)) <> Some USER_NOT_FOUND.
Proof.
  unfold Auth.autenticarUsuario.
  destruct (Store.getUsuarioByUsername usuario (store st)) as [[u|e] db1];
    [|discriminate].
  simpl.
  destruct (Auth.compare_password _ _ _) as [[|]|e]; try discriminate.
  destruct (Store.getUsuarioCompleto _ db1) as [[uc|e] db2]; [|discriminate].
  destruct (Auth.crearSesion _ _ _ _ _ _) as [[s|e] ses]; discriminate.
Qed.

(** A name that no stored user has: the lookup throws, the [catch]
    answers [INTERNAL_ERROR]. *)
Lemma unknown_user_INTERNAL_ERROR usuario password now st d usuarios :
  resident (store st) = Some d ->
  d !! "usuarios" = Some usuarios ->
  Forall (fun u => strict_eq (obj_get "usuario" u) usuario = false) usuarios ->
  autenticarUsuario usuario password now st
  = (Failure "Error interno del servidor" INTERNAL_ERROR,
     AuthState (in_memory d (store st)) (sesionesActivas st)).
Proof.
  intros Hres Htbl Hnone. unfold Auth.autenticarUsuario.
  unfold Store.getUsuarioByUsername, Store.raw_table. unfold bind.
  rewrite (ensureDataLoaded_run (store st) d Hres), Htbl. unfold ret.
  assert (Hfind : find (fun u => strict_eq (obj_get "usuario" u) usuario) usuarios
                  = None).
  { clear Htbl. induction Hnone as [|u r Hu _ IH]; simpl; [done|].
    by rewrite Hu. }
  by rewrite Hfind.
Qed.

End AuthenticationFlow.

Lemma strict_eq_VStr (v : value) s : strict_eq v (VStr s) = true <-> v = VStr s.
Proof.
  destruct v as [| |b|[z|]|s'|l|o]; simpl; split; try discriminate.
  - by intros ->%String.eqb_eq.
  - intros [= ->]. apply String.eqb_refl.
Qed.

Lemma find_by_id_id tableName tbl id record :
  find_by_id tableName tbl id = Ok record ->
  exists z, obj_get "id" record = VNum (Int z).
Proof.
  unfold find_by_id.
  destruct (list_find _ tbl) as [[i r]|] eqn:Hf; [|discriminate].
  intros [= <-]. apply list_find_Some in Hf as (_ & HP & _).
  apply Is_true_true, has_id_Int in HP as (z & _ & Hid). eauto.
Qed.

(** A complete user is the stored user with [rol] and [perfil] set to
    objects. *)
Lemma completo_shape d id uc :
  completo d id = Ok uc ->
  exists z rol perfil,
    obj_get "id" uc = VNum (Int z)
    /\ obj_get "rol" uc = VObj rol
    /\ obj_get "perfil" uc = VObj perfil
    /\ find_by_id "roles" (default [] (d !! "roles")) (obj_get "rolId" uc) = Ok rol.
Proof.
  unfold completo.
  destruct (find_by_id "usuarios" _ id) as [usuario|e] eqn:Hu; [simpl|discriminate].
  destruct (find_by_id "roles" _ _) as [rol|e] eqn:Hr; [simpl|discriminate].
  destruct (find_by_id "perfiles" _ _) as [perfil|e]; [simpl|discriminate].
  destruct (find_by_id_id _ _ _ _ Hu) as (z & Hz).
  match goal with
  | |- and_then ?x _ = _ -> _ => destruct x as [detalles|e]; [simpl|discriminate]
  end.
  intros [= <-]. exists z, rol, (detalles ∪ perfil).
  unfold obj_get in *. split_and!.
  - by rewrite !lookup_insert_ne by done.
  - rewrite lookup_insert_ne by done. by rewrite lookup_insert_eq.
  - by rewrite lookup_insert_eq.
  - by rewrite !lookup_insert_ne by done.
Qed.

Section AdminGate.

Variable bcrypt_compare : string -> string -> bool.
Variable jwt_sign : gmap string value -> string -> sign_options -> option string.
Variables (jwtSecret jwtExpiresIn : string).

Variables (st : auth_state) (d : database).
Variables (usuario password : value) (now : Z).
Variables (u uc : gmap string value) (token : string).
Hypothesis Hres : resident (store st) = Some d.
Hypothesis Htables : has_user_tables d.
Hypothesis Hcred : credenciales_validas bcrypt_compare d usuario password u.
Hypothesis Hcompleto : completo d (obj_get "id" u) = Ok uc.
Hypothesis Hsign :
  jwt_sign (Auth.payload_of uc now) jwtSecret
    (SignOptions jwtExpiresIn "backend-ifts" (to_string (obj_get "id" uc)))
  = Some token.

Lemma crearSesion_run sesiones :
  Auth.crearSesion jwt_sign jwtSecret jwtExpiresIn uc now sesiones
  = (Ok (sesion_creada_de jwtExpiresIn now uc token),
     <[ token := sesion_de now uc token ]> sesiones).
Proof.
  destruct (completo_shape _ _ _ Hcompleto) as (z & rol & perfil & Hid & _).
  unfold Auth.crearSesion, sesion_creada_de, sesion_de.
  rewrite Hid in *. by rewrite Hsign.
Qed.

Lemma autenticarUsuario_run :
  Auth.autenticarUsuario bcrypt_compare jwt_sign jwtSecret jwtExpiresIn
    usuario password now st
  = (Success "Autenticación exitosa"
       (AuthData uc (sesion_creada_de jwtExpiresIn now uc token)
          (js_or (prop "permisos" (obj_get "rol" uc)) (VArr []))),
     AuthState (in_memory d (store st))
       (<[ token := sesion_de now uc token ]> (sesionesActivas st))).
Proof.
  destruct Hcred as (usuarios & pw & hash & Htbl & Hfind & -> & Hhash & Hcmp).
  unfold Auth.autenticarUsuario.
  unfold Store.getUsuarioByUsername, Store.raw_table. unfold bind.
  rewrite (ensureDataLoaded_run (store st) d Hres), Htbl. unfold ret.
  rewrite Hfind. simpl. rewrite Hhash, Hcmp.
  rewrite (getUsuarioCompleto_in_memory (store st) d Htables), Hcompleto.
  by rewrite crearSesion_run.
Qed.

End AdminGate.


(** C8, at the input where the code departs from it: no stored user is
    called ["nadie"]; whatever the password, the clock and the packages,
    [autenticarUsuario] answers with the code [INTERNAL_ERROR], and not
    [USER_NOT_FOUND]. *)
Theorem unknown_username_yields_INTERNAL_ERROR
    (bcrypt_compare : string -> string -> bool)
    (jwt_sign : gmap string value -> string -> sign_options -> option string)
    (jwtSecret jwtExpiresIn : string) (password : value) (now : Z) :
  let run :=
    Auth.autenticarUsuario bcrypt_compare jwt_sign jwtSecret jwtExpiresIn
      (VStr "nadie") password now (AuthState SampleUsers.st ∅) in
  map (obj_get "usuario") [SampleUsers.usuario_admin; SampleUsers.usuario_medico]
  = [VStr "admin"; VStr "dlopez"]
  /\ fst run = Failure "Error interno del servidor" INTERNAL_ERROR
  /\ code_of (fst run) <> Some USER_NOT_FOUND.
Proof.
  intros run.
  assert (Hrun : fst run = Failure "Error interno del servidor" INTERNAL_ERROR).
  { subst run.
    rewrite (unknown_user_INTERNAL_ERROR bcrypt_compare jwt_sign jwtSecret
               jwtExpiresIn (VStr "nadie") password now
               (AuthState SampleUsers.st ∅) SampleUsers.doc
               [SampleUsers.usuario_admin; SampleUsers.usuario_medico]);
      [done|vm_refl|vm_refl|].
    repeat constructor; vm_refl. }
  split_and!; [vm_refl|done|]. rewrite Hrun. discriminate.
Qed.

(** ** Sessions *)

(** C6: the token validates and carries a claims object.  With no entry
    for it in [sesionesActivas], [obtenerSesion] builds a session from
    the claims, puts it in the map under the token and returns it; with
    an active entry, it returns that entry with [ultimaActividad] set to
    the clock reading, the entry in the map being the one returned.  In
    both cases the answer is a session, never [null]. *)
Theorem obtenerSesion_rebuilds_from_claims
    (jwt_verify : string -> string -> Z -> jwt_verified)
    (jwtSecret sessionId : string) (now : Z)
    (sesiones : gmap string sesion) (claims : gmap string value) :
  jwt_verify sessionId jwtSecret (now / 1000) = Decoded (VObj claims) ->
  let run := Auth.obtenerSesion jwt_verify jwtSecret sessionId now sesiones in
  let sesionRecreada :=
    Sesion sessionId (obj_get "id" claims) (obj_get "usuario" claims)
      (obj_get "rol" claims) (js_or (obj_get "permisos" claims) (VArr []))
      (new_Date (num_mul (to_number (obj_get "iat" claims)) (Int 1000)))
      (Int now) true in
  (sesiones !! sessionId = None ->
   run = (Some sesionRecreada, <[ sessionId := sesionRecreada ]> sesiones))
  /\ (forall s,
        sesiones !! sessionId = Some s -> s_activa s = true ->
        run = (Some (Sesion (s_id s) (s_usuarioId s) (s_usuario s) (s_rol s)
                       (s_permisos s) (s_fechaCreacion s) (Int now) true),
               <[ sessionId := Sesion (s_id s) (s_usuarioId s) (s_usuario s) (s_rol s)
                                 (s_permisos s) (s_fechaCreacion s) (Int now) true ]>
                 sesiones))
  /\ is_Some (fst run)
  /\ snd run !! sessionId = fst run.
Proof.
  intros Hv run rec.
  assert (Hval : Auth.validarToken jwt_verify jwtSecret sessionId now = VObj claims).
  { unfold Auth.validarToken. by rewrite Hv. }
  subst run. unfold Auth.obtenerSesion. rewrite Hval. simpl.
  split_and!.
  - by intros ->.
  - intros s -> Hact. by rewrite Hact.
  - destruct (sesiones !! sessionId) as [s|]; [destruct (s_activa s)|]; simpl; eauto.
  - destruct (sesiones !! sessionId) as [s|]; [destruct (s_activa s)|]; simpl;
      by rewrite lookup_insert_eq.
Qed.

(** ** Tokens *)

Lemma obj_get_json_clean k (o : gmap string value) :
  obj_get k (json_clean_obj o) = json_clean (obj_get k o).
Proof.
  unfold obj_get, json_clean_obj. rewrite lookup_omap.
  destruct (o !! k) as [v|]; [|done]. by destruct v.
Qed.

Lemma json_clean_strings (l : list string) :
  json_clean (VArr (map VStr l)) = VArr (map VStr l).
Proof.
  simpl. f_equal. induction l as [|s l IH]; simpl; [done|]. by rewrite IH.
Qed.

Section TokenAuthority.

Variable jwt_sign : gmap string value -> string -> sign_options -> option string.
Variable jwt_verify : string -> string -> Z -> jwt_verified.
Variables (jwtSecret jwtExpiresIn : string).

Abbreviation crearSesion := (Auth.crearSesion jwt_sign jwtSecret jwtExpiresIn).
Abbreviation validarToken := (Auth.validarToken jwt_verify jwtSecret).

Lemma validarToken_uniform token now e :
  jwt_verify token jwtSecret (now / 1000) = JwtThrow e ->
  validarToken token now = VNull.
Proof. unfold Auth.validarToken. by intros ->. Qed.

Lemma crearSesion_signed usuario now sesiones sc sesiones' :
  crearSesion usuario now sesiones = (Ok sc, sesiones') ->
  jwt_sign (Auth.payload_of usuario now) jwtSecret
    (SignOptions jwtExpiresIn "backend-ifts" (to_string (obj_get "id" usuario)))
  = Some (sc_token sc).
Proof.
  unfold Auth.crearSesion.
  destruct (obj_get "id" usuario); try discriminate;
    destruct (jwt_sign _ _ _) as [t|]; try discriminate;
    by intros [= <- _].
Qed.

End TokenAuthority.

Lemma payload_of_iat usuario now :
  Auth.payload_of usuario now !! "iat" = Some (VNum (Int (now / 1000))).
Proof.
  unfold Auth.payload_of. rewrite !lookup_insert_ne by done.
  by rewrite lookup_singleton_eq.
Qed.

Lemma jwt_claims_payload_key k payload o exp :
  k ∈ ["id"; "usuario"; "rol"; "permisos"; "iat"]%string ->
  obj_get k (jwt_claims payload o exp) = json_clean (obj_get k payload).
Proof.
  intros Hk. rewrite <- obj_get_json_clean. unfold jwt_claims, obj_get.
  rewrite !lookup_insert_ne; [done|..];
    intros <-; repeat (apply elem_of_cons in Hk as [Hk|Hk]; [discriminate|]);
    by apply elem_of_nil in Hk.
Qed.

(** C1: [jwt.sign] and [jwt.verify] are taken with the contract of the
    package ([jwt_contract]) and the signature as an ideal one
    ([jwt_unforgeable]).  For a session that [crearSesion] created,
    [validarToken] on its token before the expiry returns claims whose
    [id], [usuario], [rol], [permisos] and [iat] are those of the payload
    (as JSON carries them); from the expiry on it returns [null]; on a
    string that is not a token signed with the secret, as an altered
    token is, it returns [null]; and on any token that [jwt.verify]
    rejects, with whatever error (signature, format or expiry), it
    returns the same [null]. *)
Theorem token_round_trip
    (jwt_sign : gmap string value -> string -> sign_options -> option string)
    (jwt_verify : string -> string -> Z -> jwt_verified)
    (timespan : string -> option Z)
    (jwtSecret jwtExpiresIn : string)
    (usuario : gmap string value) (now : Z)
    (sesiones sesiones' : gmap string sesion) (sc : sesion_creada) :
  jwt_contract jwt_sign jwt_verify timespan jwtSecret ->
  jwt_unforgeable jwt_sign jwt_verify jwtSecret ->
  Auth.crearSesion jwt_sign jwtSecret jwtExpiresIn usuario now sesiones
  = (Ok sc, sesiones') ->
  exists ttl,
    timespan jwtExpiresIn = Some ttl
    /\ (forall now',
          now' / 1000 < now / 1000 + ttl ->
          exists decoded,
            Auth.validarToken jwt_verify jwtSecret (sc_token sc) now' = VObj decoded
            /\ forall k,
                k ∈ ["id"; "usuario"; "rol"; "permisos"; "iat"]%string ->
                obj_get k decoded
                = json_clean (obj_get k (Auth.payload_of usuario now)))
    /\ (forall now',
          now / 1000 + ttl <= now' / 1000 ->
          Auth.validarToken jwt_verify jwtSecret (sc_token sc) now' = VNull)
    /\ (forall token now',
          (forall payload o, jwt_sign payload jwtSecret o <> Some token) ->
          Auth.validarToken jwt_verify jwtSecret token now' = VNull)
    /\ (forall token now' e,
          jwt_verify token jwtSecret (now' / 1000) = JwtThrow e ->
          Auth.validarToken jwt_verify jwtSecret token now' = VNull).
Proof.
  intros Hcontract Hunforgeable Hcrear.
  apply crearSesion_signed in Hcrear.
  destruct (Hcontract _ _ _ _ Hcrear (payload_of_iat usuario now))
    as (ttl & Httl & Hverify).
  exists ttl. simpl in Httl. split_and!; [done|..].
  - intros now' Hlt. eexists. unfold Auth.validarToken. rewrite Hverify.
    rewrite (proj2 (Z.ltb_lt _ _) Hlt). split; [reflexivity|].
    intros k Hk. by apply jwt_claims_payload_key.
  - intros now' Hge. unfold Auth.validarToken. rewrite Hverify.
    by rewrite (proj2 (Z.ltb_ge _ _) Hge).
  - intros token now' Hnot. unfold Auth.validarToken.
    destruct (jwt_verify token jwtSecret (now' / 1000)) as [decoded|e] eqn:Hv;
      [|done].
    destruct (Hunforgeable _ _ _ Hv) as (payload & o & Hs). by destruct (Hnot payload o).
  - intros token now' e. apply validarToken_uniform.
Qed.

(** ** The model of the packages meets the contract *)

Lemma toy_is_payload0_sound p : ToyJwt.is_payload0 p = true -> p = ToyJwt.payload0.
Proof.
  unfold ToyJwt.is_payload0.
  destruct (p !! "id") as [[| | |[i|]| | |]|] eqn:Hid; try discriminate.
  destruct (p !! "usuario") as [[| | | |u| |]|] eqn:Hu; try discriminate.
  destruct (p !! "rol") as [[| | | |r| |]|] eqn:Hr; try discriminate.
  destruct (p !! "permisos") as [[| | | | |[|[| | | |q| |] [|]]|]|] eqn:Hp;
    try discriminate.
  destruct (p !! "iat") as [[| | |[t|]| | |]|] eqn:Ht; try discriminate.
  intros H. repeat (apply andb_prop in H as [H ?]).
  repeat match goal with
         | H : (_ =? _) = true |- _ => apply Z.eqb_eq in H
         | H : String.eqb _ _ = true |- _ => apply String.eqb_eq in H
         | H : (_ =? _)%nat = true |- _ => apply Nat.eqb_eq, map_size_empty_inv in H
         end.
  subst. apply map_eq. intros k.
  destruct (decide (k = "id")) as [->|?]; [by rewrite Hid|].
  destruct (decide (k = "usuario")) as [->|?]; [by rewrite Hu|].
  destruct (decide (k = "rol")) as [->|?]; [by rewrite Hr|].
  destruct (decide (k = "permisos")) as [->|?]; [by rewrite Hp|].
  destruct (decide (k = "iat")) as [->|?]; [by rewrite Ht|].
  unfold ToyJwt.payload0. rewrite !lookup_insert_ne by done.
  rewrite lookup_singleton_ne by done.
  match goal with
  | H : _ = ∅ |- _ =>
      apply (f_equal (fun m : gmap string value => m !! k)) in H;
      rewrite !lookup_delete_ne in H by done;
      by rewrite lookup_empty in H
  end.
Qed.

Lemma toy_is_opts0_sound o : ToyJwt.is_opts0 o = true -> o = ToyJwt.opts0.
Proof.
  destruct o as [e i s]. unfold ToyJwt.is_opts0. simpl.
  intros H. repeat (apply andb_prop in H as [H ?]).
  repeat match goal with
         | H : String.eqb _ _ = true |- _ => apply String.eqb_eq in H
         end.
  by subst.
Qed.

Lemma toy_sign_inv p k o t :
  ToyJwt.sign p k o = Some t ->
  p = ToyJwt.payload0 /\ k = ToyJwt.secret /\ o = ToyJwt.opts0 /\ t = ToyJwt.token0.
Proof.
  unfold ToyJwt.sign.
  destruct (ToyJwt.is_payload0 p) eqn:Hp; [|discriminate].
  destruct (String.eqb k ToyJwt.secret) eqn:Hk; [|discriminate].
  destruct (ToyJwt.is_opts0 o) eqn:Ho; [|discriminate].
  intros [= <-].
  by rewrite (toy_is_payload0_sound p Hp), (toy_is_opts0_sound o Ho),
       (proj1 (String.eqb_eq _ _) Hk).
Qed.

Lemma toy_contract :
  jwt_contract ToyJwt.sign ToyJwt.verify ToyJwt.timespan ToyJwt.secret.
Proof.
  intros p o t iat Hs Hiat.
  apply toy_sign_inv in Hs as (-> & _ & -> & ->).
  assert (iat = 1700000000) as ->.
  { assert (H : ToyJwt.payload0 !! "iat" = Some (VNum (Int 1700000000))) by vm_refl.
    rewrite H in Hiat. by inversion Hiat. }
  exists 86400. split; [reflexivity|]. intros clock. reflexivity.
Qed.

Lemma toy_unforgeable :
  jwt_unforgeable ToyJwt.sign ToyJwt.verify ToyJwt.secret.
Proof.
  intros t clock decoded. unfold ToyJwt.verify.
  destruct (String.eqb t ToyJwt.token0) eqn:Ht; [|discriminate].
  apply String.eqb_eq in Ht as ->. intros _.
  exists ToyJwt.payload0, ToyJwt.opts0. vm_refl.
Qed.

Lemma token_round_trip_witness :
  exists ttl decoded,
    ToyJwt.timespan "24h" = Some ttl
    /\ Auth.validarToken ToyJwt.verify ToyJwt.secret ToyJwt.token0
         (ToyJwt.now0 + 1000) = VObj decoded
    /\ obj_get "rol" decoded = VStr "admin"
    /\ Auth.validarToken ToyJwt.verify ToyJwt.secret ToyJwt.token0
         (ToyJwt.now0 + 86400000) = VNull.
Proof.
  destruct (token_round_trip ToyJwt.sign ToyJwt.verify ToyJwt.timespan
              ToyJwt.secret "24h" ToyJwt.admin_completo ToyJwt.now0 ∅
              (<[ ToyJwt.token0 :=
                    sesion_de ToyJwt.now0 ToyJwt.admin_completo ToyJwt.token0 ]> ∅)
              (sesion_creada_de "24h" ToyJwt.now0 ToyJwt.admin_completo ToyJwt.token0)
              toy_contract toy_unforgeable)
    as (ttl & Httl & Hbefore & Hafter & _).
  - vm_refl.
  - assert (ttl = 86400) as -> by (vm_compute in Httl; congruence).
    destruct (Hbefore (ToyJwt.now0 + 1000)) as (decoded & Hval & Hkeys).
    { vm_compute. reflexivity. }
    exists 86400, decoded. split_and!; [done|done| |].
    + rewrite (Hkeys "rol"); [vm_refl|]. right; right; left.
    + apply Hafter. vm_compute. discriminate.
Defined.


Lemma obtenerSesion_rebuilds_from_claims_witness :
  let claims := jwt_claims ToyJwt.payload0 ToyJwt.opts0 (1700000000 + 86400) in
  let sesionRecreada :=
    Sesion ToyJwt.token0 (VNum (Int 1)) (VStr "admin") (VStr "admin")
      (VArr [VStr "gestionar_usuarios"]) (Int 1700000000000)
      (Int (ToyJwt.now0 + 5000)) true in
  ToyJwt.verify ToyJwt.token0 ToyJwt.secret ((ToyJwt.now0 + 5000) / 1000)
  = Decoded (VObj claims)
  /\ Auth.obtenerSesion ToyJwt.verify ToyJwt.secret ToyJwt.token0
       (ToyJwt.now0 + 5000) ∅
     = (Some sesionRecreada, <[ ToyJwt.token0 := sesionRecreada ]> ∅).
Proof.
  intros claims sesionRecreada.
  assert (Hv : ToyJwt.verify ToyJwt.token0 ToyJwt.secret ((ToyJwt.now0 + 5000) / 1000)
               = Decoded (VObj claims)) by vm_refl.
  split; [exact Hv|].
  destruct (obtenerSesion_rebuilds_from_claims ToyJwt.verify ToyJwt.secret
              ToyJwt.token0 (ToyJwt.now0 + 5000) ∅ claims Hv) as (Hnone & _).
  rewrite Hnone by apply lookup_empty.
  vm_refl.
Defined.

(** * Further properties of the store *)

(** ** Errors of the generic operations *)

(** X1: a table name that the document does not have.  Unless the name
    is one that every object inherits from [Object.prototype], each of
    the five generic operations throws [TablaNoExiste].  On an inherited
    name the guard passes: [getAll] returns what the name inherits, and
    the other four throw a [TypeError] when they call a method of arrays
    on it.  In both cases the document is loaded, nothing else changes
    and nothing is written. *)
Theorem unknown_table_throws st d tableName (id : value) (fields : gmap string value) :
  resident st = Some d ->
  d !! tableName = None ->
  (Store.inherited tableName = false ->
   Store.getAll tableName st = (Throw (TablaNoExiste tableName), in_memory d st)
   /\ Store.getById tableName id st = (Throw (TablaNoExiste tableName), in_memory d st)
   /\ Store.create tableName fields st
      = (Throw (TablaNoExiste tableName), in_memory d st)
   /\ Store.update tableName id fields st
      = (Throw (TablaNoExiste tableName), in_memory d st)
   /\ Store.delete tableName id st
      = (Throw (TablaNoExiste tableName), in_memory d st))
  /\ (Store.inherited tableName = true ->
      Store.getAll tableName st = (Ok (Store.Inherited tableName), in_memory d st)
      /\ Store.getById tableName id st = (Throw TypeError, in_memory d st)
      /\ Store.create tableName fields st = (Throw TypeError, in_memory d st)
      /\ Store.update tableName id fields st = (Throw TypeError, in_memory d st)
      /\ Store.delete tableName id st = (Throw TypeError, in_memory d st)).
Proof.
  intros Hres Hnone.
  split; intros Hin.
  - assert (Ht : Store.the_table tableName st
                 = (Throw (TablaNoExiste tableName), in_memory d st)).
    { unfold Store.the_table, bind.
      by rewrite (ensureDataLoaded_run st d Hres), Hnone, Hin. }
    unfold Store.getById, Store.create, Store.update, Store.delete, bind.
    rewrite Ht. split_and!; try done.
    unfold Store.getAll, bind.
    by rewrite (ensureDataLoaded_run st d Hres), Hnone, Hin.
  - assert (Ht : Store.the_table tableName st = (Throw TypeError, in_memory d st)).
    { unfold Store.the_table, bind.
      by rewrite (ensureDataLoaded_run st d Hres), Hnone, Hin. }
    unfold Store.getById, Store.create, Store.update, Store.delete, bind.
    rewrite Ht. split_and!; try done.
    unfold Store.getAll, bind.
    by rewrite (ensureDataLoaded_run st d Hres), Hnone, Hin.
Qed.

Lemma unknown_table_throws_witness :
  Store.create "turnos" {[ "hora" := VStr "10:00" ]} Sample.st_tareas
  = (Throw (TablaNoExiste "turnos"), in_memory Sample.doc_tareas Sample.st_tareas)
  /\ Store.getAll "constructor" Sample.st_tareas
     = (Ok (Store.Inherited "constructor"),
        in_memory Sample.doc_tareas Sample.st_tareas)
  /\ Store.create "constructor" {[ "hora" := VStr "10:00" ]} Sample.st_tareas
     = (Throw TypeError, in_memory Sample.doc_tareas Sample.st_tareas).
Proof.
  destruct (unknown_table_throws Sample.st_tareas Sample.doc_tareas "turnos" VNull
              {[ "hora" := VStr "10:00" ]}) as [H _]; [vm_refl|vm_refl|].
  destruct (unknown_table_throws Sample.st_tareas Sample.doc_tareas "constructor"
              VNull {[ "hora" := VStr "10:00" ]}) as [_ H']; [vm_refl|vm_refl|].
  destruct H as (_ & _ & H & _); [vm_refl|].
  destruct H' as (H1 & _ & H2 & _); [vm_refl|].
  by split_and!.
Defined.

(** X2: with nothing in memory, every operation of the store that reads
    the document fails and leaves the state as it was.  When the file
    cannot be read or parsed the failure is the load error.  When the
    file holds [null], as it does after [saveData] has written a
    [this.data] that was [null], the load succeeds and the failure is
    the [TypeError] of the access to a property of [null]. *)
Theorem unreadable_file_throws st tableName (id v : value) (fields : gmap string value) :
  data st = None ->
  let all_fail (e : error) :=
    fst (Store.getAll tableName st) = Throw e
    /\ snd (Store.getAll tableName st) = st
    /\ Store.getById tableName id st = (Throw e, st)
    /\ Store.create tableName fields st = (Throw e, st)
    /\ Store.update tableName id fields st = (Throw e, st)
    /\ Store.delete tableName id st = (Throw e, st)
    /\ Store.getUsuarioByUsername v st = (Throw e, st)
    /\ Store.getPacienteByDni v st = (Throw e, st)
    /\ Store.getTareasByEmpleado v st = (Throw e, st)
    /\ Store.getTareasByPaciente v st = (Throw e, st)
    /\ Store.getTareasByEstado v st = (Throw e, st)
    /\ Store.getUsuarioCompleto id st = (Throw e, st)
    /\ Store.getTareasCompletas st = (Throw e, st)
    /\ Store.getEstadisticas st = (Throw e, st) in
  (db_file st = Unreadable -> all_fail ErrorCargar)
  /\ (db_file st = HoldsNull -> all_fail TypeError)
  /\ (forall f,
        let escrito := Store.saveData (MkDbState None f true) in
        fst escrito = Ok true
        /\ Store.getById tableName id (snd escrito) = (Throw TypeError, snd escrito)).
Proof.
  intros Hdata all_fail.
  assert (Hall : forall e,
            Store.ensureDataLoaded st = (Throw e, st) -> all_fail e).
  { intros e He.
    assert (Ht : forall t, Store.the_table t st = (Throw e, st)).
    { intros t. unfold Store.the_table, bind. by rewrite He. }
    assert (Hr : forall t, Store.raw_table t st = (Throw e, st)).
    { intros t. unfold Store.raw_table, bind. by rewrite He. }
    unfold all_fail.
    unfold Store.getAll, Store.getById, Store.create, Store.update, Store.delete,
      Store.getUsuarioByUsername, Store.getPacienteByDni, Store.getTareasByEmpleado,
      Store.getTareasByPaciente, Store.getTareasByEstado,
      Store.getUsuarioCompleto, Store.getTareasCompletas, Store.getEstadisticas,
      Store.getUsuarioById, Store.getAllTareas, Store.getAll, Store.getById, bind.
    by rewrite !Ht, !Hr, !He. }
  split_and!.
  - intros Hf. apply Hall.
    unfold Store.ensureDataLoaded, Store.loadData. by rewrite Hdata, Hf.
  - intros Hf. apply Hall.
    unfold Store.ensureDataLoaded, Store.loadData. rewrite Hdata, Hf.
    destruct st as [dm f w]. simpl in *. by subst.
  - intros f. split; reflexivity.
Qed.

Lemma unreadable_file_throws_witness :
  Store.getById "roles" (VNum (Int 1)) (DbState None None true)
  = (Throw ErrorCargar, DbState None None true)
  /\ Store.getById "roles" (VNum (Int 1)) (MkDbState None HoldsNull true)
     = (Throw TypeError, MkDbState None HoldsNull true).
Proof.
  destruct (unreadable_file_throws (DbState None None true) "roles" (VNum (Int 1))
              VNull ∅) as (H & _); [reflexivity|].
  destruct (unreadable_file_throws (MkDbState None HoldsNull true) "roles"
              (VNum (Int 1)) VNull ∅) as (_ & H' & _); [reflexivity|].
  split.
  - by destruct H as (_ & _ & H & _).
  - by destruct H' as (_ & _ & H' & _).
Defined.

Lemma has_id_NaN item : Store.has_id NaN item = false.
Proof. unfold Store.has_id, strict_eq. by destruct (obj_get "id" item) as [| | |[|]| | |]. Qed.

Lemma list_find_none_of (n : num) (tbl : table) :
  Forall (fun item => Store.has_id n item = false) tbl ->
  list_find (Store.has_id n) tbl = None.
Proof.
  intros HF. apply list_find_None. eapply Forall_impl; [exact HF|].
  intros item Hitem HP. apply Is_true_true in HP. congruence.
Qed.

(** X3: an id whose numbers are written plainly and that [parseInt]
    reads as [NaN] or as an integer in the safe range.  When no record
    of the table has the id that [parseInt] reads, [getById], [update]
    and [delete] throw [RegistroNoEncontrado] and neither change the
    document nor write the file.  That is the case of every id that
    [parseInt] reads as [NaN]. *)
Theorem unknown_id_throws st d tableName tbl (id : value) (fields : gmap string value) :
  resident st = Some d ->
  d !! tableName = Some tbl ->
  legible id ->
  parseInt id = NaN \/ Forall (fun item => Store.has_id (parseInt id) item = false) tbl ->
  Store.getById tableName id st
  = (Throw (RegistroNoEncontrado id tableName), in_memory d st)
  /\ Store.update tableName id fields st
     = (Throw (RegistroNoEncontrado id tableName), in_memory d st)
  /\ Store.delete tableName id st
     = (Throw (RegistroNoEncontrado id tableName), in_memory d st).
Proof.
  intros Hres Htbl _ Hno.
  assert (Hfind : list_find (Store.has_id (parseInt id)) tbl = None).
  { apply list_find_none_of. destruct Hno as [->|HF]; [|done].
    apply Forall_forall. intros item _. apply has_id_NaN. }
  unfold Store.getById, Store.update, Store.delete, bind.
  by rewrite (the_table_run st d tableName tbl Hres Htbl), Hfind.
Qed.

Lemma unknown_id_throws_witness :
  Store.delete "tareas" (VStr "abc") Sample.st_tareas
  = (Throw (RegistroNoEncontrado (VStr "abc") "tareas"),
     in_memory Sample.doc_tareas Sample.st_tareas).
Proof.
  apply (unknown_id_throws Sample.st_tareas Sample.doc_tareas "tareas"
           [Sample.tarea1] (VStr "abc") ∅); [vm_refl|vm_refl| |left; vm_refl].
  split; [reflexivity|]. intros z Hz. exfalso. revert Hz. vm_compute. discriminate.
Defined.

(** ** Writes *)

(** X4: there is no rollback.  On a table whose ids are integers in
    the safe range, when the file cannot be written, [create] throws the
    save error after it has put the record in memory: the file keeps
    what it had, and [getById] in the same process returns the record
    that was never saved. *)
Theorem failed_write_keeps_the_record_in_memory
    st d tableName tbl zs (fields : gmap string value) :
  resident st = Some d ->
  d !! tableName = Some tbl ->
  disk_writable st = false ->
  ids tbl = map (fun z => VNum (Int z)) zs ->
  safe_ids zs ->
  fields !! "id" = None ->
  let r : gmap string value := fields ∪ {[ "id" := VNum (Int (next_id zs)) ]} in
  let st' := in_memory (<[tableName := tbl ++ [r]]> d) st in
  Store.create tableName fields st = (Throw ErrorGuardar, st')
  /\ db_file st' = db_file st
  /\ Store.getById tableName (VNum (Int (next_id zs))) st' = (Ok r, st').
Proof.
  intros Hres Htbl Hw Hids Hsafe Hnone r st'.
  assert (Hc : Store.create tableName fields st = (Throw ErrorGuardar, st')).
  { unfold Store.create, bind. rewrite (the_table_run st d tableName tbl Hres Htbl).
    rewrite (maxId_Int _ _ Hids Hsafe). subst st'. fold r.
    unfold Store.set_table, Store.saveData, in_memory; simpl. by rewrite Hw. }
  split_and!; [done|done|].
  rewrite (getById_run st' (<[tableName := tbl ++ [r]]> d) tableName (tbl ++ [r]));
    [|done|by rewrite lookup_insert_eq].
  simpl. rewrite list_find_app_r by (by apply no_record_with_next_id).
  simpl. rewrite decide_True; [done|].
  apply Is_true_true, has_id_refl. unfold obj_get, r.
  rewrite lookup_union_r by done. by rewrite lookup_singleton_eq.
Qed.

Lemma failed_write_keeps_the_record_in_memory_witness :
  let st := DbState None (Some Sample.doc_tareas) false in
  let r : gmap string value :=
    {[ "descripcion" := VStr "curacion" ]} ∪ {[ "id" := VNum (Int 2) ]} in
  let st' := in_memory (<["tareas" := [Sample.tarea1] ++ [r]]> Sample.doc_tareas) st in
  Store.create "tareas" {[ "descripcion" := VStr "curacion" ]} st
  = (Throw ErrorGuardar, st')
  /\ Store.getById "tareas" (VNum (Int 2)) st' = (Ok r, st').
Proof.
  intros st r st'.
  destruct (failed_write_keeps_the_record_in_memory st Sample.doc_tareas "tareas"
              [Sample.tarea1] [1] {[ "descripcion" := VStr "curacion" ]})
    as (H1 & _ & H2); try vm_refl.
  - by repeat constructor.
  - split; [exact H1|exact H2].
Defined.

(** X5: the document is read from the file once.  With a document in
    memory, what the file holds has no part in what a read returns, and
    the next successful write replaces the file by the document in
    memory (as JSON keeps it), whatever the file held. *)
Theorem resident_document_shadows_the_file
    d dk1 dk2 w1 w2 tableName tbl (id v : value) (fields : gmap string value) :
  d !! tableName = Some tbl ->
  fst (Store.getAll tableName (DbState (Some d) dk1 w1))
  = fst (Store.getAll tableName (DbState (Some d) dk2 w2))
  /\ fst (Store.getById tableName id (DbState (Some d) dk1 w1))
     = fst (Store.getById tableName id (DbState (Some d) dk2 w2))
  /\ fst (Store.getUsuarioByUsername v (DbState (Some d) dk1 w1))
     = fst (Store.getUsuarioByUsername v (DbState (Some d) dk2 w2))
  /\ fst (Store.getTareasByEstado v (DbState (Some d) dk1 w1))
     = fst (Store.getTareasByEstado v (DbState (Some d) dk2 w2))
  /\ exists r,
       Store.create tableName fields (DbState (Some d) dk1 true)
       = (Ok r, DbState (Some (<[tableName := tbl ++ [r]]> d))
                  (Some (json_clean_db (<[tableName := tbl ++ [r]]> d))) true).
Proof.
  intros Htbl. split_and!.
  - unfold Store.getAll, Store.the_table, bind, Store.ensureDataLoaded; simpl.
    by destruct (d !! tableName).
  - unfold Store.getById, Store.the_table, bind, Store.ensureDataLoaded; simpl.
    destruct (d !! tableName) as [tbl0|]; simpl; [|done].
    by destruct (list_find _ tbl0) as [[i r]|].
  - unfold Store.getUsuarioByUsername, Store.raw_table, bind,
      Store.ensureDataLoaded; simpl.
    destruct (d !! "usuarios") as [tbl0|]; simpl; [|done].
    by destruct (find _ tbl0).
  - unfold Store.getTareasByEstado, Store.raw_table, bind,
      Store.ensureDataLoaded; simpl.
    by destruct (d !! "tareas").
  - eexists.
    exact (create_run (DbState (Some d) dk1 true) d tableName tbl eq_refl Htbl eq_refl
             fields).
Qed.

Lemma resident_document_shadows_the_file_witness :
  fst (Store.getById "tareas" (VNum (Int 1))
         (DbState (Some Sample.doc_tareas) (Some Sample.doc_dos_tareas) true))
  = fst (Store.getById "tareas" (VNum (Int 1))
           (DbState (Some Sample.doc_tareas) None false)).
Proof.
  apply (resident_document_shadows_the_file Sample.doc_tareas
           (Some Sample.doc_dos_tareas) None true false "tareas" [Sample.tarea1]
           (VNum (Int 1)) VNull ∅).
  vm_refl.
Defined.

(** Replacing or removing an element that a predicate rejects does not
    change what [list_find] returns for it. *)
Lemma list_find_insert_rejected {A} (P : A -> Prop) `{!forall x, Decision (P x)}
    (l : list A) i x :
  ~ P x -> (forall y, l !! i = Some y -> ~ P y) ->
  snd <$> list_find P (<[i := x]> l) = snd <$> list_find P l.
Proof.
  revert i. induction l as [|a l IH]; intros i Hx Hy; [done|].
  destruct i as [|i]; simpl.
  - rewrite !decide_False; [done|by apply Hy|done].
  - destruct (decide (P a)); [done|].
    specialize (IH i Hx Hy).
    destruct (list_find P (<[i:=x]> l)) as [[j u]|], (list_find P l) as [[k w]|];
      simpl in *; congruence.
Qed.

Lemma list_find_delete_rejected {A} (P : A -> Prop) `{!forall x, Decision (P x)}
    (l : list A) i :
  (forall y, l !! i = Some y -> ~ P y) ->
  snd <$> list_find P (base.delete i l) = snd <$> list_find P l.
Proof.
  revert i. induction l as [|a l IH]; intros i Hy; [done|].
  destruct i as [|i]; simpl.
  - rewrite decide_False by (by apply Hy).
    by destruct (list_find P l) as [[k w]|].
  - destruct (decide (P a)); [done|].
    specialize (IH i Hy).
    destruct (list_find P (base.delete i l)) as [[j u]|], (list_find P l) as [[k w]|];
      simpl in *; congruence.
Qed.

Lemma list_find_app_keeps {A} (P : A -> Prop) `{!forall x, Decision (P x)}
    (l : list A) x i y :
  list_find P l = Some (i, y) -> list_find P (l ++ [x]) = Some (i, y).
Proof. apply list_find_app_l. Qed.

Lemma has_id_other n n' (item : gmap string value) :
  n <> n' -> Store.has_id n item = true -> Store.has_id n' item = false.
Proof.
  intros Hne Hn. apply has_id_Int in Hn as (z & -> & Hid).
  unfold Store.has_id. rewrite Hid. destruct n' as [z'|]; simpl; [|done].
  apply Z.eqb_neq. congruence.
Qed.

Lemma getById_result st d tableName (id : value) :
  resident st = Some d ->
  Store.getById tableName id st
  = (match d !! tableName with
     | Some tbl => find_by_id tableName tbl id
     | None =>
         if Store.inherited tableName then Throw TypeError
         else Throw (TablaNoExiste tableName)
     end, in_memory d st).
Proof.
  intros Hres. destruct (d !! tableName) as [tbl|] eqn:Htbl.
  - rewrite (getById_run st d tableName tbl Hres Htbl). unfold find_by_id.
    by destruct (list_find _ tbl) as [[i r]|].
  - unfold Store.getById, Store.the_table, bind.
    rewrite (ensureDataLoaded_run st d Hres), Htbl.
    by destruct (Store.inherited tableName).
Qed.

Lemma find_by_id_snd tableName (tbl1 tbl2 : table) (id : value) :
  snd <$> list_find (Store.has_id (parseInt id)) tbl1
  = snd <$> list_find (Store.has_id (parseInt id)) tbl2 ->
  find_by_id tableName tbl1 id = find_by_id tableName tbl2 id.
Proof.
  unfold find_by_id. intros H.
  destruct (list_find _ tbl1) as [[i r]|], (list_find _ tbl2) as [[j u]|];
    simpl in H; congruence.
Qed.

(** X6: [create] only appends.  The records the table had stay where
    they were, the other tables are the same, and [getById] returns for
    every id what it returned before, also when the new record repeats
    an id. *)
Theorem create_only_appends st d tableName tbl (fields : gmap string value) :
  resident st = Some d ->
  d !! tableName = Some tbl ->
  disk_writable st = true ->
  exists r d',
    Store.create tableName fields st = (Ok r, saved d')
    /\ d' !! tableName = Some (tbl ++ [r])
    /\ (forall i old, tbl !! i = Some old -> (tbl ++ [r]) !! i = Some old)
    /\ (forall t', t' <> tableName -> d' !! t' = d !! t')
    /\ (forall (id' : value) rec,
          fst (Store.getById tableName id' st) = Ok rec ->
          fst (Store.getById tableName id' (saved d')) = Ok rec)
    /\ (forall t' (id' : value),
          t' <> tableName ->
          fst (Store.getById t' id' (saved d')) = fst (Store.getById t' id' st)).
Proof.
  intros Hres Htbl Hw.
  pose proof (create_run st d tableName tbl Hres Htbl Hw fields) as Hc. simpl in Hc.
  set (r := fields ∪ {[ "id" := VNum (num_add (Store.maxId tbl) (Int 1)) ]}) in *.
  exists r, (<[tableName := tbl ++ [r]]> d).
  split_and!; [done|by rewrite lookup_insert_eq| | | |].
  - intros i old Hi. by apply lookup_app_l_Some.
  - intros t' Hne. by rewrite lookup_insert_ne.
  - intros id' rec.
    rewrite (getById_result st d tableName id' Hres), Htbl.
    rewrite (getById_result _ _ tableName id' (resident_saved _)), lookup_insert_eq.
    simpl. unfold find_by_id.
    destruct (list_find _ tbl) as [[i x]|] eqn:Hf; [|discriminate].
    by rewrite (list_find_app_l _ _ _ _ _ Hf).
  - intros t' id' Hne.
    rewrite (getById_result st d t' id' Hres).
    rewrite (getById_result _ _ t' id' (resident_saved _)).
    simpl. by rewrite lookup_insert_ne.
Qed.

Lemma create_only_appends_witness :
  exists r d',
    Store.create "tareas" Sample.tarea_con_id Sample.st_tareas = (Ok r, saved d')
    /\ d' !! "tareas" = Some ([Sample.tarea1] ++ [r]).
Proof.
  destruct (create_only_appends Sample.st_tareas Sample.doc_tareas "tareas"
              [Sample.tarea1] Sample.tarea_con_id)
    as (r & d' & H1 & H2 & _); [vm_refl|vm_refl|vm_refl|].
  exists r, d'. auto.
Defined.

Lemma list_find_updated n (tbl : table) index old (r : gmap string value) :
  list_find (Store.has_id n) tbl = Some (index, old) ->
  Store.has_id n r = true ->
  list_find (Store.has_id n) (<[index := r]> tbl) = Some (index, r).
Proof.
  intros Hf Hr. apply list_find_insert_Some. right; left.
  apply list_find_Some in Hf as (Hl & _ & Hbefore).
  split_and!; [done|done|by eapply lookup_lt_Some|by apply Is_true_true|done].
Qed.

(** X7: [update] and [delete] touch one record.  The ids are legible:
    their numbers are written plainly and [parseInt] reads them as
    [NaN] or as an integer in the safe range.  For every such id that
    [parseInt] reads differently, [getById] returns afterwards what it
    returned before; the table keeps its length under [update] and
    loses one record under [delete]; the other tables are the same. *)
Theorem update_and_delete_touch_one_record
    st d tableName tbl (id id' : value) (fields : gmap string value) :
  resident st = Some d ->
  d !! tableName = Some tbl ->
  disk_writable st = true ->
  Exists (fun item => Store.has_id (parseInt id) item = true) tbl ->
  legible id ->
  legible id' ->
  parseInt id' <> parseInt id ->
  exists tblU tblD,
    resident (state_after (Store.update tableName id fields st))
    = Some (<[tableName := tblU]> d)
    /\ resident (state_after (Store.delete tableName id st))
       = Some (<[tableName := tblD]> d)
    /\ length tblU = length tbl
    /\ S (length tblD) = length tbl
    /\ fst (Store.getById tableName id'
              (state_after (Store.update tableName id fields st)))
       = fst (Store.getById tableName id' st)
    /\ fst (Store.getById tableName id'
              (state_after (Store.delete tableName id st)))
       = fst (Store.getById tableName id' st).
Proof.
  intros Hres Htbl Hw Hex _ _ Hne.
  destruct (find_existing _ _ Hex) as (index & old & z & Hf & Hl & Hn & Hid).
  set (r := <[ "id" := VNum (parseInt id) ]> (fields ∪ old) : gmap string value).
  pose proof (update_run st d tableName tbl Hres Htbl Hw id fields index old Hf) as Hu.
  pose proof (delete_run st d tableName tbl Hres Htbl Hw id index old Hf) as Hd.
  simpl in Hu. fold r in Hu.
  assert (Hold : Store.has_id (parseInt id') old = false).
  { apply (has_id_other (parseInt id)); [congruence|].
    rewrite Hn. by apply has_id_refl. }
  assert (Hr : Store.has_id (parseInt id') r = false).
  { apply (has_id_other (parseInt id)); [congruence|].
    rewrite Hn. apply has_id_refl. unfold obj_get, r.
    rewrite lookup_insert_eq. by rewrite Hn. }
  exists (<[index := r]> tbl), (base.delete index tbl).
  rewrite Hu, Hd. unfold state_after. simpl.
  split_and!; [done|done|by rewrite length_insert| | |].
  - rewrite length_delete by eauto. apply lookup_lt_Some in Hl. lia.
  - rewrite (getById_result _ _ tableName id' (resident_saved _)), lookup_insert_eq.
    rewrite (getById_result st d tableName id' Hres), Htbl. simpl.
    apply find_by_id_snd, list_find_insert_rejected.
    + intros HP. apply Is_true_true in HP. congruence.
    + intros y Hy HP. apply Is_true_true in HP. congruence.
  - rewrite (getById_result _ _ tableName id' (resident_saved _)), lookup_insert_eq.
    rewrite (getById_result st d tableName id' Hres), Htbl. simpl.
    apply find_by_id_snd, list_find_delete_rejected.
    intros y Hy HP. apply Is_true_true in HP. congruence.
Qed.

Lemma update_and_delete_touch_one_record_witness :
  fst (Store.getById "tareas" (VNum (Int 1))
         (state_after (Store.delete "tareas" (VStr "2") Sample.st_dos_tareas)))
  = fst (Store.getById "tareas" (VNum (Int 1)) Sample.st_dos_tareas).
Proof.
  destruct (update_and_delete_touch_one_record Sample.st_dos_tareas
              Sample.doc_dos_tareas "tareas" [Sample.tarea1; Sample.tarea2]
              (VStr "2") (VNum (Int 1)) ∅)
    as (tblU & tblD & _ & _ & _ & _ & _ & H);
    [vm_refl|vm_refl|vm_refl| | | |vm_compute; discriminate|exact H].
  - apply Exists_cons_tl, Exists_cons_hd. vm_refl.
  - split; [reflexivity|]. intros z Hz.
    assert (z = 2) as -> by (revert Hz; vm_compute; congruence). reflexivity.
  - split; [reflexivity|]. intros z Hz.
    assert (z = 1) as -> by (revert Hz; vm_compute; congruence). reflexivity.
Defined.



(** ** The creators of the entities *)

Lemma create_generates_id st d tableName tbl zs (fields : gmap string value) :
  resident st = Some d ->
  d !! tableName = Some tbl ->
  disk_writable st = true ->
  ids tbl = map (fun z => VNum (Int z)) zs ->
  safe_ids zs ->
  fields !! "id" = None ->
  let r : gmap string value := <[ "id" := VNum (Int (next_id zs)) ]> fields in
  Store.create tableName fields st = (Ok r, saved (<[tableName := tbl ++ [r]]> d)).
Proof.
  intros Hres Htbl Hw Hids Hsafe Hnone r.
  pose proof (create_run st d tableName tbl Hres Htbl Hw fields) as Hc.
  simpl in Hc. rewrite (maxId_Int _ _ Hids Hsafe) in Hc.
  assert (Hr : fields ∪ {[ "id" := VNum (Int (next_id zs)) ]} = r).
  { apply map_eq. intros k. unfold r.
    destruct (decide (k = "id")) as [->|Hk].
    - rewrite lookup_insert_eq, lookup_union_r by done. by rewrite lookup_singleton_eq.
    - rewrite lookup_insert_ne by done.
      destruct (fields !! k) as [x|] eqn:Hx.
      + by erewrite lookup_union_Some_l.
      + rewrite lookup_union_r by done. by rewrite lookup_singleton_ne. }
  by rewrite Hr in Hc.
Qed.

(** X9: [createRole], [createPerfil], [createEmpleado], [createPaciente]
    and [createInsumo] keep chosen fields only.  When the test on the
    required fields fails they throw before the document is even loaded,
    the state being untouched; otherwise, on a table whose ids are
    integers in the safe range (below 2^53 in magnitude, where adding 1
    is exact), the record stored and returned has the next id and the
    chosen fields, whatever else the caller's object carries, an [id]
    included. *)
Theorem creators_keep_chosen_fields
    c st d tbl zs (datos : gmap string value) :
  c ∈ creadores ->
  resident st = Some d ->
  d !! cr_tabla c = Some tbl ->
  disk_writable st = true ->
  ids tbl = map (fun z => VNum (Int z)) zs ->
  safe_ids zs ->
  (cr_valido c datos = false ->
   exists mensaje, cr_metodo c datos st = (Throw (CamposRequeridos mensaje), st))
  /\ (cr_valido c datos = true ->
      let r : gmap string value :=
        <[ "id" := VNum (Int (next_id zs)) ]> (cr_campos c datos) in
      cr_metodo c datos st = (Ok r, saved (<[cr_tabla c := tbl ++ [r]]> d)))
  /\ cr_campos c datos !! "id" = None.
Proof.
  intros Hc Hres Htbl Hw Hids Hsafe.
  unfold creadores in Hc.
  repeat (apply elem_of_cons in Hc as [->|Hc]); [..|by apply elem_of_nil in Hc];
    simpl in *.
  - split_and!; [| |done].
    + intros Hv. eexists. unfold Store.createRole.
      destruct (truthy (obj_get "nombre" datos)),
        (truthy (obj_get "permisos" datos)); try discriminate; reflexivity.
    + intros Hv. unfold Store.createRole.
      apply andb_prop in Hv as [-> ->]. simpl.
      by apply (create_generates_id st d _ tbl zs).
  - split_and!; [| |done].
    + intros Hv. eexists. unfold Store.createPerfil. by rewrite Hv.
    + intros Hv. unfold Store.createPerfil. rewrite Hv. simpl.
      by apply (create_generates_id st d _ tbl zs).
  - split_and!; [| |done].
    + intros Hv. eexists. unfold Store.createEmpleado.
      destruct (truthy (obj_get "nombre" datos)),
        (truthy (obj_get "puesto" datos)); try discriminate; reflexivity.
    + intros Hv. unfold Store.createEmpleado.
      apply andb_prop in Hv as [-> ->]. simpl.
      by apply (create_generates_id st d _ tbl zs).
  - split_and!; [| |done].
    + intros Hv. eexists. unfold Store.createPaciente.
      destruct (truthy (obj_get "nombre" datos)),
        (truthy (obj_get "dni" datos)); try discriminate; reflexivity.
    + intros Hv. unfold Store.createPaciente.
      apply andb_prop in Hv as [-> ->]. simpl.
      by apply (create_generates_id st d _ tbl zs).
  - split_and!; [| |done].
    + intros Hv. eexists. unfold Store.createInsumo.
      destruct (truthy (obj_get "nombre" datos)),
        (strict_eq (obj_get "stock" datos) VUndef),
        (truthy (obj_get "unidad" datos)); try discriminate; reflexivity.
    + intros Hv. unfold Store.createInsumo.
      apply andb_prop in Hv as [Hv ->]. apply andb_prop in Hv as [-> Hs].
      apply negb_true_iff in Hs. rewrite Hs. simpl.
      by apply (create_generates_id st d _ tbl zs).
Qed.

Lemma creators_keep_chosen_fields_witness :
  Store.createEmpleado
    {[ "id" := VNum (Int 1); "nombre" := VStr "Ana Garcia";
       "puesto" := VStr "Enfermera"; "telefono" := VStr "555-0123" ]}
    SampleUsers.st
  = (Ok {[ "id" := VNum (Int 2); "nombre" := VStr "Ana Garcia";
           "puesto" := VStr "Enfermera" ]},
     saved (<["empleados" :=
               [SampleUsers.empleado1] ++
               [{[ "id" := VNum (Int 2); "nombre" := VStr "Ana Garcia";
                   "puesto" := VStr "Enfermera" ]}]]> SampleUsers.doc)).
Proof.
  destruct (creators_keep_chosen_fields
              (Creador "empleados" Store.createEmpleado
                 (fun x => {[ "nombre" := obj_get "nombre" x;
                              "puesto" := obj_get "puesto" x ]})
                 (fun x => truthy (obj_get "nombre" x) && truthy (obj_get "puesto" x)))
              SampleUsers.st SampleUsers.doc [SampleUsers.empleado1] [1]
              {[ "id" := VNum (Int 1); "nombre" := VStr "Ana Garcia";
                 "puesto" := VStr "Enfermera"; "telefono" := VStr "555-0123" ]})
    as (_ & Hok & _).
  - unfold creadores. do 2 right. left.
  - vm_refl.
  - vm_refl.
  - vm_refl.
  - vm_refl.
  - by repeat constructor.
  - simpl in Hok. rewrite Hok by vm_refl. vm_refl.
Defined.

(** ** Lookups by name and filters *)

Lemma raw_table_run st d tableName tbl :
  resident st = Some d ->
  d !! tableName = Some tbl ->
  Store.raw_table tableName st = (Ok tbl, in_memory d st).
Proof.
  intros Hres Htbl. unfold Store.raw_table, bind.
  by rewrite (ensureDataLoaded_run st d Hres), Htbl.
Qed.

Lemma raw_table_in_memory st d tableName tbl :
  d !! tableName = Some tbl ->
  Store.raw_table tableName (in_memory d st) = (Ok tbl, in_memory d st).
Proof.
  intros Htbl. unfold Store.raw_table, bind, Store.ensureDataLoaded, in_memory.
  simpl. by rewrite Htbl.
Qed.

Lemma find_first_where {A} (f : A -> bool) (l : list A) (x : A) :
  find f l = Some x <-> first_where f l x.
Proof.
  unfold first_where. induction l as [|a l IH]; simpl.
  - split; [discriminate|]. by intros (i & Hi & _).
  - destruct (f a) eqn:Hfa.
    + split.
      * intros [= ->]. exists 0%nat. split_and!; [done|done|]. intros j y Hj. lia.
      * intros ([|i] & Hi & Hfx & Hbefore); simpl in Hi; [congruence|].
        specialize (Hbefore 0%nat a). simpl in Hbefore.
        rewrite Hbefore in Hfa by (done || lia). discriminate.
    + rewrite IH. split.
      * intros (i & Hi & Hfx & Hbefore). exists (S i). split_and!; [done|done|].
        intros [|j] y Hj Hy; simpl in Hy; [congruence|].
        apply (Hbefore j); [lia|done].
      * intros ([|i] & Hi & Hfx & Hbefore); simpl in Hi; [congruence|].
        exists i. split_and!; [done|done|].
        intros j y Hj Hy. apply (Hbefore (S j)); [lia|done].
Qed.

Lemma find_none_Forall {A} (f : A -> bool) (l : list A) :
  find f l = None <-> Forall (fun y => f y = false) l.
Proof.
  induction l as [|a l IH]; simpl.
  - split; [constructor|done].
  - destruct (f a) eqn:Hfa.
    + split; [discriminate|]. intros H. apply Forall_cons in H as [H _]. congruence.
    + rewrite IH. split.
      * by constructor.
      * intros H. by apply Forall_cons in H as [_ H].
Qed.

Lemma strict_eq_true (a b : value) : strict_eq a b = true -> a = b.
Proof.
  destruct a as [| |x|[x|]|x|x|x], b as [| |y|[y|]|y|y|y]; simpl;
    try discriminate; try done.
  - by intros ->%Bool.eqb_prop.
  - by intros ->%Z.eqb_eq.
  - by intros ->%String.eqb_eq.
Qed.

Lemma strict_eq_Int (v : value) z :
  strict_eq v (VNum (Int z)) = true <-> v = VNum (Int z).
Proof.
  split; [apply strict_eq_true|]. intros ->. simpl. apply Z.eqb_refl.
Qed.

Lemma strict_eq_NaN (v : value) : strict_eq v (VNum NaN) = false.
Proof. by destruct v as [| |x|[x|]|x|x|x]. Qed.

(** X10: [getUsuarioByUsername] and [getPacienteByDni] return the first
    record of the table whose field is strictly equal to the value
    asked for, so a record whose field is that very value, and throw
    their not-found error exactly when no record matches.  They only
    load the document. *)
Theorem lookups_by_name_return_the_first_match
    st d usuarios pacientes (nombre dni : value) :
  resident st = Some d ->
  d !! "usuarios" = Some usuarios ->
  d !! "pacientes" = Some pacientes ->
  let porNombre := Store.getUsuarioByUsername nombre st in
  let porDni := Store.getPacienteByDni dni st in
  state_after porNombre = in_memory d st
  /\ state_after porDni = in_memory d st
  /\ (forall u, returned porNombre = Some u
        <-> first_where (fun u => strict_eq (obj_get "usuario" u) nombre) usuarios u)
  /\ (forall p, returned porDni = Some p
        <-> first_where (fun p => strict_eq (obj_get "dni" p) dni) pacientes p)
  /\ (forall u, returned porNombre = Some u -> obj_get "usuario" u = nombre)
  /\ (forall p, returned porDni = Some p -> obj_get "dni" p = dni)
  /\ (thrown porNombre = Some (UsuarioNoEncontrado nombre)
        <-> Forall (fun u => strict_eq (obj_get "usuario" u) nombre = false) usuarios)
  /\ (thrown porDni = Some (PacienteNoEncontrado dni)
        <-> Forall (fun p => strict_eq (obj_get "dni" p) dni = false) pacientes).
Proof.
  intros Hres Hu Hp porNombre porDni.
  assert (HN : porNombre =
    (match find (fun u => strict_eq (obj_get "usuario" u) nombre) usuarios with
     | Some u => Ok u
     | None => Throw (UsuarioNoEncontrado nombre)
     end, in_memory d st)).
  { unfold porNombre, Store.getUsuarioByUsername, bind.
    rewrite (raw_table_run st d "usuarios" usuarios Hres Hu).
    by destruct (find _ usuarios). }
  assert (HD : porDni =
    (match find (fun p => strict_eq (obj_get "dni" p) dni) pacientes with
     | Some p => Ok p
     | None => Throw (PacienteNoEncontrado dni)
     end, in_memory d st)).
  { unfold porDni, Store.getPacienteByDni, bind.
    rewrite (raw_table_run st d "pacientes" pacientes Hres Hp).
    by destruct (find _ pacientes). }
  rewrite HN, HD. unfold returned, thrown, state_after. simpl.
  split_and!; try done.
  - intros u. rewrite <- find_first_where.
    destruct (find _ usuarios); simpl; split; congruence.
  - intros p. rewrite <- find_first_where.
    destruct (find _ pacientes); simpl; split; congruence.
  - intros u. destruct (find _ usuarios) as [u'|] eqn:Hf; simpl; [|done].
    intros [= ->]. apply find_some in Hf as [_ Hf]. by apply strict_eq_true.
  - intros p. destruct (find _ pacientes) as [p'|] eqn:Hf; simpl; [|done].
    intros [= ->]. apply find_some in Hf as [_ Hf]. by apply strict_eq_true.
  - rewrite <- find_none_Forall. destruct (find _ usuarios); simpl; split; congruence.
  - rewrite <- find_none_Forall. destruct (find _ pacientes); simpl; split; congruence.
Qed.

Lemma lookups_by_name_return_the_first_match_witness :
  returned (Store.getUsuarioByUsername (VStr "dlopez") SampleUsers.st)
  = Some SampleUsers.usuario_medico.
Proof.
  destruct (lookups_by_name_return_the_first_match SampleUsers.st SampleUsers.doc
              [SampleUsers.usuario_admin; SampleUsers.usuario_medico] []
              (VStr "dlopez") (VStr "30111222"))
    as (_ & _ & H & _); [vm_refl|vm_refl|vm_refl|].
  apply H. exists 1%nat. split_and!; [vm_refl|vm_refl|].
  intros [|[|j]] y Hj Hy; [|lia|lia].
  injection Hy as <-. vm_refl.
Defined.

(** X11: the three filters of the tasks.  Each returns, in the order of
    the table, the tasks whose field is strictly equal to the value
    asked for, and only loads the document; an empty selection is an
    empty array, not an error.  [getTareasByEmpleado] and
    [getTareasByPaciente] compare with [parseInt] of the argument, here
    a legible one (its numbers are written plainly and [parseInt] reads
    it as [NaN] or as an integer in the safe range): a task is selected
    when its field is that very integer, so none is when the argument
    does not read as an integer, and a task whose field holds the id as
    a string is never selected. *)
Theorem task_filters_select_by_strict_equality st d tareas :
  resident st = Some d ->
  d !! "tareas" = Some tareas ->
  (forall estado, exists res,
      Store.getTareasByEstado estado st = (Ok res, in_memory d st)
      /\ sublist res tareas
      /\ forall t, t ∈ res <-> t ∈ tareas /\ strict_eq (obj_get "estado" t) estado = true)
  /\ (forall id, legible id -> exists res,
      Store.getTareasByEmpleado id st = (Ok res, in_memory d st)
      /\ sublist res tareas
      /\ (forall t, t ∈ res <->
            t ∈ tareas /\ exists z, parseInt id = Int z
                                    /\ obj_get "empleadoId" t = VNum (Int z)))
  /\ (forall id, legible id -> exists res,
      Store.getTareasByPaciente id st = (Ok res, in_memory d st)
      /\ sublist res tareas
      /\ (forall t, t ∈ res <->
            t ∈ tareas /\ exists z, parseInt id = Int z
                                    /\ obj_get "pacienteId" t = VNum (Int z))).
Proof.
  intros Hres Htar.
  assert (Hnum : forall (v : value) n,
            strict_eq v (VNum n) = true <-> exists z, n = Int z /\ v = VNum (Int z)).
  { intros v [z|].
    - rewrite strict_eq_Int. split; [eauto|]. by intros (z' & [= <-] & ->).
    - rewrite strict_eq_NaN. split; [discriminate|]. by intros (z' & [=] & _). }
  split_and!.
  - intros estado. eexists. split_and!.
    + unfold Store.getTareasByEstado, bind.
      by rewrite (raw_table_run st d "tareas" tareas Hres Htar).
    + apply sublist_filter.
    + intros t. rewrite list_elem_of_filter, Is_true_true. tauto.
  - intros id _. eexists. split_and!.
    + unfold Store.getTareasByEmpleado, bind.
      by rewrite (raw_table_run st d "tareas" tareas Hres Htar).
    + apply sublist_filter.
    + intros t. rewrite list_elem_of_filter, Is_true_true, Hnum. tauto.
  - intros id _. eexists. split_and!.
    + unfold Store.getTareasByPaciente, bind.
      by rewrite (raw_table_run st d "tareas" tareas Hres Htar).
    + apply sublist_filter.
    + intros t. rewrite list_elem_of_filter, Is_true_true, Hnum. tauto.
Qed.

Lemma task_filters_select_by_strict_equality_witness :
  exists res,
    Store.getTareasByEmpleado (VStr "1") Sample.st_dos_tareas
    = (Ok res, in_memory Sample.doc_dos_tareas Sample.st_dos_tareas)
    /\ sublist res [Sample.tarea1; Sample.tarea2].
Proof.
  destruct (task_filters_select_by_strict_equality Sample.st_dos_tareas
              Sample.doc_dos_tareas [Sample.tarea1; Sample.tarea2])
    as (_ & H & _); [vm_refl|vm_refl|].
  destruct (H (VStr "1")) as (res & Hrun & Hsub & _).
  - split; [reflexivity|]. intros z Hz.
    assert (z = 1) as -> by (revert Hz; vm_compute; congruence). reflexivity.
  - exists res. by split.
Defined.

Lemma has_id_lookup n (item : gmap string value) :
  Store.has_id n item = true -> item !! "id" = Some (VNum n).
Proof.
  unfold Store.has_id, obj_get. intros H%strict_eq_true.
  destruct (item !! "id") as [v|]; simpl in H; [by subst|discriminate].
Qed.



(** ** The statistics *)

Lemma two_filters_length {A} (p q : A -> bool) (l : list A) :
  (forall x, p x = true -> q x = false) ->
  (length (filter (fun x => p x) l) + length (filter (fun x => q x) l) <= length l)%nat
  /\ ((length (filter (fun x => p x) l) + length (filter (fun x => q x) l)
        = length l)%nat
      <-> Forall (fun x => p x = true \/ q x = true) l).
Proof.
  intros Hpq. induction l as [|a l [IHle IHeq]]; simpl.
  - split; [done|]. split; [constructor|done].
  - rewrite !filter_cons.
    destruct (p a) eqn:Hp; [rewrite (Hpq a Hp)|destruct (q a) eqn:Hq]; simpl.
    + split; [lia|]. rewrite Forall_cons. split.
      * intros H. split; [by left|]. apply IHeq. lia.
      * intros [_ H]. apply IHeq in H. lia.
    + split; [lia|]. rewrite Forall_cons. split.
      * intros H. split; [by right|]. apply IHeq. lia.
      * intros [_ H]. apply IHeq in H. lia.
    + split; [lia|]. rewrite Forall_cons. split.
      * intros H. lia.
      * intros [[H|H] _]; congruence.
Qed.

Lemma filter_length_le {A} (p : A -> bool) (l : list A) :
  (length (filter (fun x => p x) l) <= length l)%nat.
Proof. apply length_filter. Qed.

(** X13: [getEstadisticas] on a document that has the five tables.  The
    totals are the lengths of the tables; the pending and the completed
    tasks are those [getTareasByEstado] selects; together they are at
    most the tasks, and all of them exactly when every task is in one of
    the two states; the items low on stock are at most the items.  The
    document is only loaded. *)
Theorem getEstadisticas_counts st d usuarios empleados pacientes insumos tareas :
  resident st = Some d ->
  d !! "usuarios" = Some usuarios ->
  d !! "empleados" = Some empleados ->
  d !! "pacientes" = Some pacientes ->
  d !! "insumos" = Some insumos ->
  d !! "tareas" = Some tareas ->
  exists e,
    Store.getEstadisticas st = (Ok e, in_memory d st)
    /\ Store.totalUsuarios e = length usuarios
    /\ Store.totalEmpleados e = length empleados
    /\ Store.totalPacientes e = length pacientes
    /\ Store.totalInsumos e = length insumos
    /\ Store.totalTareas e = length tareas
    /\ returned (Store.getTareasByEstado (VStr "pendiente") st)
       ≫= (fun res => Some (length res)) = Some (Store.tareasPendientes e)
    /\ returned (Store.getTareasByEstado (VStr "completada") st)
       ≫= (fun res => Some (length res)) = Some (Store.tareasCompletadas e)
    /\ (Store.tareasPendientes e + Store.tareasCompletadas e <= Store.totalTareas e)%nat
    /\ ((Store.tareasPendientes e + Store.tareasCompletadas e = Store.totalTareas e)%nat
        <-> Forall (fun t => obj_get "estado" t = VStr "pendiente"
                             \/ obj_get "estado" t = VStr "completada") tareas)
    /\ (Store.insumosConBajoStock e <= Store.totalInsumos e)%nat.
Proof.
  intros Hres Hu He Hp Hi Ht.
  eexists. split.
  { unfold Store.getEstadisticas, bind.
    rewrite (raw_table_run st d "tareas" tareas Hres Ht). cbv beta iota zeta.
    rewrite (raw_table_in_memory st d "insumos" insumos Hi). cbv beta iota zeta.
    rewrite (raw_table_in_memory st d "usuarios" usuarios Hu). cbv beta iota zeta.
    rewrite (raw_table_in_memory st d "empleados" empleados He). cbv beta iota zeta.
    rewrite (raw_table_in_memory st d "pacientes" pacientes Hp). cbv beta iota zeta.
    reflexivity. }
  simpl.
  pose proof (two_filters_length
                (fun t => strict_eq (obj_get "estado" t) (VStr "pendiente"))
                (fun t => strict_eq (obj_get "estado" t) (VStr "completada"))
                tareas) as [Hle Heq].
  { intros t H%strict_eq_true. by rewrite H. }
  split_and!; try done.
  - unfold Store.getTareasByEstado, bind.
    by rewrite (raw_table_run st d "tareas" tareas Hres Ht).
  - unfold Store.getTareasByEstado, bind.
    by rewrite (raw_table_run st d "tareas" tareas Hres Ht).
  - rewrite Heq. apply Forall_proper; [|done].
    intros t. by rewrite !strict_eq_VStr.
  - apply length_filter.
Qed.

Lemma getEstadisticas_counts_witness :
  exists e,
    Store.getEstadisticas SampleUsers.st = (Ok e, in_memory SampleUsers.doc SampleUsers.st)
    /\ Store.totalUsuarios e = 2%nat.
Proof.
  destruct (getEstadisticas_counts SampleUsers.st SampleUsers.doc
              [SampleUsers.usuario_admin; SampleUsers.usuario_medico]
              [SampleUsers.empleado1] [] [] [])
    as (e & Hrun & Hu & _); [vm_refl|vm_refl|vm_refl|vm_refl|vm_refl|vm_refl|].
  exists e. by split.
Defined.

(** ** The composed reads, when they succeed *)

Lemma all_ok_inv {A B} (f : A -> result B) (l : list A) (vs : list B) :
  all_ok (map f l) = Ok vs -> Forall2 (fun a v => f a = Ok v) l vs.
Proof.
  revert vs. induction l as [|a l IH]; simpl; intros vs.
  - intros [= <-]. constructor.
  - destruct (f a) as [b|e] eqn:Hfa; [|discriminate].
    destruct (all_ok (map f l)) as [bs|e]; [|discriminate].
    intros [= <-]. constructor; [done|]. by apply IH.
Qed.

Lemma list_find_has_id n (tbl : table) i r :
  list_find (Store.has_id n) tbl = Some (i, r) ->
  r ∈ tbl /\ obj_get "id" r = VNum n.
Proof.
  intros (Hl & HP & _)%list_find_Some. split.
  - by eapply list_elem_of_lookup_2.
  - apply Is_true_true in HP. by apply strict_eq_true.
Qed.



(** ** Reads never write *)

Lemma read_only_ret {A} (a : A) : read_only (ret a).
Proof. by intros st. Qed.

Lemma read_only_throw {A} e : read_only (@throw A e).
Proof. by intros st. Qed.

Lemma read_only_bind {A B} (m : M A) (k : A -> M B) :
  read_only m -> (forall a, read_only (k a)) -> read_only (bind m k).
Proof.
  intros Hm Hk st. unfold bind.
  destruct (Hm st) as (H1 & H2 & H3).
  destruct (m st) as [[a|e] st1]; simpl in *; [|done].
  destruct (Hk a st1) as (K1 & K2 & K3).
  split_and!; congruence.
Qed.

Lemma read_only_ensureDataLoaded : read_only Store.ensureDataLoaded.
Proof.
  intros [[dm|] [| |dk] w];
    unfold Store.ensureDataLoaded, Store.loadData, resident, disk; simpl; done.
Qed.

Lemma read_only_the_table tableName : read_only (Store.the_table tableName).
Proof.
  apply read_only_bind; [apply read_only_ensureDataLoaded|].
  intros d. destruct (d !! tableName); [apply read_only_ret|].
  destruct (Store.inherited tableName); apply read_only_throw.
Qed.

Lemma read_only_getAll tableName : read_only (Store.getAll tableName).
Proof.
  apply read_only_bind; [apply read_only_ensureDataLoaded|].
  intros d. destruct (d !! tableName); [apply read_only_ret|].
  destruct (Store.inherited tableName); [apply read_only_ret|apply read_only_throw].
Qed.

Lemma read_only_raw_table tableName : read_only (Store.raw_table tableName).
Proof.
  apply read_only_bind; [apply read_only_ensureDataLoaded|].
  intros d. destruct (d !! tableName); [apply read_only_ret|apply read_only_throw].
Qed.

Lemma read_only_getById tableName id : read_only (Store.getById tableName id).
Proof.
  apply read_only_bind; [apply read_only_the_table|].
  intros tbl. destruct (list_find _ tbl) as [[i r]|];
    [apply read_only_ret|apply read_only_throw].
Qed.

Lemma read_only_getUsuarioByUsername usuario :
  read_only (Store.getUsuarioByUsername usuario).
Proof.
  apply read_only_bind; [apply read_only_raw_table|].
  intros tbl. destruct (find _ tbl); [apply read_only_ret|apply read_only_throw].
Qed.

Lemma read_only_getUsuarioCompleto id : read_only (Store.getUsuarioCompleto id).
Proof.
  unfold Store.getUsuarioCompleto, Store.getUsuarioById, Store.getRoleById,
    Store.getPerfilById, Store.getEmpleadoById, Store.getPacienteById.
  apply read_only_bind; [apply read_only_getById|intros usuario].
  apply read_only_bind; [apply read_only_getById|intros rol].
  apply read_only_bind; [apply read_only_getById|intros perfil].
  apply read_only_bind; [|intros detalles; apply read_only_ret].
  destruct (_ && _).
  - apply read_only_bind; [apply read_only_getById|intros e; apply read_only_ret].
  - destruct (_ && _); [|apply read_only_ret].
    apply read_only_bind; [apply read_only_getById|intros e; apply read_only_ret].
Qed.

Lemma read_only_for_each {A B} (f : A -> M B) (l : list A) :
  (forall a, read_only (f a)) -> read_only (Store.for_each f l).
Proof.
  intros Hf. induction l as [|a l IH]; simpl; [apply read_only_ret|].
  apply read_only_bind; [apply Hf|intros y].
  apply read_only_bind; [apply IH|intros ys; apply read_only_ret].
Qed.

Lemma read_only_tareaCompleta tarea : read_only (Store.tareaCompleta tarea).
Proof.
  unfold Store.tareaCompleta, Store.getEmpleadoById, Store.getPacienteById.
  apply read_only_bind; [apply read_only_getById|intros empleado].
  apply read_only_bind; [|intros p; apply read_only_ret].
  destruct (truthy _); [|apply read_only_ret].
  apply read_only_bind; [apply read_only_getById|intros p; apply read_only_ret].
Qed.

(** X15: the reading methods never write.  Whatever the state, and
    whether they return or throw, [getAll], [getById], the lookups by
    name, the filters, the composed reads and the statistics leave the
    file and its permissions as they were, and the document they worked
    on is the one the next operation works on. *)
Theorem reads_never_write :
  (forall tableName, read_only (Store.getAll tableName))
  /\ (forall tableName id, read_only (Store.getById tableName id))
  /\ (forall usuario, read_only (Store.getUsuarioByUsername usuario))
  /\ (forall dni, read_only (Store.getPacienteByDni dni))
  /\ (forall id, read_only (Store.getTareasByEmpleado id))
  /\ (forall id, read_only (Store.getTareasByPaciente id))
  /\ (forall estado, read_only (Store.getTareasByEstado estado))
  /\ (forall id, read_only (Store.getUsuarioCompleto id))
  /\ read_only Store.getTareasCompletas
  /\ read_only Store.getEstadisticas.
Proof.
  split_and!.
  - apply read_only_getAll.
  - apply read_only_getById.
  - apply read_only_getUsuarioByUsername.
  - intros dni. apply read_only_bind; [apply read_only_raw_table|].
    intros tbl. destruct (find _ tbl); [apply read_only_ret|apply read_only_throw].
  - intros id. apply read_only_bind; [apply read_only_raw_table|].
    intros tbl. apply read_only_ret.
  - intros id. apply read_only_bind; [apply read_only_raw_table|].
    intros tbl. apply read_only_ret.
  - intros estado. apply read_only_bind; [apply read_only_raw_table|].
    intros tbl. apply read_only_ret.
  - apply read_only_getUsuarioCompleto.
  - apply read_only_bind; [apply read_only_getAll|].
    intros [tareas|name]; [|apply read_only_throw].
    apply read_only_for_each, read_only_tareaCompleta.
  - unfold Store.getEstadisticas.
    apply read_only_bind; [apply read_only_raw_table|intros tareas].
    apply read_only_bind; [apply read_only_raw_table|intros insumos].
    apply read_only_bind; [apply read_only_raw_table|intros usuarios].
    apply read_only_bind; [apply read_only_raw_table|intros empleados].
    apply read_only_bind; [apply read_only_raw_table|intros pacientes].
    apply read_only_ret.
Qed.

(** X16: the methods that read [this.data.<table>] directly make no
    test on the table.  When the document lacks it they throw the
    [TypeError] of the property access on [undefined], where [getAll]
    throws the error that names the table. *)
Theorem direct_reads_of_a_missing_table_throw_TypeError st d :
  resident st = Some d ->
  (d !! "usuarios" = None ->
   forall usuario,
     Store.getUsuarioByUsername usuario st = (Throw TypeError, in_memory d st)
     /\ Store.getAll "usuarios" st = (Throw (TablaNoExiste "usuarios"), in_memory d st))
  /\ (d !! "pacientes" = None ->
      forall dni, Store.getPacienteByDni dni st = (Throw TypeError, in_memory d st))
  /\ (d !! "tareas" = None ->
      forall v,
        Store.getTareasByEmpleado v st = (Throw TypeError, in_memory d st)
        /\ Store.getTareasByPaciente v st = (Throw TypeError, in_memory d st)
        /\ Store.getTareasByEstado v st = (Throw TypeError, in_memory d st))
  /\ (d !! "tareas" = None \/ d !! "insumos" = None \/ d !! "usuarios" = None
      \/ d !! "empleados" = None \/ d !! "pacientes" = None ->
      Store.getEstadisticas st = (Throw TypeError, in_memory d st)).
Proof.
  intros Hres.
  assert (Hraw : forall t, d !! t = None ->
            Store.raw_table t st = (Throw TypeError, in_memory d st)).
  { intros t Ht. unfold Store.raw_table, bind.
    by rewrite (ensureDataLoaded_run st d Hres), Ht. }
  assert (Hraw' : forall t,
            Store.raw_table t (in_memory d st)
            = (match d !! t with Some tbl => Ok tbl | None => Throw TypeError end,
               in_memory d st)).
  { intros t. unfold Store.raw_table, bind, Store.ensureDataLoaded, in_memory.
    simpl. by destruct (d !! t). }
  split_and!.
  - intros Hu usuario. split.
    + unfold Store.getUsuarioByUsername, bind. by rewrite Hraw.
    + unfold Store.getAll, Store.the_table, bind.
      by rewrite (ensureDataLoaded_run st d Hres), Hu.
  - intros Hp dni. unfold Store.getPacienteByDni, bind. by rewrite Hraw.
  - intros Ht v.
    unfold Store.getTareasByEmpleado, Store.getTareasByPaciente,
      Store.getTareasByEstado, bind. by rewrite Hraw.
  - intros Hnone. unfold Store.getEstadisticas, bind.
    destruct (d !! "tareas") as [tareas|] eqn:Ht; [|by rewrite Hraw].
    rewrite (raw_table_run st d "tareas" tareas Hres Ht). cbv beta iota zeta.
    rewrite !Hraw'.
    destruct (d !! "insumos"); [|done].
    destruct (d !! "usuarios"); [|done].
    destruct (d !! "empleados"); [|done].
    destruct (d !! "pacientes"); [|done].
    by destruct Hnone as [H|[H|[H|[H|H]]]].
Qed.

Lemma direct_reads_of_a_missing_table_throw_TypeError_witness :
  Store.getEstadisticas Sample.st_tareas
  = (Throw TypeError, in_memory Sample.doc_tareas Sample.st_tareas).
Proof.
  apply (direct_reads_of_a_missing_table_throw_TypeError Sample.st_tareas
           Sample.doc_tareas); [vm_refl|].
  right. left. vm_refl.
Defined.

(** * Further properties of the authentication service *)

Lemma starts_with_spec (pat s : list ascii) :
  Auth.starts_with pat s = true <-> exists post, s = pat ++ post.
Proof.
  revert s. induction pat as [|a pat IH]; intros s; simpl.
  - split; [eauto|done].
  - destruct s as [|b s].
    + split; [discriminate|]. by intros (post & H).
    + rewrite andb_true_iff, IH. split.
      * intros [->%Ascii.eqb_eq (post & ->)]. eauto.
      * intros (post & [= -> ->]). split; [apply Ascii.eqb_refl|eauto].
Qed.

Lemma occurs_in_spec (pat s : list ascii) :
  Auth.occurs_in pat s = true <-> exists pre post, s = pre ++ pat ++ post.
Proof.
  induction s as [|b s IH]; simpl.
  - rewrite orb_false_r, starts_with_spec. split.
    + intros (post & H). by exists [], post.
    + intros (pre & post & H). destruct pre; [by exists post|discriminate].
  - rewrite orb_true_iff, starts_with_spec, IH. split.
    + intros [(post & H)|(pre & post & ->)]; [by exists [], post|].
      by exists (b :: pre), post.
    + intros ([|c pre] & post & H); [left; by exists post|].
      right. injection H as -> ->. eauto.
Qed.

Section Sessions.

Variable bcrypt_compare : string -> string -> bool.
Variable jwt_sign : gmap string value -> string -> sign_options -> option string.
Variable jwt_verify : string -> string -> Z -> jwt_verified.
Variables (jwtSecret jwtExpiresIn : string).

Local Abbreviation autenticarUsuario :=
  (Auth.autenticarUsuario bcrypt_compare jwt_sign jwtSecret jwtExpiresIn).
Local Abbreviation autenticarAdmin :=
  (Auth.autenticarAdmin bcrypt_compare jwt_sign jwtSecret jwtExpiresIn).
Local Abbreviation crearSesion := (Auth.crearSesion jwt_sign jwtSecret jwtExpiresIn).
Local Abbreviation validarToken := (Auth.validarToken jwt_verify jwtSecret).
Local Abbreviation obtenerSesion := (Auth.obtenerSesion jwt_verify jwtSecret).
Local Abbreviation cerrarSesion := (Auth.cerrarSesion jwt_verify jwtSecret).
Local Abbreviation obtenerUsuarioActual :=
  (Auth.obtenerUsuarioActual jwt_verify jwtSecret).

Lemma crearSesion_effect uc now sesiones :
  match crearSesion uc now sesiones with
  | (Throw _, sesiones') => sesiones' = sesiones
  | (Ok sc, sesiones') =>
      sc = sesion_creada_de jwtExpiresIn now uc (sc_token sc)
      /\ sesiones' = <[ sc_token sc := sesion_de now uc (sc_token sc) ]> sesiones
      /\ jwt_sign (Auth.payload_of uc now) jwtSecret
           (SignOptions jwtExpiresIn "backend-ifts" (to_string (obj_get "id" uc)))
         = Some (sc_token sc)
  end.
Proof.
  unfold Auth.crearSesion, sesion_creada_de, sesion_de.
  destruct (obj_get "id" uc) eqn:Hid; try done;
    destruct (jwt_sign _ _ _) as [token|] eqn:Hs; simpl; done.
Qed.

Lemma autenticarUsuario_effect usuario password now st :
  let run := autenticarUsuario usuario password now st in
  read_only_step (store st) (store (snd run))
  /\ match fst run with
     | Failure _ _ => sesionesActivas (snd run) = sesionesActivas st
     | Success _ datos =>
         let token := sc_token (ad_sesion datos) in
         sesionesActivas (snd run)
         = <[ token := sesion_de now (ad_usuario datos) token ]> (sesionesActivas st)
         /\ ad_sesion datos
            = sesion_creada_de jwtExpiresIn now (ad_usuario datos) token
         /\ ad_permisos datos = sc_permisos (ad_sesion datos)
         /\ jwt_sign (Auth.payload_of (ad_usuario datos) now) jwtSecret
              (SignOptions jwtExpiresIn "backend-ifts"
                 (to_string (obj_get "id" (ad_usuario datos))))
            = Some token
     end.
Proof.
  intros run. subst run. unfold Auth.autenticarUsuario, read_only_step.
  pose proof (read_only_getUsuarioByUsername usuario (store st)) as (A1 & A2 & A3).
  destruct (Store.getUsuarioByUsername usuario (store st)) as [[u|e] db1];
    simpl in *; [|done].
  destruct (Auth.compare_password _ _ _) as [[|]|e]; simpl; [|done|done].
  pose proof (read_only_getUsuarioCompleto (obj_get "id" u) db1) as (B1 & B2 & B3).
  destruct (Store.getUsuarioCompleto _ db1) as [[uc|e] db2]; simpl in *;
    [|split_and!; congruence].
  pose proof (crearSesion_effect uc now (sesionesActivas st)) as Hc.
  destruct (crearSesion uc now _) as [[sc|e] ses']; simpl in *.
  - destruct Hc as (C1 & C2 & C3).
    split_and!; try congruence. by rewrite C1 at 1.
  - split_and!; congruence.
Qed.

(** X17: [autenticarUsuario] never writes the store, and it changes
    the map of sessions only when it succeeds.  On every failure the
    map is the one it was.  On success the map has gained, under the
    token that [jwt.sign] issued for the payload of the complete user,
    the session of that user, and nothing else has changed; the
    permissions of the answer are those of the session. *)
Theorem authentication_records_a_session_only_on_success
    usuario password now st :
  let run := autenticarUsuario usuario password now st in
  db_file (store (snd run)) = db_file (store st)
  /\ disk_writable (store (snd run)) = disk_writable (store st)
  /\ resident (store (snd run)) = resident (store st)
  /\ match fst run with
     | Failure _ _ => sesionesActivas (snd run) = sesionesActivas st
     | Success _ datos =>
         let token := sc_token (ad_sesion datos) in
         sesionesActivas (snd run)
         = <[ token := sesion_de now (ad_usuario datos) token ]> (sesionesActivas st)
         /\ ad_sesion datos
            = sesion_creada_de jwtExpiresIn now (ad_usuario datos) token
         /\ ad_permisos datos = sc_permisos (ad_sesion datos)
         /\ jwt_sign (Auth.payload_of (ad_usuario datos) now) jwtSecret
              (SignOptions jwtExpiresIn "backend-ifts"
                 (to_string (obj_get "id" (ad_usuario datos))))
            = Some token
     end.
Proof.
  intros run.
  destruct (autenticarUsuario_effect usuario password now st) as [Hstore Hses].
  fold run in Hstore, Hses. unfold read_only_step in Hstore.
  destruct Hstore as (H1 & H2 & H3). by split_and!.
Qed.

Lemma autenticarUsuario_codes usuario password now st :
  match fst (autenticarUsuario usuario password now st) with
  | Failure _ code => code = INVALID_PASSWORD \/ code = INTERNAL_ERROR
  | Success _ _ => True
  end.
Proof.
  unfold Auth.autenticarUsuario.
  destruct (Store.getUsuarioByUsername usuario (store st)) as [[u|e] db1];
    simpl; [|by right].
  destruct (Auth.compare_password _ _ _) as [[|]|e]; simpl; [|by left|by right].
  destruct (Store.getUsuarioCompleto _ db1) as [[uc|e] db2]; simpl; [|by right].
  destruct (crearSesion uc now _) as [[sc|e] ses']; simpl; [done|by right].
Qed.

Lemma esAdministrador_truthy (usuario : gmap string value) :
  truthy (Auth.esAdministrador usuario) = true
  <-> exists rol, obj_get "rol" usuario = VObj rol
                  /\ obj_get "nombre" rol = VStr "admin".
Proof.
  unfold Auth.esAdministrador.
  destruct (obj_get "rol" usuario) as [| |b|[z|]|s|l|rol] eqn:Hrol; simpl;
    [..|rewrite strict_eq_VStr; split; [eauto|by intros (r & [= <-] & H)]];
    (split; [|by intros (r & H & _)]);
    repeat (case_match; simpl); congruence.
Qed.

Lemma loginAdmin_run req now st usuario password :
  prop "usuario" (req_body req) = usuario ->
  prop "password" (req_body req) = password ->
  truthy usuario = true ->
  truthy password = true ->
  Controller.loginAdmin bcrypt_compare jwt_sign jwtSecret jwtExpiresIn req now st
  = match autenticarAdmin usuario password now st with
    | (Failure message code, st') =>
        (Controller.fail (match code with
                          | INSUFFICIENT_PERMISSIONS => 403
                          | _ => 401
                          end) message, st')
    | (Success message datos, st') => (Controller.login_ok message datos, st')
    end.
Proof.
  intros Hu Hp Htu Htp. unfold Controller.loginAdmin.
  destruct (req_body req) as [| |b|n|x|l|o] eqn:Hb;
    try (simpl in Hu; subst usuario; discriminate);
    by rewrite Hu, Hp, Htu, Htp.
Qed.

Lemma login_run req now st usuario password :
  prop "usuario" (req_body req) = usuario ->
  prop "password" (req_body req) = password ->
  truthy usuario = true ->
  truthy password = true ->
  Controller.login bcrypt_compare jwt_sign jwtSecret jwtExpiresIn req now st
  = match autenticarUsuario usuario password now st with
    | (Failure message code, st') => (Controller.fail 401 message, st')
    | (Success message datos, st') => (Controller.login_ok message datos, st')
    end.
Proof.
  intros Hu Hp Htu Htp. unfold Controller.login.
  destruct (req_body req) as [| |b|n|x|l|o] eqn:Hb;
    try (simpl in Hu; subst usuario; discriminate);
    by rewrite Hu, Hp, Htu, Htp.
Qed.

(** X18: [autenticarAdmin] answers [INSUFFICIENT_PERMISSIONS] only
    after [autenticarUsuario] has succeeded for a user whose role is
    not the object named ['admin'].  The state it leaves is the one
    [autenticarUsuario] left: the token was issued and the session of
    the refused user is in the map of sessions, active. *)
Theorem refused_admin_login_leaves_its_session
    usuario password now st message :
  fst (autenticarAdmin usuario password now st)
  = Failure message INSUFFICIENT_PERMISSIONS ->
  exists mensaje datos s,
    fst (autenticarUsuario usuario password now st) = Success mensaje datos
    /\ snd (autenticarAdmin usuario password now st)
       = snd (autenticarUsuario usuario password now st)
    /\ ~ (exists rol, obj_get "rol" (ad_usuario datos) = VObj rol
                      /\ obj_get "nombre" rol = VStr "admin")
    /\ sesionesActivas (snd (autenticarAdmin usuario password now st))
       !! sc_token (ad_sesion datos) = Some s
    /\ s_activa s = true
    /\ s_usuario s = obj_get "usuario" (ad_usuario datos)
    /\ (forall req,
          prop "usuario" (req_body req) = usuario ->
          prop "password" (req_body req) = password ->
          truthy usuario = true ->
          truthy password = true ->
          fst (Controller.loginAdmin bcrypt_compare jwt_sign jwtSecret jwtExpiresIn
                 req now st)
          = Controller.fail 403 message
          /\ fst (Controller.login bcrypt_compare jwt_sign jwtSecret jwtExpiresIn
                    req now st)
             = Controller.login_ok mensaje datos).
Proof.
  intros Hadmin.
  assert (Hcontroller : forall mensaje datos req,
    fst (autenticarUsuario usuario password now st) = Success mensaje datos ->
    prop "usuario" (req_body req) = usuario ->
    prop "password" (req_body req) = password ->
    truthy usuario = true ->
    truthy password = true ->
    fst (Controller.loginAdmin bcrypt_compare jwt_sign jwtSecret jwtExpiresIn
           req now st)
    = Controller.fail 403 message
    /\ fst (Controller.login bcrypt_compare jwt_sign jwtSecret jwtExpiresIn
              req now st)
       = Controller.login_ok mensaje datos).
  { intros mensaje datos req HU Hu Hp Htu Htp.
    rewrite (loginAdmin_run req now st usuario password Hu Hp Htu Htp).
    rewrite (login_run req now st usuario password Hu Hp Htu Htp).
    destruct (autenticarAdmin usuario password now st) as [[m1 d1|m1 c1] st1];
      simpl in Hadmin; [discriminate|]. injection Hadmin as -> ->.
    destruct (autenticarUsuario usuario password now st) as [[m2 d2|m2 c2] st2];
      simpl in HU; [|discriminate]. by injection HU as -> ->. }
  revert Hadmin.
  destruct (autenticarUsuario_effect usuario password now st) as [_ Hrun].
  unfold Auth.autenticarAdmin.
  destruct (autenticarUsuario usuario password now st) as [[m datos|m code] st']
    eqn:HU; simpl in *.
  - destruct (truthy (Auth.esAdministrador (ad_usuario datos))) eqn:Hadm;
      simpl; [discriminate|].
    intros Hadmin.
    exists m, datos, (sesion_de now (ad_usuario datos) (sc_token (ad_sesion datos))).
    split_and!; try done.
    + rewrite <- esAdministrador_truthy. congruence.
    + destruct Hrun as (-> & _). by rewrite lookup_insert_eq.
    + intros req. by apply Hcontroller.
  - intros [= -> ->].
    pose proof (autenticarUsuario_codes usuario password now st) as Hcode.
    rewrite HU in Hcode. simpl in Hcode. by destruct Hcode.
Qed.

(** X19: the check of the credentials, for a name that some stored
    user has.  Only the first user of that name counts.  A password
    that [bcrypt.compare] refuses gives [INVALID_PASSWORD]; an argument
    or a stored password that is not a string makes [bcrypt.compare]
    reject, and the answer is [INTERNAL_ERROR].  In both cases the
    store is only loaded and the sessions are as they were. *)
Theorem credential_check_outcomes usuario password now st d usuarios u :
  resident (store st) = Some d ->
  d !! "usuarios" = Some usuarios ->
  first_where (fun x => strict_eq (obj_get "usuario" x) usuario) usuarios u ->
  let run := autenticarUsuario usuario password now st in
  let st' := AuthState (in_memory d (store st)) (sesionesActivas st) in
  (forall pw hash,
      password = VStr pw -> obj_get "password" u = VStr hash ->
      bcrypt_compare pw hash = false ->
      run = (Failure "Contraseña incorrecta" INVALID_PASSWORD, st'))
  /\ ((forall pw, password <> VStr pw) \/ (forall hash, obj_get "password" u <> VStr hash) ->
      run = (Failure "Error interno del servidor" INTERNAL_ERROR, st')).
Proof.
  intros Hres Htbl Hfirst run st'. apply find_first_where in Hfirst.
  assert (Hlookup : Store.getUsuarioByUsername usuario (store st)
                    = (Ok u, in_memory d (store st))).
  { unfold Store.getUsuarioByUsername, bind.
    by rewrite (raw_table_run (store st) d "usuarios" usuarios Hres Htbl), Hfirst. }
  subst run. unfold Auth.autenticarUsuario. rewrite Hlookup. simpl.
  split.
  - intros pw hash -> Hhash Hcmp. unfold Auth.compare_password.
    by rewrite Hhash, Hcmp.
  - intros Hbad. unfold Auth.compare_password.
    destruct password as [| | | |pw| |]; try done.
    + destruct (obj_get "password" u) as [| | | |hash| |] eqn:Hhash; try done.
      destruct Hbad as [Hbad|Hbad]; [by destruct (Hbad pw)|by destruct (Hbad hash)].
Qed.

(** X20: logging out does not invalidate the token.  For a token that
    [jwt.verify] accepts, [cerrarSesion] returns [true], whether or not
    a session was recorded, and removes the entry of the token and no
    other; as long as the token verifies, the next [obtenerSesion]
    answers with an active session again, rebuilt from the claims, and
    puts it back in the map. *)
Theorem logout_does_not_invalidate_the_token token now now' sesiones :
  truthy (validarToken token now) = true ->
  truthy (validarToken token now') = true ->
  let cierre := cerrarSesion token now sesiones in
  let despues := obtenerSesion token now' (snd cierre) in
  fst cierre = true
  /\ snd cierre !! token = None
  /\ (forall k, k <> token -> snd cierre !! k = sesiones !! k)
  /\ exists s,
       fst despues = Some s
       /\ s_activa s = true
       /\ s_id s = token
       /\ s_usuarioId s = prop "id" (validarToken token now')
       /\ s_rol s = prop "rol" (validarToken token now')
       /\ s_ultimaActividad s = Int now'
       /\ snd despues !! token = Some s.
Proof.
  intros Hv Hv' cierre despues. subst despues cierre.
  unfold Auth.cerrarSesion, Auth.obtenerSesion. rewrite Hv, Hv'. simpl.
  rewrite lookup_delete_eq.
  split_and!; [done|done| |].
  - intros k Hk. by rewrite lookup_delete_ne.
  - eexists. split; [reflexivity|]. simpl.
    split_and!; try done. by rewrite lookup_insert_eq.
Qed.



(** X23: [limpiarSesionesExpiradas] only removes, and removes by idle
    time alone.  A session stays exactly when the time since its last
    activity is at most the threshold, 24 hours when none is given; a
    session whose last activity is an invalid date stays; running it
    again at the same time changes nothing. *)
Theorem limpiarSesionesExpiradas_drops_idle_sessions
    (tiempoExpiracion : value) now (sesiones : gmap string sesion) k s :
  sesiones !! k = Some s ->
  let limpio := Auth.limpiarSesionesExpiradas tiempoExpiracion now sesiones in
  limpio ⊆ sesiones
  /\ Auth.limpiarSesionesExpiradas tiempoExpiracion now limpio = limpio
  /\ (forall t0 ms,
        s_ultimaActividad s = Int t0 -> tiempoExpiracion = VNum (Int ms) ->
        (limpio !! k = Some s <-> now - t0 <= ms)
        /\ (limpio !! k = None <-> ms < now - t0))
  /\ (forall t0,
        s_ultimaActividad s = Int t0 -> tiempoExpiracion = VUndef ->
        (limpio !! k = Some s <-> now - t0 <= 86400000))
  /\ (s_ultimaActividad s = NaN -> limpio !! k = Some s).
Proof.
  intros Hk limpio. subst limpio. unfold Auth.limpiarSesionesExpiradas.
  split_and!.
  - apply map_filter_subseteq.
  - apply map_filter_id. intros i x Hx.
    by apply map_lookup_filter_Some in Hx as [_ Hx].
  - intros t0 ms Ht0 ->. rewrite map_lookup_filter_Some, map_lookup_filter_None.
    rewrite Hk. simpl. rewrite Ht0. simpl. split.
    + split.
      * intros [_ H]. apply Z.ltb_ge in H. lia.
      * intros H. split; [done|]. apply Z.ltb_ge. lia.
    + split.
      * intros [?|H]; [discriminate|]. specialize (H _ eq_refl). simpl in H.
        rewrite Ht0 in H. simpl in H.
        destruct (ms <? now - t0) eqn:Hlt; [by apply Z.ltb_lt in Hlt|done].
      * intros H. right. intros x [= <-]. simpl. rewrite Ht0. simpl.
        by rewrite (proj2 (Z.ltb_lt _ _) H).
  - intros t0 Ht0 ->. rewrite map_lookup_filter_Some.
    rewrite Hk. simpl. rewrite Ht0. simpl. split.
    + intros [_ H]. apply Z.ltb_ge in H. lia.
    + intros H. split; [done|]. apply Z.ltb_ge. lia.
  - intros Hnan. rewrite map_lookup_filter_Some. split; [done|].
    simpl. by rewrite Hnan.
Qed.

(** X24: [tienePermiso] for a user whose role is an object.  When the
    role's [permisos] is an array, the answer is whether the permission
    is one of its elements.  When it is a string, the answer is whether
    the permission occurs in it as a substring.  When it is falsy the
    answer is [false]; a non-zero number in its place makes the call
    throw. *)
Theorem tienePermiso_is_membership (usuario rol : gmap string value) (p : string) :
  obj_get "rol" usuario = VObj rol ->
  (forall l, obj_get "permisos" rol = VArr l ->
     exists b, Auth.tienePermiso usuario (VStr p) = Ok b
               /\ (b = true <-> VStr p ∈ l))
  /\ (forall q, obj_get "permisos" rol = VStr q -> q <> ""%string ->
       exists b, Auth.tienePermiso usuario (VStr p) = Ok b
                 /\ (b = true <->
                     exists pre post,
                       list_ascii_of_string q
                       = pre ++ list_ascii_of_string p ++ post))
  /\ (truthy (obj_get "permisos" rol) = false ->
      Auth.tienePermiso usuario (VStr p) = Ok false)
  /\ (forall z, obj_get "permisos" rol = VNum (Int z) -> z <> 0 ->
       Auth.tienePermiso usuario (VStr p) = Throw TypeError).
Proof.
  intros Hrol. unfold Auth.tienePermiso. rewrite Hrol. simpl.
  split_and!.
  - intros l ->. simpl. eexists. split; [reflexivity|].
    rewrite existsb_exists. split.
    + intros (x & Hx & Heq). apply list_elem_of_In in Hx.
      assert (x = VStr p) as <-; [|done].
      destruct x as [| |b|[z|]|x|x|x]; simpl in Heq; try discriminate.
      by apply String.eqb_eq in Heq as ->.
    + intros Hin. exists (VStr p). split; [by apply list_elem_of_In|].
      simpl. apply String.eqb_refl.
  - intros q -> Hq. pose proof (proj2 (truthy_VStr q) Hq) as Ht.
    simpl in Ht |- *. rewrite Ht. simpl.
    eexists. split; [reflexivity|]. apply occurs_in_spec.
  - intros Hf. by rewrite Hf.
  - intros z -> Hz. simpl. by rewrite (proj2 (Z.eqb_neq z 0) Hz).
Qed.

End Sessions.

Lemma refused_admin_login_leaves_its_session_witness :
  exists mensaje datos s,
    fst (Auth.autenticarUsuario SampleUsers.toy_compare toy_sign_all "clave" "24h"
           (VStr "dlopez") (VStr "medico123") ToyJwt.now0
           (AuthState SampleUsers.st ∅))
    = Success mensaje datos
    /\ sesionesActivas
         (snd (Auth.autenticarAdmin SampleUsers.toy_compare toy_sign_all "clave" "24h"
                 (VStr "dlopez") (VStr "medico123") ToyJwt.now0
                 (AuthState SampleUsers.st ∅)))
       !! sc_token (ad_sesion datos) = Some s
    /\ s_activa s = true.
Proof.
  destruct (refused_admin_login_leaves_its_session SampleUsers.toy_compare
              toy_sign_all "clave" "24h" (VStr "dlopez") (VStr "medico123")
              ToyJwt.now0 (AuthState SampleUsers.st ∅)
              "Acceso denegado: Se requieren permisos de administrador")
    as (mensaje & datos & s & HU & _ & _ & Hs & Hact & _); [vm_refl|].
  exists mensaje, datos, s. by split_and!.
Defined.

Lemma credential_check_outcomes_witness :
  Auth.autenticarUsuario SampleUsers.toy_compare toy_sign_all "clave" "24h"
    (VStr "admin") (VStr "otra") ToyJwt.now0 (AuthState SampleUsers.st ∅)
  = (Failure "Contraseña incorrecta" INVALID_PASSWORD,
     AuthState (in_memory SampleUsers.doc SampleUsers.st) ∅).
Proof.
  destruct (credential_check_outcomes SampleUsers.toy_compare toy_sign_all "clave"
              "24h" (VStr "admin") (VStr "otra") ToyJwt.now0
              (AuthState SampleUsers.st ∅) SampleUsers.doc
              [SampleUsers.usuario_admin; SampleUsers.usuario_medico]
              SampleUsers.usuario_admin) as [H _]; [vm_refl|vm_refl| |].
  - exists 0%nat. split_and!; [vm_refl|vm_refl|]. intros j y Hj. lia.
  - apply (H "otra"%string "$2b$10$sal.admin123"%string); vm_refl.
Defined.

Lemma logout_does_not_invalidate_the_token_witness :
  fst (Auth.cerrarSesion ToyJwt.verify ToyJwt.secret ToyJwt.token0 ToyJwt.now0 ∅)
  = true
  /\ exists s,
       fst (Auth.obtenerSesion ToyJwt.verify ToyJwt.secret ToyJwt.token0
              (ToyJwt.now0 + 5000)
              (snd (Auth.cerrarSesion ToyJwt.verify ToyJwt.secret ToyJwt.token0
                      ToyJwt.now0 ∅)))
       = Some s
       /\ s_activa s = true.
Proof.
  destruct (logout_does_not_invalidate_the_token ToyJwt.verify ToyJwt.secret
              ToyJwt.token0 ToyJwt.now0 (ToyJwt.now0 + 5000) ∅)
    as (Hc & _ & _ & s & Hs & Hact & _); [vm_refl|vm_refl|].
  split; [exact Hc|]. exists s. by split.
Defined.



Lemma limpiarSesionesExpiradas_drops_idle_sessions_witness :
  let s := sesion_de ToyJwt.now0 ToyJwt.admin_completo ToyJwt.token0 in
  Auth.limpiarSesionesExpiradas VUndef (ToyJwt.now0 + 86400000)
    (<[ ToyJwt.token0 := s ]> ∅) !! ToyJwt.token0
  = Some s.
Proof.
  intros s.
  destruct (limpiarSesionesExpiradas_drops_idle_sessions VUndef
              (ToyJwt.now0 + 86400000) (<[ ToyJwt.token0 := s ]> ∅)
              ToyJwt.token0 s) as (_ & _ & _ & H & _).
  - apply lookup_insert_eq.
  - apply (H ToyJwt.now0); [reflexivity|reflexivity|lia].
Defined.

Lemma tienePermiso_is_membership_witness :
  exists b,
    Auth.tienePermiso ToyJwt.admin_completo (VStr "gestionar_usuarios") = Ok b
    /\ (b = true <-> VStr "gestionar_usuarios" ∈ [VStr "gestionar_usuarios"]).
Proof.
  destruct (tienePermiso_is_membership ToyJwt.admin_completo SampleUsers.rol_admin
              "gestionar_usuarios") as (H & _); [vm_refl|].
  apply H. vm_refl.
Defined.

(** * The bootstrap *)

Section Bootstrap.

Variable bcrypt_hash : string -> Z -> string -> string.

Local Abbreviation crearUsuarioAdmin := (Helper.crearUsuarioAdmin bcrypt_hash).
Local Abbreviation inicializarSistema := (Helper.inicializarSistema bcrypt_hash).

Lemma saved_in_memory d : in_memory d (saved d) = saved d.
Proof. reflexivity. Qed.

Lemma create_at_saved d tableName tbl zs (fields : gmap string value) :
  d !! tableName = Some tbl ->
  ids tbl = map (fun z => VNum (Int z)) zs ->
  safe_ids zs ->
  fields !! "id" = None ->
  let r : gmap string value := <[ "id" := VNum (Int (next_id zs)) ]> fields in
  Store.create tableName fields (saved d)
  = (Ok r, saved (<[tableName := tbl ++ [r]]> d)).
Proof.
  intros Htbl Hids Hsafe Hnone.
  by apply (create_generates_id (saved d) d tableName tbl zs fields).
Qed.

Lemma admin_empleado_run st d empleados zsE :
  resident st = Some d ->
  d !! "empleados" = Some empleados ->
  disk_writable st = true ->
  ids empleados = map (fun z => VNum (Int z)) zsE ->
  safe_ids zsE ->
  let e : gmap string value :=
    <[ "id" := VNum (Int (next_id zsE)) ]>
      {[ "nombre" := VStr "Administrador del Sistema";
         "puesto" := VStr "Administrador" ]} in
  Store.createEmpleado
    {[ "nombre" := VStr "Administrador del Sistema";
       "puesto" := VStr "Administrador" ]} st
  = (Ok e, saved (<["empleados" := empleados ++ [e]]> d)).
Proof.
  intros Hres Htbl Hw Hids Hsafe e. unfold Store.createEmpleado.
  set (datos := ({[ "nombre" := VStr "Administrador del Sistema";
                    "puesto" := VStr "Administrador" ]} : gmap string value)).
  assert (Hn : obj_get "nombre" datos = VStr "Administrador del Sistema") by vm_refl.
  assert (Hp : obj_get "puesto" datos = VStr "Administrador") by vm_refl.
  rewrite Hn, Hp.
  assert (Hc : negb (truthy (VStr "Administrador del Sistema"))
               || negb (truthy (VStr "Administrador")) = false) by vm_refl.
  rewrite Hc.
  by apply (create_generates_id st d "empleados" empleados zsE).
Qed.

Lemma admin_perfil_run d perfiles zsP (idE : Z) :
  d !! "perfiles" = Some perfiles ->
  ids perfiles = map (fun z => VNum (Int z)) zsP ->
  safe_ids zsP ->
  let p : gmap string value :=
    <[ "id" := VNum (Int (next_id zsP)) ]>
      {[ "tipo" := VStr "empleado"; "empleadoId" := VNum (Int idE);
         "pacienteId" := VNull ]} in
  Store.createPerfil
    {[ "tipo" := VStr "empleado"; "empleadoId" := VNum (Int idE);
       "pacienteId" := VNull ]} (saved d)
  = (Ok p, saved (<["perfiles" := perfiles ++ [p]]> d)).
Proof.
  intros Htbl Hids Hsafe p. unfold Store.createPerfil.
  set (datos := ({[ "tipo" := VStr "empleado"; "empleadoId" := VNum (Int idE);
                    "pacienteId" := VNull ]} : gmap string value)).
  assert (Ht : obj_get "tipo" datos = VStr "empleado") by vm_refl.
  assert (He : obj_get "empleadoId" datos = VNum (Int idE)) by vm_refl.
  assert (Hp : obj_get "pacienteId" datos = VNull) by vm_refl.
  rewrite Ht, He, Hp.
  assert (Hc : negb (truthy (VStr "empleado")) = false) by vm_refl.
  rewrite Hc.
  by apply (create_at_saved d "perfiles" perfiles zsP).
Qed.

Lemma admin_usuario_run salt d (idP : Z) :
  idP <> 0 ->
  Store.createUsuario bcrypt_hash salt
    {[ "usuario" := VStr "admin"; "password" := VStr "admin123";
       "rolId" := VNum (Int 1); "perfilId" := VNum (Int idP) ]} (saved d)
  = Store.create "usuarios"
      {[ "usuario" := VStr "admin";
         "password" := VStr (bcrypt_hash "admin123" 10 salt);
         "rolId" := VNum (Int 1); "perfilId" := VNum (Int idP) ]} (saved d).
Proof.
  intros HidP. unfold Store.createUsuario.
  set (datos := ({[ "usuario" := VStr "admin"; "password" := VStr "admin123";
                    "rolId" := VNum (Int 1); "perfilId" := VNum (Int idP) ]}
                 : gmap string value)).
  assert (H1 : obj_get "usuario" datos = VStr "admin") by vm_refl.
  assert (H2 : obj_get "password" datos = VStr "admin123") by vm_refl.
  assert (H3 : obj_get "rolId" datos = VNum (Int 1)) by vm_refl.
  assert (H4 : obj_get "perfilId" datos = VNum (Int idP)) by vm_refl.
  assert (H5 : obj_get "tipoPerfilId" datos = VUndef) by vm_refl.
  rewrite H1, H2, H3, H4, H5.
  assert (Hc : negb (truthy (VStr "admin")) || negb (truthy (VStr "admin123"))
               || negb (truthy (VNum (Int 1))) || negb (truthy (VNum (Int idP)))
               = false).
  { simpl. by rewrite (proj2 (Z.eqb_neq idP 0) HidP). }
  rewrite Hc. reflexivity.
Qed.

(** X25: [crearUsuarioAdmin] creates the administrator once.  On a
    document where no user is called ['admin'], the three tables have
    integer ids in the safe range (below 2^53 in magnitude) and the
    next id of the profiles is not 0 (an id that [createUsuario] would
    take for a missing [perfilId]), it appends an employee, a profile
    that refers to that employee and a user that refers to that profile,
    with the role id 1 and the hash of ['admin123'] as password, and
    returns the user.  Called again, it returns that same user and
    changes nothing, whatever salt the second hash would have drawn. *)
Theorem crearUsuarioAdmin_creates_once
    salt salt' st d empleados perfiles usuarios zsE zsP zsU :
  resident st = Some d ->
  disk_writable st = true ->
  d !! "empleados" = Some empleados ->
  d !! "perfiles" = Some perfiles ->
  d !! "usuarios" = Some usuarios ->
  ids empleados = map (fun z => VNum (Int z)) zsE ->
  ids perfiles = map (fun z => VNum (Int z)) zsP ->
  ids usuarios = map (fun z => VNum (Int z)) zsU ->
  safe_ids zsE ->
  safe_ids zsP ->
  safe_ids zsU ->
  Forall (fun u => strict_eq (obj_get "usuario" u) (VStr "admin") = false) usuarios ->
  next_id zsP <> 0 ->
  let e : gmap string value :=
    <[ "id" := VNum (Int (next_id zsE)) ]>
      {[ "nombre" := VStr "Administrador del Sistema";
         "puesto" := VStr "Administrador" ]} in
  let p : gmap string value :=
    <[ "id" := VNum (Int (next_id zsP)) ]>
      {[ "tipo" := VStr "empleado"; "empleadoId" := VNum (Int (next_id zsE));
         "pacienteId" := VNull ]} in
  let u : gmap string value :=
    <[ "id" := VNum (Int (next_id zsU)) ]>
      {[ "usuario" := VStr "admin";
         "password" := VStr (bcrypt_hash "admin123" 10 salt);
         "rolId" := VNum (Int 1); "perfilId" := VNum (Int (next_id zsP)) ]} in
  let d' : database :=
    <["usuarios" := usuarios ++ [u]]>
      (<["perfiles" := perfiles ++ [p]]> (<["empleados" := empleados ++ [e]]> d)) in
  crearUsuarioAdmin salt st = (Ok u, saved d')
  /\ inicializarSistema salt st = (Ok true, saved d')
  /\ crearUsuarioAdmin salt' (saved d') = (Ok u, saved d').
Proof.
  intros Hres Hw HE HP HU HidsE HidsP HidsU HsE HsP HsU Hnone HidP e p u d'.
  assert (Hfirst : crearUsuarioAdmin salt st = (Ok u, saved d')).
  { unfold Helper.crearUsuarioAdmin.
    unfold Store.getUsuarioByUsername at 1, bind at 1.
    rewrite (raw_table_run st d "usuarios" usuarios Hres HU).
    rewrite (proj2 (find_none_Forall _ _) Hnone). unfold throw at 1.
    unfold bind at 1.
    rewrite (admin_empleado_run (in_memory d st) d empleados zsE
               (resident_in_memory d st) HE Hw HidsE HsE).
    fold e.
    assert (Hide : obj_get "id" e = VNum (Int (next_id zsE))).
    { unfold obj_get, e. by rewrite lookup_insert_eq. }
    rewrite Hide. unfold bind at 1.
    rewrite (admin_perfil_run (<["empleados" := empleados ++ [e]]> d) perfiles zsP
               (next_id zsE)); [|by rewrite lookup_insert_ne|done|done].
    fold p.
    assert (Hidp : obj_get "id" p = VNum (Int (next_id zsP))).
    { unfold obj_get, p. by rewrite lookup_insert_eq. }
    rewrite Hidp. unfold bind at 1.
    rewrite (admin_usuario_run salt _ (next_id zsP) HidP).
    rewrite (create_at_saved _ "usuarios" usuarios zsU);
      [reflexivity| |done|done|done].
    rewrite !lookup_insert_ne by done. exact HU. }
  split_and!; [done| |].
  - unfold Helper.inicializarSistema, bind. fold crearUsuarioAdmin.
    by rewrite Hfirst.
  - unfold Helper.crearUsuarioAdmin.
    unfold Store.getUsuarioByUsername, bind.
    rewrite (raw_table_run (saved d') d' "usuarios" (usuarios ++ [u]));
      [|done|by apply lookup_insert_eq].
    assert (Hfind : find (fun x => strict_eq (obj_get "usuario" x) (VStr "admin"))
                      (usuarios ++ [u]) = Some u).
    { apply find_first_where. exists (length usuarios). split_and!.
      - by rewrite lookup_app_r, Nat.sub_diag by lia.
      - unfold obj_get, u. rewrite lookup_insert_ne by done.
        by rewrite lookup_insert_eq.
      - intros j y Hj Hy. rewrite lookup_app_l in Hy by done.
        rewrite Forall_forall in Hnone. apply Hnone.
        by eapply list_elem_of_lookup_2. }
    by rewrite Hfind.
Qed.

(** X26: the two edges of [crearUsuarioAdmin].  When some user is
    called ['admin'] it returns the first such user and writes nothing,
    whatever role or password that user has.  It is not atomic: on a
    document without the table of users, where the two other tables
    have integer ids in the safe range (below 2^53 in magnitude) and
    the next id of the profiles is not 0, the lookup fails, the failure
    is taken for "no such user", the employee and the profile are
    created and saved, and then the creation of the user throws; the
    two records stay. *)
Theorem crearUsuarioAdmin_edges salt st d :
  resident st = Some d ->
  (forall usuarios u,
      d !! "usuarios" = Some usuarios ->
      first_where (fun x => strict_eq (obj_get "usuario" x) (VStr "admin")) usuarios u ->
      crearUsuarioAdmin salt st = (Ok u, in_memory d st))
  /\ (forall empleados perfiles zsE zsP,
        d !! "usuarios" = None ->
        disk_writable st = true ->
        d !! "empleados" = Some empleados ->
        d !! "perfiles" = Some perfiles ->
        ids empleados = map (fun z => VNum (Int z)) zsE ->
        ids perfiles = map (fun z => VNum (Int z)) zsP ->
        safe_ids zsE ->
        safe_ids zsP ->
        next_id zsP <> 0 ->
        let e : gmap string value :=
          <[ "id" := VNum (Int (next_id zsE)) ]>
            {[ "nombre" := VStr "Administrador del Sistema";
               "puesto" := VStr "Administrador" ]} in
        let p : gmap string value :=
          <[ "id" := VNum (Int (next_id zsP)) ]>
            {[ "tipo" := VStr "empleado"; "empleadoId" := VNum (Int (next_id zsE));
               "pacienteId" := VNull ]} in
        crearUsuarioAdmin salt st
        = (Throw (TablaNoExiste "usuarios"),
           saved (<["perfiles" := perfiles ++ [p]]>
                    (<["empleados" := empleados ++ [e]]> d)))).
Proof.
  intros Hres. split.
  - intros usuarios u HU Hfirst. apply find_first_where in Hfirst.
    unfold Helper.crearUsuarioAdmin, Store.getUsuarioByUsername, bind.
    by rewrite (raw_table_run st d "usuarios" usuarios Hres HU), Hfirst.
  - intros empleados perfiles zsE zsP HU Hw HE HP HidsE HidsP HsE HsP HidP e p.
    unfold Helper.crearUsuarioAdmin.
    unfold Store.getUsuarioByUsername at 1, bind at 1.
    unfold Store.raw_table, bind at 1.
    rewrite (ensureDataLoaded_run st d Hres), HU. unfold throw at 1.
    unfold bind at 1.
    rewrite (admin_empleado_run (in_memory d st) d empleados zsE
               (resident_in_memory d st) HE Hw HidsE HsE).
    fold e.
    assert (Hide : obj_get "id" e = VNum (Int (next_id zsE))).
    { unfold obj_get, e. by rewrite lookup_insert_eq. }
    rewrite Hide. unfold bind at 1.
    rewrite (admin_perfil_run (<["empleados" := empleados ++ [e]]> d) perfiles zsP
               (next_id zsE)); [|by rewrite lookup_insert_ne|done|done].
    fold p.
    assert (Hidp : obj_get "id" p = VNum (Int (next_id zsP))).
    { unfold obj_get, p. by rewrite lookup_insert_eq. }
    rewrite Hidp. unfold bind at 1.
    rewrite (admin_usuario_run salt _ (next_id zsP) HidP).
    unfold Store.create, Store.the_table, bind, Store.ensureDataLoaded.
    simpl. rewrite !lookup_insert_ne by done. by rewrite HU.
Qed.

End Bootstrap.

Lemma crearUsuarioAdmin_creates_once_witness :
  let d : database :=
    {[ "empleados" := [SampleUsers.empleado1];
       "perfiles" := [SampleUsers.perfil1];
       "usuarios" := [SampleUsers.usuario_medico] ]} in
  exists u d',
    Helper.crearUsuarioAdmin SampleUsers.toy_hash "sal." (DbState None (Some d) true)
    = (Ok u, saved d')
    /\ Helper.crearUsuarioAdmin SampleUsers.toy_hash "otra." (saved d')
       = (Ok u, saved d')
    /\ obj_get "password" u = VStr "$2b$10$sal.admin123".
Proof.
  intros d.
  destruct (crearUsuarioAdmin_creates_once SampleUsers.toy_hash "sal." "otra."
              (DbState None (Some d) true) d
              [SampleUsers.empleado1] [SampleUsers.perfil1]
              [SampleUsers.usuario_medico] [1] [1] [2])
    as (H1 & _ & H2); try vm_refl.
  - by repeat constructor.
  - by repeat constructor.
  - by repeat constructor.
  - repeat constructor.
  - vm_compute. discriminate.
  - eexists _, _. split_and!; [exact H1|exact H2|vm_refl].
Defined.

Lemma crearUsuarioAdmin_edges_witness :
  let d : database :=
    {[ "empleados" := [SampleUsers.empleado1];
       "perfiles" := [SampleUsers.perfil1] ]} in
  let e : gmap string value :=
    {[ "id" := VNum (Int 2); "nombre" := VStr "Administrador del Sistema";
       "puesto" := VStr "Administrador" ]} in
  let p : gmap string value :=
    {[ "id" := VNum (Int 2); "tipo" := VStr "empleado";
       "empleadoId" := VNum (Int 2); "pacienteId" := VNull ]} in
  Helper.crearUsuarioAdmin SampleUsers.toy_hash "sal." SampleUsers.st
  = (Ok SampleUsers.usuario_admin, in_memory SampleUsers.doc SampleUsers.st)
  /\ Helper.crearUsuarioAdmin SampleUsers.toy_hash "sal."
       (DbState None (Some d) true)
     = (Throw (TablaNoExiste "usuarios"),
        saved {[ "empleados" := [SampleUsers.empleado1; e];
                 "perfiles" := [SampleUsers.perfil1; p] ]}).
Proof.
  intros d e p. split.
  - destruct (crearUsuarioAdmin_edges SampleUsers.toy_hash "sal." SampleUsers.st
                SampleUsers.doc) as [H _]; [vm_refl|].
    apply (H [SampleUsers.usuario_admin; SampleUsers.usuario_medico]); [vm_refl|].
    exists 0%nat. split_and!; [vm_refl|vm_refl|]. intros j y Hj. lia.
  - destruct (crearUsuarioAdmin_edges SampleUsers.toy_hash "sal."
                (DbState None (Some d) true) d) as [_ H]; [vm_refl|].
    rewrite (H [SampleUsers.empleado1] [SampleUsers.perfil1] [1] [1]);
      [vm_refl|vm_refl|vm_refl|vm_refl|vm_refl|vm_refl|vm_refl|..].
    + by repeat constructor.
    + by repeat constructor.
    + vm_compute. discriminate.
Defined.

(** * The controller *)

Lemma remove_first_unfold (pat s : list ascii) :
  Controller.remove_first pat s
  = if Auth.starts_with pat s then drop (length pat) s
    else match s with
         | [] => []
         | a :: r => a :: Controller.remove_first pat r
         end.
Proof. by destruct s. Qed.

Lemma remove_first_prefix (pat t : list ascii) :
  Controller.remove_first pat (pat ++ t) = t.
Proof.
  rewrite remove_first_unfold.
  rewrite (proj2 (starts_with_spec pat (pat ++ t))) by eauto.
  by rewrite drop_app_length.
Qed.

Lemma remove_first_absent (pat s : list ascii) :
  Auth.occurs_in pat s = false -> Controller.remove_first pat s = s.
Proof.
  induction s as [|a s IH]; simpl.
  - intros H. apply orb_false_iff in H as [-> _]. done.
  - intros H. apply orb_false_iff in H as [-> H]. by rewrite IH.
Qed.

Lemma list_ascii_of_string_app (a b : string) :
  list_ascii_of_string (a +:+ b) = list_ascii_of_string a ++ list_ascii_of_string b.
Proof. induction a as [|c a IH]; simpl; [done|]. by rewrite IH. Qed.

Lemma or_string_Some (t : string) (b : option string) :
  t <> ""%string -> Controller.or_string (Some t) b = Some t.
Proof.
  intros Ht. unfold Controller.or_string.
  by destruct (String.eqb_spec t "").
Qed.

(** X27: where the handlers take the token from.  An [Authorization]
    header gives the token with the first ['Bearer '] removed, so the
    bare token is accepted as well; the [x-session-id] header is read
    only when that gives nothing, and the [sessionId] cookie only when
    both give nothing; with none of the three there is no token. *)
Theorem token_is_taken_from_the_first_source (req : request) (t : string) :
  t <> ""%string ->
  let sin_authorization :=
    req_headers req !! "authorization" = None
    \/ req_headers req !! "authorization" = Some "Bearer "%string
    \/ req_headers req !! "authorization" = Some ""%string in
  let sin_session_id :=
    req_headers req !! "x-session-id" = None
    \/ req_headers req !! "x-session-id" = Some ""%string in
  (req_headers req !! "authorization" = Some ("Bearer " +:+ t)%string ->
   Controller.token_of req = Some t)
  /\ (req_headers req !! "authorization" = Some t ->
      Auth.occurs_in (list_ascii_of_string "Bearer ") (list_ascii_of_string t) = false ->
      Controller.token_of req = Some t)
  /\ (sin_authorization ->
      req_headers req !! "x-session-id" = Some t ->
      Controller.token_of req = Some t)
  /\ (sin_authorization -> sin_session_id ->
      forall c, req_cookies req = Some c -> c !! "sessionId" = Some t ->
                Controller.token_of req = Some t)
  /\ (sin_authorization -> sin_session_id -> req_cookies req = None ->
      Controller.no_token (Controller.token_of req) = true)
  /\ (Controller.no_token (Controller.token_of req) = true ->
      forall jwt_verify jwtSecret now now' st permiso roles,
        let r := Controller.fail 401 "No autenticado: Token JWT requerido" in
        Controller.requireAdmin jwt_verify jwtSecret req now now' st = (Responds r, st)
        /\ Controller.requirePermission jwt_verify jwtSecret permiso req now now' st
           = (Responds r, st)
        /\ Controller.requirePaciente jwt_verify jwtSecret req now now' st
           = (Responds r, st)
        /\ Controller.requireMultipleRoles jwt_verify jwtSecret roles req now now' st
           = (Responds r, st)
        /\ Controller.getCurrentUser jwt_verify jwtSecret req now now' st = (r, st)
        /\ Controller.logout jwt_verify jwtSecret req now st
           = (Controller.fail 400 "No hay token JWT activo", st)).
Proof.
  intros Ht sinA sinS.
  assert (HA : sinA ->
            forall b,
              Controller.or_string
                ((fun h => string_of_list_ascii
                             (Controller.remove_first (list_ascii_of_string "Bearer ")
                                (list_ascii_of_string h)))
                   <$> req_headers req !! "authorization") b = b).
  { intros [-> | [-> | ->]] b; reflexivity. }
  assert (HS : sinS ->
            forall b, Controller.or_string (req_headers req !! "x-session-id") b = b).
  { intros [-> | ->] b; reflexivity. }
  split_and!.
  - intros Hh. unfold Controller.token_of. rewrite Hh.
    unfold fmap, option_fmap, option_map. cbv beta iota.
    rewrite list_ascii_of_string_app, remove_first_prefix.
    rewrite string_of_list_ascii_of_string.
    by rewrite !or_string_Some.
  - intros Hh Hno. unfold Controller.token_of. rewrite Hh.
    unfold fmap, option_fmap, option_map. cbv beta iota.
    rewrite (remove_first_absent _ _ Hno).
    rewrite string_of_list_ascii_of_string.
    by rewrite !or_string_Some.
  - intros HsinA Hx. unfold Controller.token_of.
    rewrite (HA HsinA), Hx. by rewrite !or_string_Some.
  - intros HsinA HsinS c Hc Hs. unfold Controller.token_of.
    rewrite (HA HsinA), (HS HsinS), Hc, Hs.
    unfold Controller.or_string. by destruct (String.eqb_spec t "").
  - intros HsinA HsinS Hc. unfold Controller.token_of.
    by rewrite (HA HsinA), (HS HsinS), Hc.
  - intros Hno jwt_verify jwtSecret now now' st permiso roles r.
    unfold Controller.requireAdmin, Controller.requirePermission,
      Controller.requirePaciente, Controller.requireMultipleRoles,
      Controller.getCurrentUser, Controller.logout, Controller.token_and_payload.
    rewrite Hno. by split_and!.
Qed.

Lemma token_is_taken_from_the_first_source_witness :
  Controller.token_of
    (Request VUndef
       {[ "authorization" := "Bearer toy.admin.token"%string;
          "x-session-id" := "otro"%string ]} None)
  = Some "toy.admin.token"%string.
Proof.
  destruct (token_is_taken_from_the_first_source
              (Request VUndef
                 {[ "authorization" := "Bearer toy.admin.token"%string;
                    "x-session-id" := "otro"%string ]} None)
              "toy.admin.token") as (H & _); [discriminate|].
  apply H. vm_refl.
Defined.

Section HandlerProperties.

Variable bcrypt_compare : string -> string -> bool.
Variable jwt_sign : gmap string value -> string -> sign_options -> option string.
Variable jwt_verify : string -> string -> Z -> jwt_verified.
Variables (jwtSecret jwtExpiresIn : string).

Local Abbreviation validarToken := (Auth.validarToken jwt_verify jwtSecret).
Local Abbreviation obtenerUsuarioActual :=
  (Auth.obtenerUsuarioActual jwt_verify jwtSecret).
Local Abbreviation requireAdmin := (Controller.requireAdmin jwt_verify jwtSecret).
Local Abbreviation logout := (Controller.logout jwt_verify jwtSecret).
Local Abbreviation login :=
  (Controller.login bcrypt_compare jwt_sign jwtSecret jwtExpiresIn).
Local Abbreviation loginAdmin :=
  (Controller.loginAdmin bcrypt_compare jwt_sign jwtSecret jwtExpiresIn).

Lemma token_and_payload_inr req now token payload :
  Controller.token_and_payload jwt_verify jwtSecret req now = inr (token, payload) ->
  Controller.token_of req = Some token
  /\ token <> ""%string
  /\ payload = validarToken token now
  /\ truthy payload = true.
Proof.
  unfold Controller.token_and_payload, Controller.no_token.
  destruct (Controller.token_of req) as [s|]; [|discriminate].
  destruct (String.eqb_spec s ""); [discriminate|]. simpl.
  destruct (truthy (validarToken s now)) eqn:Hp; simpl; [|discriminate].
  intros [= <- <-]. by split_and!.
Qed.

Lemma token_and_payload_inl req now r :
  Controller.token_and_payload jwt_verify jwtSecret req now = inl r ->
  res_status r = 401 /\ res_json r !! "success" = Some (VBool false).
Proof.
  unfold Controller.token_and_payload.
  destruct (Controller.no_token _); [by intros [= <-]|].
  destruct (truthy _); simpl; [discriminate|]. by intros [= <-].
Qed.

Lemma obtenerUsuarioActual_effect token now st :
  let run := obtenerUsuarioActual token now st in
  sesionesActivas (snd run) = sesionesActivas st
  /\ read_only_step (store st) (store (snd run))
  /\ (forall sesiones,
        fst (obtenerUsuarioActual token now (AuthState (store st) sesiones)) = fst run)
  /\ (forall usuario,
        fst run = Some usuario ->
        truthy (validarToken token now) = true
        /\ fst (Store.getUsuarioCompleto (prop "id" (validarToken token now)) (store st))
           = Ok usuario).
Proof.
  intros run. subst run. unfold Auth.obtenerUsuarioActual, read_only_step.
  destruct (truthy (validarToken token now)); simpl.
  - pose proof (read_only_getUsuarioCompleto (prop "id" (validarToken token now))
                  (store st)) as (H1 & H2 & H3).
    destruct (Store.getUsuarioCompleto _ (store st)) as [[u|e] db]; simpl in *.
    + split_and!; try done. by intros usuario [= <-].
    + by split_and!.
  - by split_and!.
Qed.

(** X28: what [requireAdmin] decides on.  It calls [next()] only for a
    request whose token verifies at both readings of the clock and
    whose user, as [getUsuarioCompleto] builds it from the store now
    for the [id] of the claims, has the role named ['admin']; the role
    that the token claims has no part in it, nor has the map of
    sessions, so a token whose session was closed passes as before.
    Otherwise it answers 401 or 403, never 500.  It writes nothing. *)
Theorem requireAdmin_decides_on_the_live_role req now now' st :
  let run := requireAdmin req now now' st in
  sesionesActivas (snd run) = sesionesActivas st
  /\ read_only_step (store st) (store (snd run))
  /\ (forall sesiones,
        fst (requireAdmin req now now' (AuthState (store st) sesiones)) = fst run)
  /\ match fst run with
     | Next campos =>
         exists token usuario rol,
           Controller.token_of req = Some token
           /\ truthy (validarToken token now) = true
           /\ truthy (validarToken token now') = true
           /\ fst (Store.getUsuarioCompleto (prop "id" (validarToken token now'))
                     (store st)) = Ok usuario
           /\ obj_get "rol" usuario = VObj rol
           /\ obj_get "nombre" rol = VStr "admin"
           /\ campos = {[ "user" := VObj usuario; "sessionId" := VStr token;
                          "jwtPayload" := validarToken token now ]}
     | Responds r =>
         (res_status r = 401 \/ res_status r = 403)
         /\ res_json r !! "success" = Some (VBool false)
     end.
Proof.
  intros run. subst run. unfold Controller.requireAdmin.
  destruct (Controller.token_and_payload jwt_verify jwtSecret req now)
    as [r|[token payload]] eqn:Htp.
  - simpl. apply token_and_payload_inl in Htp as [Hs Hj].
    split_and!; try done. by left.
  - apply token_and_payload_inr in Htp as (Htok & Hne & -> & Hp).
    destruct (obtenerUsuarioActual_effect token now' st) as (E1 & E2 & E3 & E4).
    split_and!.
    + destruct (obtenerUsuarioActual token now' st) as [[u|] st']; simpl in *;
        [destruct (truthy (Auth.esAdministrador u))|]; done.
    + destruct (obtenerUsuarioActual token now' st) as [[u|] st']; simpl in *;
        [destruct (truthy (Auth.esAdministrador u))|]; done.
    + intros sesiones. specialize (E3 sesiones).
      destruct (obtenerUsuarioActual token now' (AuthState (store st) sesiones))
        as [[u1|] st1], (obtenerUsuarioActual token now' st) as [[u|] st'];
        simpl in *; try discriminate.
      * injection E3 as ->. by destruct (truthy (Auth.esAdministrador u)).
      * done.
    + destruct (obtenerUsuarioActual token now' st) as [[u|] st']; simpl in *.
      * destruct (E4 u eq_refl) as [Hv Hc].
        destruct (truthy (Auth.esAdministrador u)) eqn:Hadm; simpl.
        -- apply esAdministrador_truthy in Hadm as (rol & Hrol & Hnom).
           exists token, u, rol. by split_and!.
        -- split; [by right|done].
      * split; [by right|done].
Qed.

Lemma completo_keeps_fields d id uc :
  completo d id = Ok uc ->
  exists stored,
    find_by_id "usuarios" (default [] (d !! "usuarios")) id = Ok stored
    /\ forall k, k <> "rol"%string -> k <> "perfil"%string -> uc !! k = stored !! k.
Proof.
  unfold completo.
  destruct (find_by_id "usuarios" _ id) as [usuario|e]; [simpl|discriminate].
  destruct (find_by_id "roles" _ _) as [rol|e]; [simpl|discriminate].
  destruct (find_by_id "perfiles" _ _) as [perfil|e]; [simpl|discriminate].
  destruct (and_then _ _) as [uc'|e] eqn:Hd; [|discriminate].
  intros [= <-]. exists usuario. split; [done|].
  revert Hd.
  destruct (_ && _); simpl.
  - destruct (find_by_id "empleados" _ _); simpl; [|discriminate].
    intros [= <-] k Hk1 Hk2. by rewrite !lookup_insert_ne.
  - destruct (_ && _); simpl.
    + destruct (find_by_id "pacientes" _ _); simpl; [|discriminate].
      intros [= <-] k Hk1 Hk2. by rewrite !lookup_insert_ne.
    + intros [= <-] k Hk1 Hk2. by rewrite !lookup_insert_ne.
Qed.


(** X30: the answers of [logout], and what it leaves.  It answers 200
    exactly when the request carries a token that verifies, and 400
    otherwise; on 200 it clears the [sessionId] cookie and the token has
    no session in the map.  It does not touch the store, and
    [requireAdmin] decides on the same request afterwards as it would
    have before: the token is not locked out. *)
Theorem logout_does_not_lock_out req now now1 now2 st :
  let run := logout req now st in
  store (snd run) = store st
  /\ (res_status (fst run) = 200 \/ res_status (fst run) = 400)
  /\ (res_status (fst run) = 200
      <-> exists token, Controller.token_of req = Some token
                        /\ token <> ""%string
                        /\ truthy (validarToken token now) = true)
  /\ (res_status (fst run) = 200 ->
      res_clearCookie (fst run) = Some "sessionId"%string
      /\ forall token, Controller.token_of req = Some token ->
                       sesionesActivas (snd run) !! token = None)
  /\ fst (requireAdmin req now1 now2 (snd run)) = fst (requireAdmin req now1 now2 st).
Proof.
  intros run. subst run. unfold Controller.logout, Controller.no_token.
  assert (Hsame : forall sesiones,
            fst (requireAdmin req now1 now2 (AuthState (store st) sesiones))
            = fst (requireAdmin req now1 now2 st)).
  { intros sesiones. unfold Controller.requireAdmin.
    destruct (Controller.token_and_payload jwt_verify jwtSecret req now1)
      as [r|[token payload]]; [done|].
    destruct (obtenerUsuarioActual_effect token now2 st) as (_ & _ & E3 & _).
    specialize (E3 sesiones).
    destruct (obtenerUsuarioActual token now2 (AuthState (store st) sesiones))
      as [[u1|] st1], (obtenerUsuarioActual token now2 st) as [[u|] st'];
      simpl in *; try discriminate; [|done].
    injection E3 as ->. by destruct (truthy (Auth.esAdministrador u)). }
  destruct (Controller.token_of req) as [s|] eqn:Htok.
  - destruct (String.eqb_spec s "") as [->|Hs]; simpl.
    + split_and!; try done; try (by left); try (by right); try apply Hsame.
      split; [discriminate|]. intros (token & [= <-] & Hne & _). by destruct Hne.
    + unfold Auth.cerrarSesion.
      destruct (truthy (validarToken s now)) eqn:Hv; simpl.
      * split_and!; try done; try (by left); try (by right); try apply Hsame.
        -- split; [|done]. intros _. by exists s.
        -- intros _. split; [done|]. intros token [= <-]. apply lookup_delete_eq.
      * split_and!; try done; try (by left); try (by right); try apply Hsame.
        split; [discriminate|]. intros (token & [= <-] & _ & Hv'). congruence.
  - simpl. split_and!; try done; try (by left); try (by right); try apply Hsame.
    split; [discriminate|]. by intros (token & [=] & _).
Qed.

End HandlerProperties.


Lemma requireAdmin_decides_on_the_live_role_witness :
  exists campos,
    fst (Controller.requireAdmin ToyJwt.verify ToyJwt.secret
           (Request VUndef {[ "authorization" := "Bearer toy.admin.token"%string ]} None)
           ToyJwt.now0 (ToyJwt.now0 + 5000) (AuthState SampleUsers.st ∅))
    = Next campos
    /\ campos !! "sessionId" = Some (VStr ToyJwt.token0).
Proof.
  pose proof (requireAdmin_decides_on_the_live_role ToyJwt.verify ToyJwt.secret
                (Request VUndef
                   {[ "authorization" := "Bearer toy.admin.token"%string ]} None)
                ToyJwt.now0 (ToyJwt.now0 + 5000) (AuthState SampleUsers.st ∅))
    as (_ & _ & _ & H).
  destruct (fst (Controller.requireAdmin ToyJwt.verify ToyJwt.secret _ _ _ _))
    as [r|campos] eqn:Hrun.
  - exfalso. revert Hrun. vm_compute. discriminate.
  - exists campos. split; [done|].
    destruct H as (token & usuario & rol & Htok & _ & _ & _ & _ & _ & ->).
    assert (token = ToyJwt.token0) as ->.
    { revert Htok. vm_compute. congruence. }
    rewrite lookup_insert_ne by done. by rewrite lookup_insert_eq.
Defined.

Lemma logout_does_not_lock_out_witness :
  let req :=
    Request VUndef {[ "authorization" := "Bearer toy.admin.token"%string ]} None in
  let st := AuthState SampleUsers.st ∅ in
  res_status (fst (Controller.logout ToyJwt.verify ToyJwt.secret req ToyJwt.now0 st))
  = 200
  /\ fst (Controller.requireAdmin ToyJwt.verify ToyJwt.secret req
            (ToyJwt.now0 + 1000) (ToyJwt.now0 + 2000)
            (snd (Controller.logout ToyJwt.verify ToyJwt.secret req ToyJwt.now0 st)))
     = fst (Controller.requireAdmin ToyJwt.verify ToyJwt.secret req
              (ToyJwt.now0 + 1000) (ToyJwt.now0 + 2000) st).
Proof.
  intros req st.
  destruct (logout_does_not_lock_out ToyJwt.verify ToyJwt.secret req ToyJwt.now0
              (ToyJwt.now0 + 1000) (ToyJwt.now0 + 2000) st)
    as (_ & _ & _ & _ & H).
  split; [vm_refl|exact H].
Defined.

Lemma authentication_records_a_session_only_on_success_witness :
  let run :=
    Auth.autenticarUsuario SampleUsers.toy_compare ToyJwt.sign ToyJwt.secret "24h"
      (VStr "admin") (VStr "admin123") ToyJwt.now0 (AuthState SampleUsers.st ∅) in
  db_file (store (snd run)) = db_file SampleUsers.st.
Proof.
  intros run.
  by destruct (authentication_records_a_session_only_on_success
                 SampleUsers.toy_compare ToyJwt.sign ToyJwt.secret "24h"
                 (VStr "admin") (VStr "admin123") ToyJwt.now0
                 (AuthState SampleUsers.st ∅)) as (H & _).
Defined.
